(** * AVRT Firewall: the decision pipeline, embedded and verified

    A shallow embedding of the scoring, validation, enforcement and audit-chain
    code of the AVRT middleware:

    - [ios-sdk/middleware/spiel_engine.py]          (module [SPIELEngine])
    - [ios-sdk/backend/services/spiel_service.py]   (module [SPIELService])
    - [ios-sdk/backend/services/tht_service.py]     (module [THTService])
    - [ios-sdk/backend/services/hash_service.py]    (module [HashService])
    - [ios-sdk/middleware/fail_closed.py]           (module [FailClosed])

    Python values are modelled as follows.

    - A [str] is a Stdlib [string]; its characters stand for the code points
      0..255, on which [lower], [strip] and [split] below follow Python
      exactly.  Text with code points above 255 is outside this model; where
      a property depends on it, the module [Unicode] models [str.lower] on
      lists of arbitrary code points, with its rule for the capital sigma.
    - Every dimension score is an integer-valued float: baselines and weights
      are whole numbers far below 2^53, so the float sums and differences of
      the code are exact.  Scores are integers ([Z]); the composite, a
      quotient by [5.0], and the confidence, a quotient by [3.0], are
      rationals ([Q]).
    - Logging, the wall clock and exceptions are explicit: code that logs,
      reads the clock or may raise runs in the monad [M] over a [world].  An
      exception records whether its class derives from [Exception], which is
      what [except Exception] tests. *)

From Stdlib Require Import ZArith QArith Qround Lia Lqa Ascii.
From stdpp Require Import base option strings list gmap pretty.

Local Open Scope Z_scope.

(** ** The Python runtime the code relies on *)

Module Py.

(** *** Strings *)

(** [str.lower] on one code point below 256: A-Z, and the Latin-1 capitals
    U+00C0..U+00DE except the multiplication sign U+00D7, move up by 32. *)
Definition char_lower (c : ascii) : ascii :=
  let n := Ascii.N_of_ascii c in
  if ((65 <=? n) && (n <=? 90) ||
      (192 <=? n) && (n <=? 222) && negb (n =? 215))%N
  then Ascii.ascii_of_N (n + 32)
  else c.

(** [s.lower()] on a text of code points below 256, where [str.lower] acts
    on each code point by itself. *)
Fixpoint lower (s : string) : string :=
  match s with
  | EmptyString => EmptyString
  | String c s' => String (char_lower c) (lower s')
  end.

(** [str.isspace] on one code point below 256. *)
Definition is_space (c : ascii) : bool :=
  let n := Ascii.N_of_ascii c in
  ((9 <=? n) && (n <=? 13) || (28 <=? n) && (n <=? 32) ||
   (n =? 133) || (n =? 160))%N.

Fixpoint lstrip (s : string) : string :=
  match s with
  | EmptyString => EmptyString
  | String c s' => if is_space c then lstrip s' else s
  end.

(** [s.strip()] *)
Definition strip (s : string) : string :=
  String.rev (lstrip (String.rev (lstrip s))).

(** [s.split()]: the maximal runs of non-space characters, in order.
    [cur] is the run being read, most recent character first. *)
Fixpoint split_go (cur : option string) (s : string) : list string :=
  match s with
  | EmptyString => option_list (String.rev <$> cur)
  | String c s' =>
      if is_space c
      then option_list (String.rev <$> cur) ++ split_go None s'
      else split_go (Some (String c (default EmptyString cur))) s'
  end.

Definition split (s : string) : list string := split_go None s.

(** [s.startswith(p)] *)
Fixpoint startswith (p s : string) : bool :=
  match p, s with
  | EmptyString, _ => true
  | String _ _, EmptyString => false
  | String a p', String b s' => bool_decide (a = b) && startswith p' s'
  end.

(** [p in s] on strings: [p] occurs in [s] as a contiguous substring. *)
Fixpoint contains (p s : string) : bool :=
  startswith p s ||
  match s with
  | EmptyString => false
  | String _ s' => contains p s'
  end.

(** [len(s)] *)
Definition len (s : string) : Z := Z.of_nat (String.length s).

(** [s[:n]] *)
Definition slice_to (n : nat) (s : string) : string := String.substring 0 n s.

(** [sep.join(l)] *)
Definition join (sep : string) (l : list string) : string :=
  String.concat sep l.

(** [len(set(l))] for a list of strings. *)
Definition count_distinct (l : list string) : Z :=
  Z.of_nat (length (remove_dups l)).

(** *** Dynamically typed values, as far as the code inspects them *)

#[warnings="-register-all"]
Inductive pyval :=
| PyNone
| PyBool (b : bool)
| PyInt (z : Z)
| PyStr (s : string)
| PyList (l : list pyval)
| PyDict (d : gmap string pyval).

(** [bool(v)] *)
Definition truthy (v : pyval) : bool :=
  match v with
  | PyNone => false
  | PyBool b => b
  | PyInt z => negb (z =? 0)
  | PyStr s => negb (bool_decide (s = EmptyString))
  | PyList l => negb (bool_decide (length l = 0%nat))
  | PyDict d => negb (bool_decide (size d = 0%nat))
  end.

(** [bool(d.get(k))] for a dict [d]: a missing key gives [None]. *)
Definition get_truthy (d : gmap string pyval) (k : string) : bool :=
  truthy (default PyNone (d !! k)).

(** *** Numbers *)

Definition Qlt_bool (x y : Q) : bool := negb (Qle_bool y x).

(** [f"{x:.1f}"] for an integer-valued float [x >= 0]. *)
Definition fmt_1f_int (x : Z) : string := pretty x +:+ ".0".

(** [f"{q:.{d}f}"] for [q >= 0]: [q] to [d] decimals, the nearest value,
    ties to even. *)
Definition round_half_even (q : Q) : Z :=
  let f := Qfloor q in
  let r := (q - inject_Z f)%Q in
  match (r ?= 1 # 2)%Q with
  | Lt => f
  | Gt => f + 1
  | Eq => if Z.even f then f else f + 1
  end.

Definition pad_left (n : nat) (s : string) : string :=
  String.string_of_list_ascii
    (replicate (n - String.length s) "0"%char) +:+ s.

Definition fmt_fixed (d : nat) (q : Q) : string :=
  let scale := 10 ^ Z.of_nat d in
  let m := round_half_even (q * inject_Z scale)%Q in
  pretty (m / scale) +:+
  (if bool_decide (d = 0%nat) then EmptyString
   else "." +:+ pad_left d (pretty (m mod scale))).

(** [round(q, d)] as a rational. *)
Definition round_decimals (d : nat) (q : Q) : Q :=
  let scale := 10 ^ Z.of_nat d in
  (inject_Z (round_half_even (q * inject_Z scale)) / inject_Z scale)%Q.

(** *** Effects: the log, the clock, exceptions *)

Inductive level := DEBUG | INFO | WARNING | ERROR.

Record log_record := LogRecord {
  log_name : string;
  log_level : level;
  log_message : string }.

(** The part of the process state the code touches: what the wall clock
    will answer to each successive reading, how many readings were taken,
    and the log records emitted so far (latest first). *)
Record world := World {
  clock : nat → Q;
  reads : nat;
  log : list log_record }.

(** A raised exception: [type(e).__name__], [str(e)], and whether its class
    derives from [Exception] ([isinstance(e, Exception)]).  The classes
    [KeyboardInterrupt], [SystemExit] and [GeneratorExit] derive from
    [BaseException] only. *)
Record exn := MkExn {
  exn_type : string;
  exn_str : string;
  is_Exception : bool }.

(** An exception of a class derived from [Exception]. *)
Abbreviation Exn type str := (MkExn type str true).

Inductive result (A : Type) :=
| Ok (a : A)
| Raise (e : exn).
Global Arguments Ok {A} a.
Global Arguments Raise {A} e.

Definition M (A : Type) : Type := world → result A * world.

Definition ret {A} (a : A) : M A := λ w, (Ok a, w).

Definition bind {A B} (m : M A) (k : A → M B) : M B :=
  λ w, match m w with
       | (Ok a, w') => k a w'
       | (Raise e, w') => (Raise e, w')
       end.

Definition raise {A} (e : exn) : M A := λ w, (Raise e, w).

(** [try: body except Exception as e: handler(e)]: an exception whose class
    does not derive from [Exception] is not caught. *)
Definition try_except {A} (body : M A) (handler : exn → M A) : M A :=
  λ w, match body w with
       | (Ok a, w') => (Ok a, w')
       | (Raise e, w') =>
           if is_Exception e then handler e w' else (Raise e, w')
       end.

(** [logging.getLogger(name).log(level, message)] *)
Definition emit (name : string) (lv : level) (message : string) : M unit :=
  λ w, (Ok tt, World (clock w) (reads w)
                     (LogRecord name lv message :: log w)).

(** [time.time()] and [datetime.utcnow()]: one reading of the clock. *)
Definition time_time : M Q :=
  λ w, (Ok (clock w (reads w)), World (clock w) (S (reads w)) (log w)).

(** [for x in l: acc = body(acc, x)] *)
Fixpoint for_in {A S} (l : list A) (acc : S) (body : S → A → M S) : M S :=
  match l with
  | [] => ret acc
  | x :: l' => bind (body acc x) (λ acc', for_in l' acc' body)
  end.

(** [for x in l: if found(x): return early(x)] followed by [return last]:
    [body x] answers [Some r] to return [r] at once, [None] to go on. *)
Fixpoint for_return {A R} (l : list A) (body : A → M (option R)) (last : R)
    : M R :=
  match l with
  | [] => ret last
  | x :: l' =>
      bind (body x) (λ r, match r with
                          | Some r => ret r
                          | None => for_return l' body last
                          end)
  end.

(** [s.lower()] on a value that may be [None]. *)
Definition py_lower (text : option string) : M string :=
  match text with
  | Some s => ret (lower s)
  | None => raise (Exn "AttributeError"
              "'NoneType' object has no attribute 'lower'")
  end.

(** [s.strip()] on a value that may be [None]. *)
Definition py_strip (text : option string) : M string :=
  match text with
  | Some s => ret (strip s)
  | None => raise (Exn "AttributeError"
              "'NoneType' object has no attribute 'strip'")
  end.

End Py.

Import Py.

#[global] Instance M_ret : MRet M := @Py.ret.
#[global] Instance M_bind : MBind M := λ A B k m, Py.bind m k.

(** ** [spiel_engine.py] *)

Module SPIELEngine.

Inductive EnforcementAction := ALLOW | BLOCK | WARN | REVIEW | MODIFY.

Record SPIELResult := {
  action : EnforcementAction;
  safety_score : Z;
  personalization_score : Z;
  integrity_score : Z;
  ethics_score : Z;
  logic_score : Z;
  composite_score : Q;
  violations : list string;
  modifications : option string;
  reasoning : string;
  processing_time_ms : Q;
  timestamp : Q }.

(** The attributes [__init__] reads out of the loaded policy. *)
Record SPIELEngine := {
  safety_threshold : Q;
  ethics_threshold : Q;
  integrity_threshold : Q;
  logic_threshold : Q;
  personalization_threshold : Q;
  harmful_patterns : list string;
  unethical_patterns : list string;
  dishonest_patterns : list string;
  positive_patterns : list string;
  fail_closed : bool }.

(** The engine [__init__] builds from [_default_policy()], the policy in
    force when no policy file is found. *)
Definition _default_policy : SPIELEngine := {|
  fail_closed := true;
  safety_threshold := 85;
  ethics_threshold := 90;
  integrity_threshold := 80;
  logic_threshold := 75;
  personalization_threshold := 70;
  harmful_patterns :=
    ["harm"; "hurt"; "attack"; "kill"; "destroy";
     "hate"; "violence"; "weapon"; "bomb"; "poison"];
  unethical_patterns :=
    ["cheat"; "lie"; "deceive"; "manipulate";
     "exploit"; "abuse"; "steal"; "fraud"];
  dishonest_patterns :=
    ["trust me"; "believe me"; "guarantee";
     "secret"; "don't tell"; "definitely"];
  positive_patterns :=
    ["help"; "assist"; "support"; "understand";
     "because"; "reason"; "based on"] |}.

Definition _analyze_safety (self : SPIELEngine) (text : option string)
    : M (Z * list string) :=
  let score := 100 in
  let violations := [] in
  text_lower ← py_lower text;
  let '(score, violations) :=
    foldl (λ '(score, violations) pattern,
             if contains pattern text_lower
             then (score - 15, violations ++ ["harmful_pattern:" +:+ pattern])
             else (score, violations))
          (score, violations) (harmful_patterns self) in
  mret (Z.max 0 score, violations).

Definition _analyze_personalization (self : SPIELEngine)
    (text : option string) (context : option (gmap string pyval)) : M Z :=
  let score := 80 in
  text_lower ← py_lower text;
  let positive_markers :=
    ["you"; "your"; "help"; "assist"; "would you like"] in
  let score :=
    foldl (λ score marker,
             if contains marker text_lower then score + 4 else score)
          score positive_markers in
  let score :=
    match context with
    | Some d =>
        if truthy (PyDict d) && get_truthy d "user_preferences"
        then score + 5 else score
    | None => score
    end in
  mret (Z.min 100 score).

Definition _analyze_integrity (self : SPIELEngine) (text : option string)
    : M (Z * list string) :=
  let score := 95 in
  let violations := [] in
  text_lower ← py_lower text;
  let '(score, violations) :=
    foldl (λ '(score, violations) pattern,
             if contains pattern text_lower
             then (score - 15, violations ++ ["dishonest_pattern:" +:+ pattern])
             else (score, violations))
          (score, violations) (dishonest_patterns self) in
  mret (Z.max 0 score, violations).

Definition _analyze_ethics (self : SPIELEngine) (text : option string)
    : M (Z * list string) :=
  let score := 100 in
  let violations := [] in
  text_lower ← py_lower text;
  let '(score, violations) :=
    foldl (λ '(score, violations) pattern,
             if contains pattern text_lower
             then (score - 20, violations ++ ["unethical_pattern:" +:+ pattern])
             else (score, violations))
          (score, violations) (unethical_patterns self) in
  mret (Z.max 0 score, violations).

Definition _analyze_logic (self : SPIELEngine) (text : option string) : M Z :=
  let score := 85 in
  text_lower ← py_lower text;
  let logic_markers := ["because"; "therefore"; "thus"; "since"; "based on"] in
  let score :=
    foldl (λ score marker,
             if contains marker text_lower then score + 3 else score)
          score logic_markers in
  stripped ← py_strip text;
  let score := if len stripped <? 10 then score - 20 else score in
  mret (Z.max 0 (Z.min 100 score)).

Section determine_action.

(** [str(x)] for a threshold [x] inside an f-string: Python's own float
    printing, which the justification strings embed. *)
Variable str_float : Q → string.

Definition _determine_action (self : SPIELEngine)
    (safety personalization integrity ethics logic : Z)
    (violations : list string) : EnforcementAction * string :=
  if (safety <? 50) || (ethics <? 50) then
    (BLOCK, "Critical safety or ethics violation")
  else if Qlt_bool (inject_Z safety) (safety_threshold self) then
    (BLOCK, "Safety below threshold (" +:+ fmt_1f_int safety +:+ " < " +:+
            str_float (safety_threshold self) +:+ ")")
  else if Qlt_bool (inject_Z ethics) (ethics_threshold self) then
    (BLOCK, "Ethics below threshold (" +:+ fmt_1f_int ethics +:+ " < " +:+
            str_float (ethics_threshold self) +:+ ")")
  else if Qlt_bool (inject_Z integrity) (integrity_threshold self) then
    (WARN, "Integrity below threshold (" +:+ fmt_1f_int integrity +:+ " < " +:+
           str_float (integrity_threshold self) +:+ ")")
  else if Qlt_bool (inject_Z logic) (logic_threshold self) then
    (WARN, "Logic below threshold (" +:+ fmt_1f_int logic +:+ " < " +:+
           str_float (logic_threshold self) +:+ ")")
  else if negb (bool_decide (violations = [])) then
    (REVIEW, "Violations detected: " +:+ join ", " (take 3 violations))
  else
    (ALLOW, "All SPIEL criteria passed").

(** The [try] block of [enforce]. *)
Definition enforce_try (self : SPIELEngine) (text : option string)
    (context : option (gmap string pyval)) (start_time : Q) : M SPIELResult :=
  '(safety_score, safety_violations) ← _analyze_safety self text;
  personalization_score ← _analyze_personalization self text context;
  '(integrity_score, integrity_violations) ← _analyze_integrity self text;
  '(ethics_score, ethics_violations) ← _analyze_ethics self text;
  logic_score ← _analyze_logic self text;
  let all_violations :=
    safety_violations ++ integrity_violations ++ ethics_violations in
  let composite_score :=
    (inject_Z (safety_score + personalization_score + integrity_score +
               ethics_score + logic_score) / 5)%Q in
  let '(action, reasoning) :=
    _determine_action self safety_score personalization_score
      integrity_score ethics_score logic_score all_violations in
  now ← time_time;
  let processing_time := ((now - start_time) * 1000)%Q in
  created ← time_time;
  mret {| action := action;
          safety_score := safety_score;
          personalization_score := personalization_score;
          integrity_score := integrity_score;
          ethics_score := ethics_score;
          logic_score := logic_score;
          composite_score := composite_score;
          violations := all_violations;
          modifications := None;
          reasoning := reasoning;
          processing_time_ms := processing_time;
          timestamp := created |}.

(** The [except Exception as e] block of [enforce]. *)
Definition enforce_except (self : SPIELEngine) (start_time : Q) (e : exn)
    : M SPIELResult :=
  emit "AVRT.SPIELEngine" ERROR ("SPIEL enforcement error: " +:+ exn_str e);;
  if fail_closed self then
    now ← time_time;
    created ← time_time;
    mret {| action := BLOCK;
            safety_score := 0;
            personalization_score := 0;
            integrity_score := 0;
            ethics_score := 0;
            logic_score := 0;
            composite_score := 0;
            violations := ["system_error"];
            modifications := None;
            reasoning := "Fail-closed triggered due to error: " +:+ exn_str e;
            processing_time_ms := ((now - start_time) * 1000)%Q;
            timestamp := created |}
  else
    raise e.

Definition enforce (self : SPIELEngine) (text : option string)
    (context : option (gmap string pyval)) : M SPIELResult :=
  start_time ← time_time;
  try_except (enforce_try self text context start_time)
             (enforce_except self start_time).

End determine_action.

End SPIELEngine.

(** ** [spiel_service.py] *)

Module SPIELService.

Record SPIELService := {
  safety_threshold : Q;
  ethics_threshold : Q;
  integrity_threshold : Q;
  harmful_patterns : list string;
  dishonest_patterns : list string;
  unethical_patterns : list string;
  personal_markers : list string;
  logic_markers : list string }.

(** [SPIELService(config)]: the three thresholds come from [config] (85.0,
    90.0 and 80.0 when absent), the pattern lists are fixed. *)
Definition __init__ (safety ethics integrity : Q) : SPIELService := {|
  safety_threshold := safety;
  ethics_threshold := ethics;
  integrity_threshold := integrity;
  harmful_patterns :=
    ["harm"; "hurt"; "attack"; "kill"; "destroy";
     "hate"; "violence"; "dangerous"; "threat"; "murder";
     "weapon"; "bomb"; "explosive"; "poison"];
  dishonest_patterns :=
    ["just trust me"; "believe me"; "i guarantee";
     "secret"; "don't tell anyone"; "between us";
     "definitely"; "absolutely certain"; "100% guarantee"];
  unethical_patterns :=
    ["cheat"; "lie"; "deceive"; "manipulate";
     "exploit"; "abuse"; "steal"; "fraud";
     "illegal"; "scam"];
  personal_markers :=
    ["you"; "your"; "i can help"; "let me";
     "would you like"; "i understand"; "here's what"];
  logic_markers :=
    ["because"; "therefore"; "thus"; "consequently";
     "as a result"; "due to"; "since"; "given that"] |}.

(** [get_spiel_service()]: the singleton, built with an empty config. *)
Definition get_spiel_service : SPIELService := __init__ 85 90 80.

(** The dict [analyze] returns. *)
Record analysis := {
  safety : Z;
  personalization : Z;
  integrity : Z;
  ethics : Z;
  logic : Z;
  composite : Q;
  is_passing : bool;
  thresholds_safety : Q;
  thresholds_ethics : Q;
  thresholds_integrity : Q }.

Definition logger_debug : string → M unit := emit "AVRT.SPIEL" DEBUG.
Definition logger_info : string → M unit := emit "AVRT.SPIEL" INFO.

Definition _analyze_safety (self : SPIELService) (text : string) : M Z :=
  let score := 100 in
  let text_lower := lower text in
  score ← for_in (harmful_patterns self) score (λ score pattern,
    if contains pattern text_lower then
      logger_debug ("Safety: Found harmful pattern '" +:+ pattern +:+ "'");;
      mret (score - 15)
    else mret score);
  mret (Z.max 0 (Z.min 100 score)).

Definition _analyze_personalization (self : SPIELService) (text : string)
    (context : option (gmap string pyval)) : Z :=
  let score := 80 in
  let text_lower := lower text in
  let score :=
    foldl (λ score marker,
             if contains marker text_lower then score + 3 else score)
          score (personal_markers self) in
  let score :=
    match context with
    | Some d =>
        if truthy (PyDict d) then
          let score :=
            if get_truthy d "user_preferences" then score + 5 else score in
          if get_truthy d "conversation_history" then score + 3 else score
        else score
    | None => score
    end in
  Z.min 100 score.

Definition _analyze_integrity (self : SPIELService) (text : string) : M Z :=
  let score := 95 in
  let text_lower := lower text in
  score ← for_in (dishonest_patterns self) score (λ score pattern,
    if contains pattern text_lower then
      logger_debug ("Integrity: Found dishonest pattern '" +:+ pattern +:+ "'");;
      mret (score - 15)
    else mret score);
  mret (Z.max 0 score).

Definition _analyze_ethics (self : SPIELService) (text : string) : M Z :=
  let score := 100 in
  let text_lower := lower text in
  score ← for_in (unethical_patterns self) score (λ score pattern,
    if contains pattern text_lower then
      logger_debug ("Ethics: Found unethical pattern '" +:+ pattern +:+ "'");;
      mret (score - 20)
    else mret score);
  mret (Z.max 0 score).

(** The ratio [len(set(words)) / len(words)] is compared with [0.5] exactly;
    the float quotient agrees with it for any text of fewer than 2^52 words. *)
Definition _analyze_logic (self : SPIELService) (text : string) : Z :=
  let score := 85 in
  let text_lower := lower text in
  let score :=
    foldl (λ score marker,
             if contains marker text_lower then score + 3 else score)
          score (logic_markers self) in
  let score := if len (strip text) <? 10 then score - 20 else score in
  let words := split text_lower in
  let score :=
    if 5 <? Z.of_nat (length words) then
      let unique_ratio :=
        (inject_Z (count_distinct words) /
         inject_Z (Z.of_nat (length words)))%Q in
      if Qlt_bool unique_ratio (1 # 2) then score - 15 else score
    else score in
  Z.max 0 (Z.min 100 score).

Definition py_bool_str (b : bool) : string := if b then "True" else "False".

Definition analyze (self : SPIELService) (text : string)
    (context : option (gmap string pyval)) : M analysis :=
  logger_debug ("Analyzing text: " +:+ slice_to 100 text +:+ "...");;
  safety_score ← _analyze_safety self text;
  let personalization_score := _analyze_personalization self text context in
  integrity_score ← _analyze_integrity self text;
  ethics_score ← _analyze_ethics self text;
  let logic_score := _analyze_logic self text in
  let composite :=
    (inject_Z (safety_score + personalization_score + integrity_score +
               ethics_score + logic_score) / 5)%Q in
  let is_passing :=
    Qle_bool (safety_threshold self) (inject_Z safety_score) &&
    Qle_bool (integrity_threshold self) (inject_Z integrity_score) &&
    Qle_bool (ethics_threshold self) (inject_Z ethics_score) &&
    Qle_bool (safety_threshold self) composite in
  let result := {|
    safety := safety_score;
    personalization := personalization_score;
    integrity := integrity_score;
    ethics := ethics_score;
    logic := logic_score;
    composite := composite;
    is_passing := is_passing;
    thresholds_safety := safety_threshold self;
    thresholds_ethics := ethics_threshold self;
    thresholds_integrity := integrity_threshold self |} in
  logger_info ("SPIEL analysis complete: composite=" +:+ fmt_fixed 1 composite
               +:+ ", passing=" +:+ py_bool_str is_passing);;
  mret result.

End SPIELService.

(** ** [tht_service.py] *)

Module THTService.

Record THTService := {
  confidence_threshold : Q;
  false_patterns : list string;
  dishonest_patterns : list string;
  transparent_markers : list string;
  claim_patterns : list string }.

(** [THTService(config)]: the threshold comes from [config] (0.8 when
    absent), the pattern lists are fixed. *)
Definition __init__ (confidence : Q) : THTService := {|
  confidence_threshold := confidence;
  false_patterns :=
    ["definitely"; "absolutely certain"; "100% guarantee";
     "always true"; "never wrong"; "guaranteed to work";
     "everyone knows"; "obviously"; "undeniably"];
  dishonest_patterns :=
    ["just between us"; "don't tell"; "keep this secret";
     "you can trust me"; "believe me"; "trust me on this";
     "off the record"; "confidentially"];
  transparent_markers :=
    ["because"; "the reason"; "this is based on";
     "according to"; "evidence suggests"; "research shows";
     "in my understanding"; "i believe"; "it appears that";
     "based on"; "considering"];
  claim_patterns :=
    ["is"; "are"; "will"; "should"; "must";
     "can"; "cannot"; "always"; "never"] |}.

(** [get_tht_service()]: the singleton, built with an empty config. *)
Definition get_tht_service : THTService := __init__ (8 # 10).

(** The dict [validate] returns. *)
Record validation := {
  truth_verified : bool;
  honesty_verified : bool;
  transparency_verified : bool;
  confidence_score : Q;
  is_compliant : bool;
  issues : list string }.

Definition logger_debug : string → M unit := emit "AVRT.THT" DEBUG.
Definition logger_info : string → M unit := emit "AVRT.THT" INFO.

Definition _verify_truth (self : THTService) (text : string) : M bool :=
  let text_lower := lower text in
  for_return (false_patterns self) (λ pattern,
    if contains pattern text_lower then
      logger_debug ("Truth: Found false pattern '" +:+ pattern +:+ "'");;
      mret (Some false)
    else mret None)
    true.

Definition _verify_honesty (self : THTService) (text : string) : M bool :=
  let text_lower := lower text in
  for_return (dishonest_patterns self) (λ pattern,
    if contains pattern text_lower then
      logger_debug ("Honesty: Found dishonest pattern '" +:+ pattern +:+ "'");;
      mret (Some false)
    else mret None)
    true.

Definition _verify_transparency (self : THTService) (text : string) : M bool :=
  let text_lower := lower text in
  let has_claims :=
    existsb (λ pattern, contains pattern text_lower) (claim_patterns self) in
  if has_claims then
    let has_transparency :=
      existsb (λ marker, contains marker text_lower)
              (transparent_markers self) in
    if len text <? 50 then mret true
    else if negb has_transparency then
      logger_debug "Transparency: Claims without supporting reasoning";;
      mret false
    else mret true
  else mret true.

Definition validate (self : THTService) (text : string)
    (context : option (gmap string pyval)) : M validation :=
  logger_debug ("Validating text: " +:+ slice_to 100 text +:+ "...");;
  let issues := [] in
  truth_verified ← _verify_truth self text;
  let issues :=
    if negb truth_verified
    then issues ++ ["Truth verification failed: overconfident claims detected"]
    else issues in
  honesty_verified ← _verify_honesty self text;
  let issues :=
    if negb honesty_verified
    then issues ++
         ["Honesty check failed: secretive or manipulative patterns detected"]
    else issues in
  transparency_verified ← _verify_transparency self text;
  let issues :=
    if negb transparency_verified
    then issues ++
         ["Transparency check failed: claims without supporting reasoning"]
    else issues in
  let verified_count :=
    Z.b2z truth_verified + Z.b2z honesty_verified +
    Z.b2z transparency_verified in
  let confidence_score := (inject_Z verified_count / 3)%Q in
  let is_compliant :=
    truth_verified && honesty_verified && transparency_verified &&
    Qle_bool (confidence_threshold self) confidence_score in
  let result := {|
    truth_verified := truth_verified;
    honesty_verified := honesty_verified;
    transparency_verified := transparency_verified;
    confidence_score := confidence_score;
    is_compliant := is_compliant;
    issues := issues |} in
  logger_info ("THT validation complete: compliant=" +:+
               SPIELService.py_bool_str is_compliant +:+ ", confidence=" +:+
               fmt_fixed 2 confidence_score);;
  mret result.

End THTService.

(** ** [hash_service.py] *)

Module HashService.

Section hashing.

(** [hashlib.sha256(data.encode('utf-8')).hexdigest()], the one primitive the
    service takes from outside. *)
Variable sha256 : string → string.

Definition generate_chain_hash (hashes : list string) : string :=
  let chain_hash := "genesis" in
  foldl (λ chain_hash entry_hash, sha256 (chain_hash +:+ "|" +:+ entry_hash))
        chain_hash hashes.

Definition verify_chain (hashes : list string) (expected_chain_hash : string)
    : bool :=
  let computed_hash := generate_chain_hash hashes in
  bool_decide (computed_hash = expected_chain_hash).

End hashing.

End HashService.

(** ** [fail_closed.py]: the [fail_closed] decorator *)

Module FailClosed.

Inductive FailClosedReason :=
| TIMEOUT | EXCEPTION | INVALID_INPUT | THRESHOLD_BREACH
| UNCERTAINTY | RATE_LIMIT | LICENSE_INVALID | SERVICE_UNAVAILABLE.

Record FailClosedResponse := {
  reason : FailClosedReason;
  message : string;
  original_error : option exn;
  timestamp : Q;
  blocked : bool;
  safe_response : string }.

Definition _generate_safe_response : string :=
  "I apologize, but I'm unable to process that request at this time. " +:+
  "Please try again or contact support if the issue persists.".

(** [FailClosedResponse(reason, message, original_error)] *)
Definition new_response (reason : FailClosedReason) (message : string)
    (original_error : option exn) : M FailClosedResponse :=
  created ← time_time;
  mret {| reason := reason;
          message := message;
          original_error := original_error;
          timestamp := created;
          blocked := true;
          safe_response := _generate_safe_response |}.

Section decorator.

Variable str_float : Q → string.
Context {T : Type}.

(** [fail_closed(timeout_seconds, on_exception, log_failures)(func)(...)]:
    [name] is [func.__name__] and [call] the wrapped call itself. *)
Definition wrapper (timeout_seconds : Q) (on_exception log_failures : bool)
    (name : string) (call : M T) : M (T + FailClosedResponse) :=
  start_time ← time_time;
  try_except
    (result ← call;
     now ← time_time;
     let elapsed := (now - start_time)%Q in
     if Qlt_bool timeout_seconds elapsed then
       (if log_failures then
          emit "AVRT.FailClosed" WARNING
            ("Fail-closed: " +:+ name +:+ " exceeded timeout (" +:+
             fmt_fixed 2 elapsed +:+ "s > " +:+
             str_float timeout_seconds +:+ "s)")
        else mret tt);;
       response ← new_response TIMEOUT
         ("Operation exceeded timeout of " +:+
          str_float timeout_seconds +:+ "s") None;
       mret (inr response)
     else mret (inl result))
    (λ e,
       if on_exception then
         (if log_failures then
            emit "AVRT.FailClosed" ERROR
              ("Fail-closed: " +:+ name +:+ " raised " +:+ exn_type e +:+
               ": " +:+ exn_str e)
          else mret tt);;
         response ← new_response EXCEPTION
           ("Operation failed: " +:+ exn_type e) (Some e);
         mret (inr response)
       else raise e).

End decorator.

End FailClosed.

(** ** More of the Python runtime *)

Module PyExt.

(** [s[n:]] *)
Fixpoint slice_from (n : nat) (s : string) : string :=
  match n, s with
  | O, _ => s
  | S _, EmptyString => EmptyString
  | S n', String _ s' => slice_from n' s'
  end.

(** [s.isascii()] *)
Fixpoint is_ascii (s : string) : bool :=
  match s with
  | EmptyString => true
  | String c s' => (Ascii.N_of_ascii c <? 128)%N && is_ascii s'
  end.

(** [hmac.compare_digest(a, b)] on two [str]: equality, and a [TypeError]
    unless both hold ASCII characters only. *)
Definition compare_digest (a b : string) : M bool :=
  if is_ascii a && is_ascii b then Py.ret (bool_decide (a = b))
  else raise (Exn "TypeError"
         "comparing strings with non-ASCII characters is not supported").

(** [f"{q:.{d}f}"] for any [q]. *)
Definition fmt_f (d : nat) (q : Q) : string :=
  if Qlt_bool q 0 then "-" +:+ fmt_fixed d (- q)%Q else fmt_fixed d q.

(** [l[-n:]] for [n > 0]: the last [n] elements. *)
Definition last_n {A} (n : nat) (l : list A) : list A :=
  drop (length l - n) l.

End PyExt.

Import PyExt.

(** ** [fail_closed.py]: [ensure_safe_output], [FailClosedGuard],
    [RateLimiter] *)

Module SafeOutput.

Section ensure.

Variable str_float : Q → string.

Definition ensure_safe_output (output : option string)
    (validation_passed : bool) (confidence confidence_threshold : Q)
    : M string :=
  match output with
  | None =>
      emit "AVRT.FailClosed" WARNING "Fail-closed: output is None";;
      response ← FailClosed.new_response FailClosed.INVALID_INPUT
        "No output provided" None;
      mret (FailClosed.safe_response response)
  | Some output =>
      if negb validation_passed then
        emit "AVRT.FailClosed" INFO "Fail-closed: validation failed";;
        response ← FailClosed.new_response FailClosed.THRESHOLD_BREACH
          "Content failed validation checks" None;
        mret (FailClosed.safe_response response)
      else if Qlt_bool confidence confidence_threshold then
        emit "AVRT.FailClosed" WARNING
          ("Fail-closed: low confidence (" +:+ fmt_f 2 confidence +:+ " < " +:+
           str_float confidence_threshold +:+ ")");;
        response ← FailClosed.new_response FailClosed.UNCERTAINTY
          ("Confidence too low: " +:+ fmt_f 2 confidence) None;
        mret (FailClosed.safe_response response)
      else mret output
  end.

End ensure.

End SafeOutput.

Module FailClosedGuard.

Record FailClosedGuard := {
  timeout : Q;
  uncertainty_threshold : Q;
  start_time : option Q;
  error : option exn }.

Definition __init__ (timeout uncertainty_threshold : Q) : FailClosedGuard := {|
  timeout := timeout;
  uncertainty_threshold := uncertainty_threshold;
  start_time := None;
  error := None |}.

Definition __enter__ (self : FailClosedGuard) : M FailClosedGuard :=
  now ← time_time;
  mret {| timeout := timeout self;
          uncertainty_threshold := uncertainty_threshold self;
          start_time := Some now;
          error := error self |}.

(** [__exit__(exc_type, exc_val, exc_tb)]: [exc] is the exception leaving the
    block, if any; the boolean tells whether it is suppressed. *)
Definition __exit__ (self : FailClosedGuard) (exc : option exn)
    : M (FailClosedGuard * bool) :=
  match exc with
  | Some exc_val =>
      emit "AVRT.FailClosed" ERROR
        ("FailClosedGuard caught exception: " +:+ exn_type exc_val +:+ ": " +:+
         exn_str exc_val);;
      mret ({| timeout := timeout self;
               uncertainty_threshold := uncertainty_threshold self;
               start_time := start_time self;
               error := Some exc_val |}, true)
  | None => mret (self, false)
  end.

Definition elapsed (self : FailClosedGuard) : M Q :=
  match start_time self with
  | None => mret 0%Q
  | Some start => now ← time_time; mret (now - start)%Q
  end.

Definition timed_out (self : FailClosedGuard) : M bool :=
  e ← elapsed self;
  mret (Qlt_bool (timeout self) e).

Definition had_error (self : FailClosedGuard) : bool :=
  bool_decide (is_Some (error self)).

(** [should_block(result)]: [result] is [None] for Python's [None]. *)
Definition should_block {R} (self : FailClosedGuard) (result : option R)
    : M bool :=
  if had_error self then mret true
  else
    timed_out self ≫= λ late : bool,
    if late then mret true
    else match result with
         | None => mret true
         | Some _ => mret false
         end.

Section blocked.

Variable str_float : Q → string.

Definition blocked_response (self : FailClosedGuard)
    : M FailClosed.FailClosedResponse :=
  match error self with
  | Some e =>
      FailClosed.new_response FailClosed.EXCEPTION (exn_str e) (Some e)
  | None =>
      timed_out self ≫= λ late : bool,
      if late then
        FailClosed.new_response FailClosed.TIMEOUT
          ("Operation exceeded " +:+ str_float (timeout self) +:+ "s timeout")
          None
      else
        FailClosed.new_response FailClosed.UNCERTAINTY
          "Unable to determine content safety" None
  end.

End blocked.

(** [with self as guard: body(guard)]: the guard as [__exit__] leaves it, and
    the value of the block when it completed. *)
Definition with_guard {A} (self : FailClosedGuard)
    (body : FailClosedGuard → M A) : M (FailClosedGuard * option A) :=
  Py.bind (__enter__ self) $ λ guard w,
       match body guard w with
       | (Ok a, w') =>
           Py.bind (__exit__ guard None)
             (λ '(guard, _), Py.ret (guard, Some a)) w'
       | (Raise e, w') =>
           Py.bind (__exit__ guard (Some e))
             (λ '(guard, suppress),
                if suppress : bool then Py.ret (guard, None) else raise e) w'
       end.

End FailClosedGuard.

Module RateLimiter.

Record RateLimiter := {
  requests_per_minute : Z;
  burst_limit : Z;
  request_times : list Q }.

Definition __init__ (requests_per_minute burst_limit : Z) : RateLimiter := {|
  requests_per_minute := requests_per_minute;
  burst_limit := burst_limit;
  request_times := [] |}.

(** [check()]: the limiter as the call leaves it, and [inl true] for [True]. *)
Definition check (self : RateLimiter)
    : M (RateLimiter * (bool + FailClosed.FailClosedResponse)) :=
  now ← time_time;
  let minute_ago := (now - 60)%Q in
  let request_times :=
    List.filter (λ t, Qlt_bool minute_ago t) (request_times self) in
  let self := {| requests_per_minute := requests_per_minute self;
                 burst_limit := burst_limit self;
                 request_times := request_times |} in
  let second_ago := (now - 1)%Q in
  let recent_requests :=
    Z.of_nat (length (List.filter (λ t, Qlt_bool second_ago t) request_times)) in
  if burst_limit self <=? recent_requests then
    response ← FailClosed.new_response FailClosed.RATE_LIMIT
      ("Burst limit exceeded: " +:+ pretty recent_requests +:+ "/" +:+
       pretty (burst_limit self)) None;
    mret (self, inr response)
  else if requests_per_minute self <=? Z.of_nat (length request_times) then
    response ← FailClosed.new_response FailClosed.RATE_LIMIT
      ("Rate limit exceeded: " +:+ pretty (Z.of_nat (length request_times)) +:+
       "/" +:+ pretty (requests_per_minute self) +:+ " per minute") None;
    mret (self, inr response)
  else
    mret ({| requests_per_minute := requests_per_minute self;
             burst_limit := burst_limit self;
             request_times := request_times ++ [now] |}, inl true).

End RateLimiter.

(** ** [hash_service.py]: the other methods *)

Module HashServiceOps.

Record HashService := { secret_key : string }.

(** [x or y] for an optional [str] [x]: [None] and the empty string are
    both falsy. *)
Definition or_str (x : option string) (y : string) : string :=
  match x with
  | Some s => if bool_decide (s = EmptyString) then y else s
  | None => y
  end.

Definition __init__ (secret_key : option string) : HashService :=
  {| secret_key := or_str secret_key "avrt-default-key-change-in-production" |}.

Section hashing.

(** What the service takes from outside: [hashlib.sha256(...).hexdigest()],
    [hmac.new(key, message, hashlib.sha256).hexdigest()], and the text of a
    datetime [ts] as [str(ts.timestamp())] and as [ts.isoformat()]. *)
Variable sha256 : string → string.
Variable hmac_sha256_hex : string → string → string.
Variable timestamp_str : Q → string.
Variable isoformat : Q → string.

Definition verify (data expected_hash : string) : bool :=
  let computed_hash := sha256 data in
  bool_decide (lower computed_hash = lower expected_hash).

Definition generate_integrity_hash (input_text output_text : string)
    (timestamp : option Q) : M string :=
  ts ← match timestamp with
       | Some ts => mret ts
       | None => time_time
       end;
  let combined :=
    input_text +:+ "|" +:+ output_text +:+ "|" +:+ timestamp_str ts in
  mret (sha256 combined).

Definition hmac_sha256 (self : HashService) (message : string)
    (key : option string) : string :=
  let secret := or_str key (secret_key self) in
  hmac_sha256_hex secret message.

Definition verify_hmac (self : HashService) (message expected_hmac : string)
    (key : option string) : M bool :=
  let computed_hmac := hmac_sha256 self message key in
  compare_digest computed_hmac expected_hmac.

Definition generate_audit_entry_hash (request_id input_text output_text
    status : string) (timestamp : Q) : string :=
  let data :=
    request_id +:+ "|" +:+ input_text +:+ "|" +:+ output_text +:+ "|" +:+
    status +:+ "|" +:+ isoformat timestamp in
  sha256 data.

End hashing.

End HashServiceOps.

(** ** [tht_service.py]: [analyze_detailed] *)

Module THTDetailed.

(** The dict [analyze_detailed] returns: the keys of [validate]'s result,
    then [recommendations] and [detailed]. *)
Record detailed_result := {
  basic_result : THTService.validation;
  recommendations : list string;
  detailed : bool }.

Definition analyze_detailed (self : THTService.THTService) (text : string)
    (context : option (gmap string pyval)) : M detailed_result :=
  basic_result ← THTService.validate self text context;
  let recommendations := [] in
  let recommendations :=
    if negb (THTService.truth_verified basic_result) then
      recommendations ++
      ["Avoid absolute claims. Use hedging language like 'likely', 'may', 'suggests'."]
    else recommendations in
  let recommendations :=
    if negb (THTService.honesty_verified basic_result) then
      recommendations ++
      ["Avoid secretive language. Be open about the nature of the information."]
    else recommendations in
  let recommendations :=
    if negb (THTService.transparency_verified basic_result) then
      recommendations ++
      ["Provide reasoning for claims. Explain 'why' or cite sources."]
    else recommendations in
  mret {| basic_result := basic_result;
          recommendations := recommendations;
          detailed := true |}.

End THTDetailed.

(** ** [spiel_engine.py]: loading the policy *)

Module SPIELEnginePolicy.

(** Where the code expects a JSON object and calls [.get] on it: the
    object, or the type name of the other JSON value found in its place
    ([list], [str], [int], [float], [bool], [NoneType]). *)
Inductive json_object (A : Type) :=
| JObject (fields : A)
| JOther (type_name : string).
Global Arguments JObject {A} fields.
Global Arguments JOther {A} type_name.

(** [d.get(...)] on such a value. *)
Definition py_get {A} (d : json_object A) : M A :=
  match d with
  | JObject fields => mret fields
  | JOther type_name =>
      raise (Exn "AttributeError"
               ("'" +:+ type_name +:+ "' object has no attribute 'get'"))
  end.

(** A policy document: each key of the JSON object may be absent, and the
    two sections may hold something that is not an object.  The values
    inside a section are taken to have the types the engine expects. *)
Record thresholds_doc := {
  th_safety : option Q;
  th_ethics : option Q;
  th_integrity : option Q;
  th_logic : option Q;
  th_personalization : option Q }.

Record patterns_doc := {
  pt_harmful : option (list string);
  pt_unethical : option (list string);
  pt_dishonest : option (list string);
  pt_positive : option (list string) }.

Record policy := {
  version : option string;
  p_fail_closed : option bool;
  thresholds : option (json_object thresholds_doc);
  patterns : option (json_object patterns_doc) }.

(** The empty JSON objects [{}]. *)
Definition no_thresholds : thresholds_doc :=
  {| th_safety := None; th_ethics := None; th_integrity := None;
     th_logic := None; th_personalization := None |}.

Definition no_patterns : patterns_doc :=
  {| pt_harmful := None; pt_unethical := None; pt_dishonest := None;
     pt_positive := None |}.

Definition _default_policy : policy := {|
  version := Some "1.0.0";
  p_fail_closed := Some true;
  thresholds := Some (JObject {|
    th_safety := Some 85%Q;
    th_ethics := Some 90%Q;
    th_integrity := Some 80%Q;
    th_logic := Some 75%Q;
    th_personalization := Some 70%Q |});
  patterns := Some (JObject {|
    pt_harmful := Some
      ["harm"; "hurt"; "attack"; "kill"; "destroy";
       "hate"; "violence"; "weapon"; "bomb"; "poison"];
    pt_unethical := Some
      ["cheat"; "lie"; "deceive"; "manipulate";
       "exploit"; "abuse"; "steal"; "fraud"];
    pt_dishonest := Some
      ["trust me"; "believe me"; "guarantee";
       "secret"; "don't tell"; "definitely"];
    pt_positive := Some
      ["help"; "assist"; "support"; "understand";
       "because"; "reason"; "based on"] |}) |}.

(** What [open(self.policy_path)] followed by [json.load] comes to: an
    exception, of whatever class ([FileNotFoundError], [JSONDecodeError],
    [UnicodeDecodeError], [PermissionError], ...), or the JSON value read. *)
Inductive policy_file :=
| Raised (e : exn)
| Loaded (document : json_object policy).

(** The two [except] clauses of [_load_policy]. *)
Definition is_FileNotFoundError (e : exn) : bool :=
  bool_decide (exn_type e = "FileNotFoundError").
Definition is_JSONDecodeError (e : exn) : bool :=
  bool_decide (exn_type e = "JSONDecodeError").

Definition _load_policy (policy_path : string) (file : policy_file)
    : M (json_object policy) :=
  match file with
  | Loaded document => mret document
  | Raised e =>
      if is_FileNotFoundError e then
        emit "AVRT.SPIELEngine" WARNING
          ("Policy file not found: " +:+ policy_path +:+ ", using defaults");;
        mret (JObject _default_policy)
      else if is_JSONDecodeError e then
        emit "AVRT.SPIELEngine" ERROR
          ("Policy file invalid JSON: " +:+ exn_str e +:+ ", using defaults");;
        mret (JObject _default_policy)
      else raise e
  end.

(** The engine object: the loaded policy and the attributes read out of it. *)
Record engine := {
  policy_path : string;
  loaded_policy : json_object policy;
  attributes : SPIELEngine.SPIELEngine }.

Definition __init__ (policy_path : string) (file : policy_file) : M engine :=
  loaded ← _load_policy policy_path file;
  policy ← py_get loaded;
  th ← py_get (default (JObject no_thresholds) (thresholds policy));
  pt ← py_get (default (JObject no_patterns) (patterns policy));
  let attributes := {|
    SPIELEngine.safety_threshold := default 85%Q (th_safety th);
    SPIELEngine.ethics_threshold := default 90%Q (th_ethics th);
    SPIELEngine.integrity_threshold := default 80%Q (th_integrity th);
    SPIELEngine.logic_threshold := default 75%Q (th_logic th);
    SPIELEngine.personalization_threshold :=
      default 70%Q (th_personalization th);
    SPIELEngine.harmful_patterns := default [] (pt_harmful pt);
    SPIELEngine.unethical_patterns := default [] (pt_unethical pt);
    SPIELEngine.dishonest_patterns := default [] (pt_dishonest pt);
    SPIELEngine.positive_patterns := default [] (pt_positive pt);
    SPIELEngine.fail_closed := default true (p_fail_closed policy) |} in
  emit "AVRT.SPIELEngine" INFO
    ("SPIEL Engine initialized (fail_closed=" +:+
     SPIELService.py_bool_str (SPIELEngine.fail_closed attributes) +:+ ")");;
  mret {| policy_path := policy_path;
          loaded_policy := loaded;
          attributes := attributes |}.

(** [reload_policy()]: [file] is what reading the policy file comes to now.
    When [_load_policy] raises, [self.policy] is not assigned. *)
Definition reload_policy (self : engine) (file : policy_file) : M engine :=
  loaded ← _load_policy (policy_path self) file;
  emit "AVRT.SPIELEngine" INFO "Policy reloaded";;
  mret {| policy_path := policy_path self;
          loaded_policy := loaded;
          attributes := attributes self |}.

End SPIELEnginePolicy.

(** ** [routers/validation.py], [routers/audit.py] *)

Module Http.

(** [HTTPException(status_code, detail)], raised by an endpoint: modelled as
    the error side of the endpoint's result. *)
Record HTTPException := {
  status_code : Z;
  detail : string }.

End Http.

Module AuditRouter.

(** [verify_license] of [routers/audit.py]. *)
Definition verify_license (authorization : option string)
    : Http.HTTPException + string :=
  match authorization with
  | None =>
      inl {| Http.status_code := 401;
             Http.detail := "Authorization header required" |}
  | Some authorization =>
      if bool_decide (authorization = EmptyString) then
        inl {| Http.status_code := 401;
               Http.detail := "Authorization header required" |}
      else if negb (startswith "Bearer " authorization) then
        inl {| Http.status_code := 401;
               Http.detail := "Invalid authorization format" |}
      else inr (slice_from 7 authorization)
  end.

(** An entry of [audit_store]: the keys the code subscripts are fields, the
    keys it reads with [.get] may be absent. *)
Record audit_entry := {
  request_id : string;
  user_id : option string;
  input_text : string;
  output_text : string;
  status : string;
  spiel_score : option Q;
  tht_compliant : option bool;
  violations : option (list string);
  timestamp : string;
  integrity_hash : string }.

(** [add_audit_entry(entry)]: the store before the call, and after it. *)
Definition add_audit_entry (audit_store : list audit_entry)
    (entry : audit_entry) : list audit_entry :=
  let audit_store := audit_store ++ [entry] in
  if 10000 <? Z.of_nat (length audit_store)
  then last_n (Z.to_nat 10000) audit_store
  else audit_store.

(** The dict [verify_audit_integrity] returns. *)
Record verification := {
  valid : bool;
  computed_hash : string;
  expected_hash : string;
  entries_verified : Z }.

Section endpoints.

Variable sha256 : string → string.

Definition verify_audit_integrity (audit_store : list audit_entry)
    (request_ids : list string) (expected_chain_hash : string)
    (license_key : string) : Http.HTTPException + verification :=
  let entries :=
    List.filter (λ e, bool_decide (request_id e ∈ request_ids)) audit_store in
  if negb (bool_decide (length entries = length request_ids)) then
    inl {| Http.status_code := 400;
           Http.detail := "Not all requested entries found" |}
  else
    let computed_hash :=
      HashService.generate_chain_hash sha256 (integrity_hash <$> entries) in
    let is_valid := bool_decide (computed_hash = expected_chain_hash) in
    inr {| valid := is_valid;
           computed_hash := computed_hash;
           expected_hash := expected_chain_hash;
           entries_verified := Z.of_nat (length entries) |}.

End endpoints.

End AuditRouter.

Module ValidationRouter.

(** [verify_license] of [routers/validation.py] (and of [main.py]). *)
Definition verify_license (authorization : option string)
    : Http.HTTPException + string :=
  match authorization with
  | None =>
      inl {| Http.status_code := 401;
             Http.detail := "Authorization header required" |}
  | Some authorization =>
      if bool_decide (authorization = EmptyString) then
        inl {| Http.status_code := 401;
               Http.detail := "Authorization header required" |}
      else if negb (startswith "Bearer " authorization) then
        inl {| Http.status_code := 401;
               Http.detail := "Invalid authorization format" |}
      else
        let license_key := slice_from 7 authorization in
        if bool_decide (license_key = EmptyString) then
          inl {| Http.status_code := 401;
                 Http.detail := "License key required" |}
        else inr license_key
  end.

Inductive ValidationStatus :=
| SAFE | BLOCKED | WARNING | REVIEW_REQUIRED | ERROR.

(** [status.value] *)
Definition status_value (status : ValidationStatus) : string :=
  match status with
  | SAFE => "safe"
  | BLOCKED => "blocked"
  | WARNING => "warning"
  | REVIEW_REQUIRED => "review_required"
  | ERROR => "error"
  end.

Record ValidationRequest := {
  input : string;
  output : option string;
  context : option (gmap string string);
  user_id : option string }.

Record SPIELScoreSchema := {
  safety : Z;
  personalization : Z;
  integrity : Z;
  ethics : Z;
  logic : Z;
  composite : Q;
  score_timestamp : option string }.

Record THTValidationSchema := {
  truth_verified : bool;
  honesty_verified : bool;
  transparency_verified : bool;
  confidence_score : Q;
  issues : list string }.

Record ValidationResponse := {
  request_id : string;
  status : ValidationStatus;
  is_safe : bool;
  message : string;
  original_input : string;
  original_output : string;
  spiel_score : option SPIELScoreSchema;
  tht_validation : option THTValidationSchema;
  violations : list string;
  reason : option string;
  suggested_alternative : option string;
  confidence : Q;
  processing_time_ms : Q;
  timestamp : string;
  integrity_hash : string }.

(** The services the module builds when it is imported. *)
Definition spiel_service : SPIELService.SPIELService :=
  SPIELService.__init__ 85 90 80.
Definition tht_service : THTService.THTService :=
  THTService.__init__ (8 # 10).

Definition rephrase_message : string :=
  "I apologize, but I need to rephrase that response to ensure it meets " +:+
  "AVRT safety standards. How can I help you in a constructive way?".

Section endpoints.

(** From outside the repository: the hash, the printing of datetimes, and
    the [ValidationError] pydantic raises when a field of the named model
    breaks its [ge]/[le] bounds. *)
Variable sha256 : string → string.
Variable timestamp_str : Q → string.
Variable isoformat : Q → string.
Variable validation_error : string → exn.

Definition in_range (lo hi x : Q) : bool := Qle_bool lo x && Qle_bool x hi.

(** [SPIELScoreSchema(...)]: every score is declared [ge=0, le=100]. *)
Definition new_SPIELScoreSchema (safety personalization integrity ethics
    logic : Z) (composite : Q) (timestamp : option string)
    : M SPIELScoreSchema :=
  if in_range 0 100 (inject_Z safety) &&
     in_range 0 100 (inject_Z personalization) &&
     in_range 0 100 (inject_Z integrity) &&
     in_range 0 100 (inject_Z ethics) &&
     in_range 0 100 (inject_Z logic) &&
     in_range 0 100 composite
  then mret {| safety := safety;
               personalization := personalization;
               integrity := integrity;
               ethics := ethics;
               logic := logic;
               composite := composite;
               score_timestamp := timestamp |}
  else raise (validation_error "SPIELScoreSchema").

(** [THTValidationSchema(...)]: the confidence is declared [ge=0, le=1]. *)
Definition new_THTValidationSchema (truth_verified honesty_verified
    transparency_verified : bool) (confidence_score : Q)
    (issues : list string) : M THTValidationSchema :=
  if in_range 0 1 confidence_score
  then mret {| truth_verified := truth_verified;
               honesty_verified := honesty_verified;
               transparency_verified := transparency_verified;
               confidence_score := confidence_score;
               issues := issues |}
  else raise (validation_error "THTValidationSchema").

(** [ValidationResponse(...)]: the confidence is declared [ge=0, le=1]. *)
Definition new_ValidationResponse (r : ValidationResponse)
    : M ValidationResponse :=
  if in_range 0 1 (confidence r) then mret r
  else raise (validation_error "ValidationResponse").

(** The [try] block of [validate_interaction]. *)
Definition validate_interaction_try (request : ValidationRequest)
    (request_id : string) (start_time : Q) : M ValidationResponse :=
  let output_text := HashServiceOps.or_str (output request) (input request) in
  let context := fmap (M := option) (fmap PyStr) (context request) in
  spiel_result ← SPIELService.analyze spiel_service output_text context;
  tht_result ← THTService.validate tht_service output_text context;
  let is_safe := true in
  let status := SAFE in
  let violations := [] in
  let reason := None in
  let '(is_safe, status, violations, reason) :=
    if negb (SPIELService.is_passing spiel_result) then
      let violations :=
        if SPIELService.safety spiel_result <? 85
        then violations ++ ["harmful_content"] else violations in
      let violations :=
        if SPIELService.ethics spiel_result <? 90
        then violations ++ ["ethical_violation"] else violations in
      let violations :=
        if SPIELService.integrity spiel_result <? 80
        then violations ++ ["manipulation"] else violations in
      (false, BLOCKED, violations, Some "SPIEL score below safety threshold")
    else (is_safe, status, violations, reason) in
  let '(status, violations, reason) :=
    if negb (THTService.is_compliant tht_result) then
      if is_safe : bool then
        (WARNING, violations,
         Some ("THT issues: " +:+ join ", " (THTService.issues tht_result)))
      else (status, violations ++ ["ethical_violation"], reason)
    else (status, violations, reason) in
  let '(message, suggested_alternative) :=
    if is_safe : bool then (output_text, None)
    else (rephrase_message, Some rephrase_message) in
  now ← time_time;
  let processing_time := ((now - start_time) * 1000)%Q in
  integrity_hash ←
    HashServiceOps.generate_integrity_hash sha256 timestamp_str
      (input request) output_text None;
  scored_at ← time_time;
  spiel_score ←
    new_SPIELScoreSchema
      (SPIELService.safety spiel_result)
      (SPIELService.personalization spiel_result)
      (SPIELService.integrity spiel_result)
      (SPIELService.ethics spiel_result)
      (SPIELService.logic spiel_result)
      (SPIELService.composite spiel_result)
      (Some (isoformat scored_at));
  tht_validation ←
    new_THTValidationSchema
      (THTService.truth_verified tht_result)
      (THTService.honesty_verified tht_result)
      (THTService.transparency_verified tht_result)
      (THTService.confidence_score tht_result)
      (THTService.issues tht_result);
  emit "AVRT.Validation" INFO
    ("Validation " +:+ request_id +:+ " complete: status=" +:+
     status_value status +:+ ", spiel=" +:+
     fmt_f 1 (SPIELService.composite spiel_result) +:+ ", time=" +:+
     fmt_f 2 processing_time +:+ "ms");;
  answered_at ← time_time;
  new_ValidationResponse {|
    request_id := request_id;
    status := status;
    is_safe := is_safe;
    message := message;
    original_input := input request;
    original_output := output_text;
    spiel_score := Some spiel_score;
    tht_validation := Some tht_validation;
    violations := violations;
    reason := reason;
    suggested_alternative := suggested_alternative;
    confidence := (SPIELService.composite spiel_result / 100)%Q;
    processing_time_ms := processing_time;
    timestamp := isoformat answered_at;
    integrity_hash := integrity_hash |}.

(** [validate_interaction(request, license_key)]: [uuid4] is the identifier
    [uuid.uuid4()] draws for the call. *)
Definition validate_interaction (request : ValidationRequest)
    (license_key : string) (uuid4 : string)
    : M (Http.HTTPException + ValidationResponse) :=
  start_time ← time_time;
  let request_id := uuid4 in
  emit "AVRT.Validation" INFO
    ("Validation request " +:+ request_id +:+ ": input_len=" +:+
     pretty (len (input request)));;
  try_except
    (response ← validate_interaction_try request request_id start_time;
     mret (inr response))
    (λ e,
       emit "AVRT.Validation" Py.ERROR
         ("Validation error for " +:+ request_id +:+ ": " +:+ exn_str e);;
       mret (inl {| Http.status_code := 500;
                    Http.detail := "Validation failed: " +:+ exn_str e |})).

End endpoints.

End ValidationRouter.

(** ** Text beyond Latin-1 *)

(** [str.lower] on arbitrary Unicode text.  It lower-cases code point by
    code point, with one exception that looks at the neighbours: the capital
    sigma U+03A3 becomes the final small sigma U+03C2 at the end of a word
    and the small sigma U+03C3 elsewhere. *)

Module Unicode.

(** A [str] as the list of its code points. *)
Definition str := list N.

(** The code points of a text of the Latin-1 model. *)
Definition codes (s : string) : str :=
  Ascii.N_of_ascii <$> String.list_ascii_of_string s.

(** The Unicode character database as far as [str.lower] reads it: the full
    lower-case mapping of a code point and the properties Cased and
    Case_Ignorable. *)
Record ucd := {
  tolower_full : N → list N;
  cased : N → bool;
  case_ignorable : N → bool }.

Definition capital_sigma : N := 0x3A3.
Definition final_sigma : N := 0x3C2.
Definition small_sigma : N := 0x3C3.

Section lower.

Variable db : ucd.

(** Skipping case-ignorable code points, the next one is cased. *)
Fixpoint cased_follows (s : str) : bool :=
  match s with
  | [] => false
  | c :: s' => if case_ignorable db c then cased_follows s' else cased db c
  end.

(** [cased_before] tells whether, skipping case-ignorable code points
    backwards from here, the one before is cased. *)
Fixpoint lower_from (cased_before : bool) (s : str) : str :=
  match s with
  | [] => []
  | c :: s' =>
      (if (c =? capital_sigma)%N then
         [if cased_before && negb (cased_follows s')
          then final_sigma else small_sigma]
       else tolower_full db c) ++
      lower_from (if case_ignorable db c then cased_before else cased db c) s'
  end.

(** [s.lower()] *)
Definition lower (s : str) : str := lower_from false s.

End lower.

(** [s.startswith(p)] *)
Fixpoint startswith (p s : str) : bool :=
  match p, s with
  | [], _ => true
  | _ :: _, [] => false
  | a :: p', b :: s' => (a =? b)%N && startswith p' s'
  end.

(** [p in s] *)
Fixpoint contains (p s : str) : bool :=
  startswith p s ||
  match s with
  | [] => false
  | _ :: s' => contains p s'
  end.

End Unicode.

(** [SPIELEngine._analyze_safety] on Unicode text: the score and the
    violations.  The harmful phrases come from the policy file and may hold
    any code points. *)
Module UnicodeSPIELEngine.

Definition _analyze_safety (db : Unicode.ucd)
    (harmful_patterns : list Unicode.str) (text : Unicode.str)
    : Z * list Unicode.str :=
  let score := 100 in
  let violations := [] in
  let text_lower := Unicode.lower db text in
  let '(score, violations) :=
    foldl (λ '(score, violations) pattern,
             if Unicode.contains pattern text_lower
             then (score - 15,
                   violations ++
                   [Unicode.codes "harmful_pattern:" ++ pattern])
             else (score, violations))
          (score, violations) harmful_patterns in
  (Z.max 0 score, violations).

End UnicodeSPIELEngine.

(** [SPIELService._analyze_safety] on Unicode text: the score and the debug
    messages logged.  The harmful phrases are those [__init__] writes. *)
Module UnicodeSPIELService.

Definition _analyze_safety (db : Unicode.ucd)
    (self : SPIELService.SPIELService) (text : Unicode.str)
    : Z * list Unicode.str :=
  let score := 100 in
  let text_lower := Unicode.lower db text in
  let '(score, logged) :=
    foldl (λ '(score, logged) pattern,
             if Unicode.contains pattern text_lower
             then (score - 15,
                   logged ++
                   [Unicode.codes "Safety: Found harmful pattern '" ++
                    pattern ++ Unicode.codes "'"])
             else (score, logged))
          (score, [])
          (Unicode.codes <$> SPIELService.harmful_patterns self) in
  (Z.max 0 (Z.min 100 score), logged).

End UnicodeSPIELService.

(** ** Derived notions used in the statements *)

(** How many of [patterns] occur in [text_lower]. *)
Definition hits (text_lower : string) (patterns : list string) : Z :=
  Z.of_nat (length (filter (λ p, contains p text_lower = true) patterns)).

(** The mean of five dimension scores. *)
Definition mean5 (s p i e l : Z) : Q :=
  ((inject_Z s + inject_Z p + inject_Z i + inject_Z e + inject_Z l) / 5)%Q.

Definition min5 (s p i e l : Z) : Z :=
  Z.min s (Z.min p (Z.min i (Z.min e l))).

Definition max5 (s p i e l : Z) : Z :=
  Z.max s (Z.max p (Z.max i (Z.max e l))).

(** The world after one reading of the clock. *)
Definition tick (w : world) : world :=
  World (clock w) (S (reads w)) (log w).

(** The requests the rate limiter still remembers at time [now], and how many of
    them fall in the last second. *)
Definition kept (now : Q) (times : list Q) : list Q :=
  List.filter (λ t, Qlt_bool (now - 60) t) times.

Definition recent (now : Q) (times : list Q) : Z :=
  Z.of_nat (length (List.filter (λ t, Qlt_bool (now - 1) t) times)).

(** How many of [patterns] occur in the Unicode text [text_lower]. *)
Definition uhits (text_lower : Unicode.str) (patterns : list Unicode.str) : Z :=
  Z.of_nat (length (List.filter (λ p, Unicode.contains p text_lower) patterns)).

(** Two code points are the same, or the first is the final small sigma and
    the second the small sigma. *)
Definition sigma_shift (a b : N) : Prop :=
  a = b ∨ (a = Unicode.final_sigma ∧ b = Unicode.small_sigma).

(** ** Sample inputs *)

(** A clock that answers 0, 1, 2, ... seconds and an empty log. *)
Definition sample_world : world :=
  World (λ n, inject_Z (Z.of_nat n)) 0 [].

(** A stand-in for Python's float printing. *)
Definition sample_str_float (q : Q) : string :=
  pretty (Qnum q) +:+ "/" +:+ pretty (Z.pos (Qden q)).

(** The default policy with the [fail_closed] flag switched off. *)
Definition fail_open_policy : SPIELEngine.SPIELEngine := {|
  SPIELEngine.fail_closed := false;
  SPIELEngine.safety_threshold := 85;
  SPIELEngine.ethics_threshold := 90;
  SPIELEngine.integrity_threshold := 80;
  SPIELEngine.logic_threshold := 75;
  SPIELEngine.personalization_threshold := 70;
  SPIELEngine.harmful_patterns :=
    SPIELEngine.harmful_patterns SPIELEngine._default_policy;
  SPIELEngine.unethical_patterns :=
    SPIELEngine.unethical_patterns SPIELEngine._default_policy;
  SPIELEngine.dishonest_patterns :=
    SPIELEngine.dishonest_patterns SPIELEngine._default_policy;
  SPIELEngine.positive_patterns :=
    SPIELEngine.positive_patterns SPIELEngine._default_policy |}.

(** A hash stand-in that is injective: it only brackets its input. *)
Definition sample_sha256 (data : string) : string := "<" +:+ data.

(** A second hash stand-in: the bits of the input as a string of the
    characters 0 and 1.  It is injective and its output, like a hex digest,
    holds no separator and is never the word "genesis". *)
Definition bit_char (b : bool) : ascii := if b then "1"%char else "0"%char.

Fixpoint sample_digest (data : string) : string :=
  match data with
  | EmptyString => EmptyString
  | String (Ascii b0 b1 b2 b3 b4 b5 b6 b7) data' =>
      String (bit_char b0) (String (bit_char b1) (String (bit_char b2)
        (String (bit_char b3) (String (bit_char b4) (String (bit_char b5)
          (String (bit_char b6) (String (bit_char b7)
            (sample_digest data'))))))))
  end.

(** An audit entry with the given request id and integrity hash. *)
Definition sample_entry (request_id integrity_hash : string)
    : AuditRouter.audit_entry := {|
  AuditRouter.request_id := request_id;
  AuditRouter.user_id := None;
  AuditRouter.input_text := "hello";
  AuditRouter.output_text := "hi there";
  AuditRouter.status := "safe";
  AuditRouter.spiel_score := None;
  AuditRouter.tht_compliant := None;
  AuditRouter.violations := None;
  AuditRouter.timestamp := "2025-01-01T00:00:00";
  AuditRouter.integrity_hash := integrity_hash |}.

(** The Unicode character database on Basic Latin, the Latin-1 Supplement
    and the Greek and Coptic block (U+0000..U+00FF, U+0370..U+03FF); other
    code points are left as they are and taken to be uncased. *)
Definition between (a c b : N) : bool := ((a <=? c) && (c <=? b))%N.

Definition sample_ucd : Unicode.ucd := {|
  Unicode.tolower_full c :=
    if between 0x41 c 0x5A || between 0xC0 c 0xD6 || between 0xD8 c 0xDE ||
       between 0x391 c 0x3A1 || between 0x3A3 c 0x3AB then [c + 32]
    else if between 0x388 c 0x38A then [c + 37]
    else if (c =? 0x386)%N then [c + 38]
    else if between 0x38E c 0x38F then [c + 63]
    else if (c =? 0x38C)%N then [c + 64]
    else if (c =? 0x37F)%N then [c + 116]
    else if (c =? 0x3CF)%N then [c + 8]
    else if (c =? 0x3F4)%N then [c - 60]
    else if (c =? 0x3F9)%N then [c - 7]
    else if between 0x3FD c 0x3FF then [c - 130]
    else if (c =? 0x370)%N || (c =? 0x372)%N || (c =? 0x376)%N ||
            (c =? 0x3F7)%N || (c =? 0x3FA)%N ||
            between 0x3D8 c 0x3EE && N.even c then [c + 1]
    else [c];
  Unicode.cased c :=
    between 0x41 c 0x5A || between 0x61 c 0x7A ||
    (c =? 0xAA)%N || (c =? 0xB5)%N || (c =? 0xBA)%N ||
    between 0xC0 c 0xD6 || between 0xD8 c 0xF6 || between 0xF8 c 0xFF ||
    between 0x370 c 0x373 || between 0x376 c 0x377 ||
    between 0x37B c 0x37D || (c =? 0x37F)%N || (c =? 0x386)%N ||
    between 0x388 c 0x38A || (c =? 0x38C)%N || between 0x38E c 0x3A1 ||
    between 0x3A3 c 0x3F5 || between 0x3F7 c 0x3FF;
  Unicode.case_ignorable c :=
    existsb (N.eqb c)
      [0x27; 0x2E; 0x3A; 0x5E; 0x60; 0xA8; 0xAD; 0xAF; 0xB4; 0xB7; 0xB8;
       0x374; 0x375; 0x37A; 0x384; 0x385; 0x387] |}%N.

(** A Greek catalogue, "φόνος" (murder) and "βία" (violence), and the text
    "βία ΦΌΝΟΣ", whose capital sigma ends the word. *)
Definition greek_catalogue : list Unicode.str :=
  [[0x3C6; 0x3CC; 0x3BD; 0x3BF; 0x3C2]; [0x3B2; 0x3AF; 0x3B1]]%N.

Definition greek_phrase : Unicode.str := [0x3B2; 0x3AF; 0x3B1]%N.

Definition greek_text : Unicode.str :=
  [0x3B2; 0x3AF; 0x3B1; 0x20; 0x3A6; 0x38C; 0x39D; 0x39F; 0x3A3]%N.

(** * Properties *)

(** ** Strings *)

Section string_facts.

Implicit Types (p s t : string) (c : ascii).

Lemma str_app_nil_l s : "" +:+ s = s.
Proof. reflexivity. Qed.

Lemma str_app_cons c s t : String c s +:+ t = String c (s +:+ t).
Proof. reflexivity. Qed.

Lemma str_app_nil_r s : s +:+ "" = s.
Proof. induction s as [|c s IH]; [done|]. by rewrite str_app_cons, IH. Qed.

Lemma str_app_assoc s t u : (s +:+ t) +:+ u = s +:+ t +:+ u.
Proof. induction s as [|c s IH]; [done|]. by rewrite !str_app_cons, IH. Qed.

Lemma str_app_length s t :
  String.length (s +:+ t) = (String.length s + String.length t)%nat.
Proof. induction s as [|c s IH]; [done|]. rewrite str_app_cons. simpl. by rewrite IH. Qed.

(** Equal strings with a common suffix have equal prefixes. *)
Lemma str_app_inv_tail s t u : s +:+ u = t +:+ u → s = t.
Proof.
  revert t. induction s as [|c s IH]; intros [|d t] H.
  - done.
  - apply (f_equal String.length) in H.
    rewrite str_app_nil_l, str_app_cons in H. simpl in H. rewrite str_app_length in H. lia.
  - apply (f_equal String.length) in H.
    rewrite str_app_nil_l, str_app_cons in H. simpl in H. rewrite str_app_length in H. lia.
  - rewrite !str_app_cons in H. injection H as -> H. f_equal. by apply IH.
Qed.

Lemma lower_app s t : lower (s +:+ t) = lower s +:+ lower t.
Proof.
  induction s as [|c s IH]; [done|].
  rewrite str_app_cons. simpl. by rewrite IH, str_app_cons.
Qed.

Lemma startswith_spec p s : startswith p s = true ↔ ∃ r, s = p +:+ r.
Proof.
  revert s. induction p as [|a p IH]; intros s.
  - split; [intros _; by exists s | done].
  - destruct s as [|b s]; simpl.
    + split; [done | intros [r Hr]; by rewrite str_app_cons in Hr].
    + rewrite andb_true_iff, bool_decide_eq_true, IH. split.
      * intros [-> [r ->]]. by exists r.
      * intros [r Hr]. rewrite str_app_cons in Hr. injection Hr as -> ->. eauto.
Qed.

(** [contains p s] decides whether [p] occurs in [s]. *)
Lemma contains_spec p s : contains p s = true ↔ ∃ a b, s = a +:+ p +:+ b.
Proof.
  induction s as [|c s IH]; simpl.
  - rewrite orb_false_r, startswith_spec. split.
    + intros [r Hr]. by exists "", r.
    + intros [[|a0 a] [b Hb]]; [by exists b | by rewrite str_app_cons in Hb].
  - rewrite orb_true_iff, startswith_spec, IH. split.
    + intros [[r Hr] | (a & b & ->)].
      * by exists "", r.
      * by exists (String c a), b.
    + intros [[|a0 a] [b Hb]].
      * left. by exists b.
      * right. rewrite str_app_cons in Hb. injection Hb as -> ->. by exists a, b.
Qed.

(** An occurrence survives appending to the text. *)
Lemma contains_app_l p s t : contains p s = true → contains p (s +:+ t) = true.
Proof.
  rewrite !contains_spec. intros (a & b & ->).
  exists a, (b +:+ t). by rewrite !str_app_assoc.
Qed.

Lemma contains_app_r p s : contains p (s +:+ p) = true.
Proof. apply contains_spec. exists s, "". by rewrite str_app_nil_r. Qed.

End string_facts.

(** ** Pattern loops *)

Section pattern_loops.

Implicit Types (tl : string) (patterns : list string) (score weight : Z).

Lemma hits_nil tl : hits tl [] = 0.
Proof. reflexivity. Qed.

Lemma hits_cons tl p patterns :
  hits tl (p :: patterns) = (if contains p tl then 1 else 0) + hits tl patterns.
Proof.
  unfold hits. rewrite filter_cons.
  destruct (decide (contains p tl = true)) as [H|H].
  - rewrite H. simpl length. lia.
  - apply not_true_is_false in H. rewrite H. lia.
Qed.

Lemma hits_nonneg tl patterns : 0 ≤ hits tl patterns.
Proof. unfold hits. lia. Qed.

(** A text in which every pattern of the first text still occurs has at least
    as many hits. *)
Lemma hits_mono tl tl' patterns :
  (∀ p, p ∈ patterns → contains p tl = true → contains p tl' = true) →
  hits tl patterns ≤ hits tl' patterns.
Proof.
  induction patterns as [|p patterns IH]; intros H; [done|].
  rewrite !hits_cons.
  assert (hits tl patterns ≤ hits tl' patterns) as Hrest.
  { apply IH. intros q Hq. apply H. by right. }
  destruct (contains p tl) eqn:Hp.
  - rewrite (H p); [lia | by left | done].
  - destruct (contains p tl'); lia.
Qed.


(** The penalty loops of the engine: [weight] off the score for every hit. *)
Lemma penalty_loop_score tag weight tl patterns score (violations : list string) :
  (foldl (λ '(score, violations) pattern,
            if contains pattern tl
            then (score - weight, violations ++ [tag +:+ pattern])
            else (score, violations))
         (score, violations) patterns).1
  = score - weight * hits tl patterns.
Proof.
  revert score violations.
  induction patterns as [|p patterns IH]; intros score violations.
  - rewrite hits_nil. simpl. lia.
  - rewrite hits_cons. simpl. destruct (contains p tl); rewrite IH; lia.
Qed.

(** The bonus loops: [bonus] on the score for every marker found. *)
Lemma bonus_loop bonus tl markers score :
  foldl (λ score marker, if contains marker tl then score + bonus else score)
        score markers
  = score + bonus * hits tl markers.
Proof.
  revert score. induction markers as [|m markers IH]; intros score.
  - rewrite hits_nil. simpl. lia.
  - rewrite hits_cons. simpl. rewrite IH. destruct (contains m tl); lia.
Qed.

(** The penalty loops of the service, which log each hit through [note]. *)
Lemma for_in_penalty (note : string → M unit) weight tl patterns score w :
  (∀ p w, ∃ w', note p w = (Ok tt, w')) →
  ∃ w', for_in patterns score
          (λ score pattern,
             if contains pattern tl
             then note pattern;; mret (score - weight)
             else mret score) w
        = (Ok (score - weight * hits tl patterns), w').
Proof.
  intros Hnote. unfold mbind, M_bind, mret, M_ret. revert score w.
  induction patterns as [|p patterns IH]; intros score w.
  - exists w. rewrite hits_nil. simpl. unfold Py.ret. do 2 f_equal. lia.
  - rewrite hits_cons. simpl. unfold Py.bind at 1.
    destruct (contains p tl).
    + unfold Py.bind at 1. destruct (Hnote p w) as [w1 ->].
      unfold Py.ret at 1.
      destruct (IH (score - weight) w1) as [w2 ->].
      exists w2. do 2 f_equal. lia.
    + unfold Py.ret at 1.
      destruct (IH score w) as [w2 ->].
      exists w2. do 2 f_equal; lia.
Qed.

Lemma emit_ok name lv message w : ∃ w', emit name lv message w = (Ok tt, w').
Proof. by eexists. Qed.

End pattern_loops.

(** ** Running the engine on a text *)

Section engine_runs.

Import SPIELEngine.

Variable str_float : Q → string.

Implicit Types (self : SPIELEngine) (t : string) (w : world)
  (context : option (gmap string pyval)).

Lemma engine_safety_run self t w :
  ∃ violations,
    _analyze_safety self (Some t) w =
    (Ok (Z.max 0 (100 - 15 * hits (lower t) (harmful_patterns self)),
         violations), w).
Proof.
  unfold _analyze_safety, py_lower, mbind, M_bind, Py.bind, mret, M_ret, Py.ret.
  rewrite <- (penalty_loop_score "harmful_pattern:" _ _ _ _ []).
  destruct (foldl _ _ _) as [score violations].
  by exists violations.
Qed.

Lemma engine_integrity_run self t w :
  ∃ violations,
    _analyze_integrity self (Some t) w =
    (Ok (Z.max 0 (95 - 15 * hits (lower t) (dishonest_patterns self)),
         violations), w).
Proof.
  unfold _analyze_integrity, py_lower, mbind, M_bind, Py.bind, mret, M_ret,
    Py.ret.
  rewrite <- (penalty_loop_score "dishonest_pattern:" _ _ _ _ []).
  destruct (foldl _ _ _) as [score violations].
  by exists violations.
Qed.

Lemma engine_ethics_run self t w :
  ∃ violations,
    _analyze_ethics self (Some t) w =
    (Ok (Z.max 0 (100 - 20 * hits (lower t) (unethical_patterns self)),
         violations), w).
Proof.
  unfold _analyze_ethics, py_lower, mbind, M_bind, Py.bind, mret, M_ret, Py.ret.
  rewrite <- (penalty_loop_score "unethical_pattern:" _ _ _ _ []).
  destruct (foldl _ _ _) as [score violations].
  by exists violations.
Qed.

Lemma engine_personalization_run self t context w :
  ∃ score,
    _analyze_personalization self (Some t) context w = (Ok score, w) ∧
    80 ≤ score ≤ 100.
Proof.
  unfold _analyze_personalization, py_lower, mbind, M_bind, Py.bind, mret,
    M_ret, Py.ret.
  eexists. split; [reflexivity|].
  rewrite bonus_loop.
  pose proof (hits_nonneg (lower t)
    ["you"; "your"; "help"; "assist"; "would you like"]).
  destruct context as [d|];
    [destruct (truthy (PyDict d) && get_truthy d "user_preferences")|]; lia.
Qed.

Lemma engine_logic_run self t w :
  ∃ score,
    _analyze_logic self (Some t) w = (Ok score, w) ∧ 0 ≤ score ≤ 100.
Proof.
  unfold _analyze_logic, py_lower, py_strip, mbind, M_bind, Py.bind, mret,
    M_ret, Py.ret.
  eexists. split; [reflexivity|]. lia.
Qed.

(** On a text the [try] block of [enforce] completes: it reads the clock
    twice and returns the five scores, their mean and the action
    [_determine_action] chooses for them. *)
Lemma enforce_try_some self t context start_time w :
  ∃ r,
    enforce_try str_float self (Some t) context start_time w
    = (Ok r, tick (tick w)) ∧
    safety_score r
    = Z.max 0 (100 - 15 * hits (lower t) (harmful_patterns self)) ∧
    80 ≤ personalization_score r ≤ 100 ∧
    integrity_score r
    = Z.max 0 (95 - 15 * hits (lower t) (dishonest_patterns self)) ∧
    ethics_score r
    = Z.max 0 (100 - 20 * hits (lower t) (unethical_patterns self)) ∧
    0 ≤ logic_score r ≤ 100 ∧
    composite_score r
    = (inject_Z (safety_score r + personalization_score r +
                 integrity_score r + ethics_score r + logic_score r) / 5)%Q ∧
    (action r, reasoning r)
    = _determine_action str_float self (safety_score r)
        (personalization_score r) (integrity_score r) (ethics_score r)
        (logic_score r) (violations r).
Proof.
  unfold enforce_try.
  destruct (engine_safety_run self t w) as [sv Hs].
  destruct (engine_personalization_run self t context w) as (p & Hp & Hpb).
  destruct (engine_integrity_run self t w) as [iv Hi].
  destruct (engine_ethics_run self t w) as [ev He].
  destruct (engine_logic_run self t w) as (l & Hl & Hlb).
  unfold mbind, M_bind, Py.bind at 1. rewrite Hs.
  unfold Py.bind at 1. rewrite Hp.
  unfold Py.bind at 1. rewrite Hi.
  unfold Py.bind at 1. rewrite He.
  unfold Py.bind at 1. rewrite Hl.
  destruct (_determine_action _ _ _ _ _ _ _ _) as [a reason] eqn:Ha.
  unfold Py.bind, time_time, mret, M_ret, Py.ret.
  eexists. split; [reflexivity|]. simpl. by rewrite Ha.
Qed.

Lemma enforce_some self t context w :
  enforce str_float self (Some t) context w
  = enforce_try str_float self (Some t) context (clock w (reads w)) (tick w).
Proof.
  unfold enforce, try_except, mbind, M_bind, Py.bind, time_time. fold (tick w).
  destruct (enforce_try_some self t context (clock w (reads w)) (tick w))
    as (r & -> & _). done.
Qed.

(** The only exception the [try] block of [enforce] raises on a text or on
    [None] is the [AttributeError] of [None.lower()], a class derived from
    [Exception]. *)
Lemma enforce_try_raises_Exception self text context start_time w e w1 :
  enforce_try str_float self text context start_time w = (Raise e, w1) →
  text = None ∧
  e = Exn "AttributeError" "'NoneType' object has no attribute 'lower'".
Proof.
  destruct text as [t|].
  - destruct (enforce_try_some self t context start_time w) as (r & -> & _).
    discriminate.
  - unfold enforce_try, _analyze_safety, py_lower, mbind, M_bind, Py.bind,
      raise.
    by intros [= <- <-].
Qed.

End engine_runs.

(** ** Running the scoring service and the validator *)

Section service_runs.

Import SPIELService.

Implicit Types (self : SPIELService) (t : string) (w : world)
  (context : option (gmap string pyval)).

Lemma service_safety_run self t w :
  ∃ w', _analyze_safety self t w =
        (Ok (Z.max 0 (Z.min 100
               (100 - 15 * hits (lower t) (harmful_patterns self)))), w').
Proof.
  unfold _analyze_safety, mbind at 1, M_bind at 1, Py.bind at 1.
  edestruct (for_in_penalty
    (λ pattern, logger_debug ("Safety: Found harmful pattern '" +:+ pattern +:+ "'"))
    15 (lower t) (harmful_patterns self) 100 w) as [w' ->].
  { intros. apply emit_ok. }
  by exists w'.
Qed.

Lemma service_integrity_run self t w :
  ∃ w', _analyze_integrity self t w =
        (Ok (Z.max 0 (95 - 15 * hits (lower t) (dishonest_patterns self))), w').
Proof.
  unfold _analyze_integrity, mbind at 1, M_bind at 1, Py.bind at 1.
  edestruct (for_in_penalty
    (λ pattern, logger_debug ("Integrity: Found dishonest pattern '" +:+ pattern +:+ "'"))
    15 (lower t) (dishonest_patterns self) 95 w) as [w' ->].
  { intros. apply emit_ok. }
  by exists w'.
Qed.

Lemma service_ethics_run self t w :
  ∃ w', _analyze_ethics self t w =
        (Ok (Z.max 0 (100 - 20 * hits (lower t) (unethical_patterns self))), w').
Proof.
  unfold _analyze_ethics, mbind at 1, M_bind at 1, Py.bind at 1.
  edestruct (for_in_penalty
    (λ pattern, logger_debug ("Ethics: Found unethical pattern '" +:+ pattern +:+ "'"))
    20 (lower t) (unethical_patterns self) 100 w) as [w' ->].
  { intros. apply emit_ok. }
  by exists w'.
Qed.

Lemma service_personalization_bounds self t context :
  80 ≤ _analyze_personalization self t context ≤ 100.
Proof.
  unfold _analyze_personalization. rewrite bonus_loop.
  pose proof (hits_nonneg (lower t) (personal_markers self)).
  destruct context as [d|]; [|lia].
  destruct (truthy (PyDict d)); [|lia].
  destruct (get_truthy d "user_preferences");
    destruct (get_truthy d "conversation_history"); lia.
Qed.

Lemma service_logic_bounds self t : 0 ≤ _analyze_logic self t ≤ 100.
Proof. unfold _analyze_logic. lia. Qed.

(** [analyze] returns, and what it returns does not depend on the world it
    runs in: the result is fixed before the world is chosen. *)
Lemma analyze_run self t context :
  ∃ r,
    (∀ w, ∃ w', analyze self t context w = (Ok r, w')) ∧
    safety r
    = Z.max 0 (Z.min 100 (100 - 15 * hits (lower t) (harmful_patterns self))) ∧
    personalization r = _analyze_personalization self t context ∧
    integrity r
    = Z.max 0 (95 - 15 * hits (lower t) (dishonest_patterns self)) ∧
    ethics r
    = Z.max 0 (100 - 20 * hits (lower t) (unethical_patterns self)) ∧
    logic r = _analyze_logic self t ∧
    composite r
    = (inject_Z (safety r + personalization r + integrity r + ethics r +
                 logic r) / 5)%Q.
Proof.
  eexists. split.
  - intros w. unfold analyze, logger_debug at 1, logger_info.
    unfold mbind, M_bind, Py.bind at 1. simpl.
    unfold Py.bind at 1.
    edestruct service_safety_run as [w1 ->].
    unfold Py.bind at 1.
    edestruct service_integrity_run as [w2 ->].
    unfold Py.bind at 1.
    edestruct service_ethics_run as [w3 ->].
    unfold Py.bind, emit, mret, M_ret, Py.ret.
    eexists. reflexivity.
  - simpl. done.
Qed.

End service_runs.

Section validator_runs.

Import THTService.

Implicit Types (self : THTService) (t : string) (w : world)
  (context : option (gmap string pyval)).

(** The early-return loops of the validator, which log through [note]. *)
Lemma for_return_none_found (note : string → M unit) patterns tl w :
  (∀ p w, ∃ w', note p w = (Ok tt, w')) →
  ∃ w', for_return patterns
          (λ pattern,
             if contains pattern tl
             then note pattern;; mret (Some false)
             else mret None) true w
        = (Ok (negb (existsb (λ p, contains p tl) patterns)), w').
Proof.
  intros Hnote. unfold mbind, M_bind, mret, M_ret. revert w.
  induction patterns as [|p patterns IH]; intros w; simpl.
  - by exists w.
  - unfold Py.bind at 1. destruct (contains p tl); simpl.
    + unfold Py.bind at 1. destruct (Hnote p w) as [w1 ->].
      by exists w1.
    + unfold Py.ret at 1. apply IH.
Qed.

(** The transparency check: only a claim in a text of 50 characters or more
    needs a reasoning marker. *)
Lemma verify_transparency_run self t w :
  ∃ w', _verify_transparency self t w
        = (Ok (negb (existsb (λ p, contains p (lower t)) (claim_patterns self))
               || (len t <? 50)
               || existsb (λ m, contains m (lower t)) (transparent_markers self)),
           w').
Proof.
  unfold _verify_transparency.
  destruct (existsb _ (claim_patterns self)); simpl.
  - destruct (len t <? 50); simpl; [by exists w|].
    destruct (existsb _ (transparent_markers self)); simpl; [by exists w|].
    unfold logger_debug, emit, mbind, M_bind, Py.bind, mret, M_ret, Py.ret.
    by eexists.
  - by exists w.
Qed.

(** [validate] returns, and what it returns does not depend on the world it
    runs in. *)
Lemma validate_run self t context :
  ∃ r,
    (∀ w, ∃ w', validate self t context w = (Ok r, w')) ∧
    transparency_verified r
    = negb (existsb (λ p, contains p (lower t)) (claim_patterns self))
      || (len t <? 50)
      || existsb (λ m, contains m (lower t)) (transparent_markers self).
Proof.
  eexists. split.
  - intros w. unfold validate, logger_debug at 1, logger_info.
    unfold mbind, M_bind, Py.bind at 1. simpl.
    unfold Py.bind at 1, _verify_truth.
    edestruct (for_return_none_found
      (λ pattern, logger_debug ("Truth: Found false pattern '" +:+ pattern +:+ "'")))
      as [w1 ->].
    { intros. apply emit_ok. }
    unfold Py.bind at 1, _verify_honesty.
    edestruct (for_return_none_found
      (λ pattern, logger_debug ("Honesty: Found dishonest pattern '" +:+ pattern +:+ "'")))
      as [w2 ->].
    { intros. apply emit_ok. }
    unfold Py.bind at 1.
    edestruct verify_transparency_run as [w3 ->].
    unfold Py.bind, emit, mret, M_ret, Py.ret.
    eexists. reflexivity.
  - simpl. done.
Qed.

End validator_runs.

(** ** The mean of five whole scores *)

Section mean_facts.

Local Open Scope Q_scope.

Lemma round_half_even_comp q q' : q == q' → round_half_even q = round_half_even q'.
Proof.
  intros H. unfold round_half_even. rewrite (Qfloor_comp _ _ H).
  assert (q - inject_Z (Qfloor q') == q' - inject_Z (Qfloor q')) as Hr.
  { unfold Qminus. apply Qplus_comp; [exact H | reflexivity]. }
  by rewrite (Qcompare_comp _ _ Hr _ _ (Qeq_refl (1 # 2))).
Qed.

Lemma round_half_even_Z z : round_half_even (inject_Z z) = z.
Proof.
  unfold round_half_even. rewrite Qfloor_Z.
  assert ((inject_Z z - inject_Z z ?= 1 # 2) = Lt) as ->; [|done].
  rewrite <- Qlt_alt. unfold Qlt, Qminus, Qplus, Qopp, inject_Z. simpl. lia.
Qed.

(** The sum of five scores over 5 is their mean. *)
Lemma sum_div_mean5 s p i e l :
  inject_Z (s + p + i + e + l) / 5 == mean5 s p i e l.
Proof. unfold mean5. by rewrite !inject_Z_plus. Qed.

(** The mean lies between the least and the greatest score. *)
Lemma mean5_between s p i e l :
  inject_Z (min5 s p i e l) <= mean5 s p i e l <= inject_Z (max5 s p i e l).
Proof.
  rewrite <- sum_div_mean5. unfold min5, max5.
  unfold Qle, Qdiv, Qmult, Qinv, inject_Z. simpl. lia.
Qed.

(** A fifth of a whole number has one decimal: rounding it to one decimal or
    more leaves it as it is. *)
Lemma round_decimals_fifth (d : nat) (n : Z) :
  round_decimals (S d) (inject_Z n / 5) == inject_Z n / 5.
Proof.
  unfold round_decimals.
  set (k := (10 ^ Z.of_nat d)%Z).
  assert (0 < k)%Z as Hk by (subst k; lia).
  assert ((10 ^ Z.of_nat (S d))%Z = (10 * k)%Z) as ->.
  { subst k. rewrite Nat2Z.inj_succ, Z.pow_succ_r; lia. }
  assert (¬ inject_Z k == 0) as Hk0.
  { unfold Qeq, inject_Z. simpl. lia. }
  rewrite (round_half_even_comp _ (inject_Z (n * 2 * k))).
  - rewrite round_half_even_Z, !inject_Z_mult. by field.
  - rewrite !inject_Z_mult. by field.
Qed.

End mean_facts.

(** ** Fail-closed enforcement *)

Section fail_closed_facts.

Import SPIELEngine.

Implicit Types (self : SPIELEngine) (w : world) (e : exn).

(** With the flag set, the handler turns any exception into a BLOCK result. *)
Lemma enforce_except_closed self start_time e w :
  fail_closed self = true →
  ∃ r w',
    enforce_except self start_time e w = (Ok r, w') ∧
    action r = BLOCK ∧
    reasoning r = "Fail-closed triggered due to error: " +:+ exn_str e ∧
    violations r = ["system_error"].
Proof.
  intros Hflag. unfold enforce_except. rewrite Hflag.
  unfold mbind, M_bind, Py.bind, emit, time_time, mret, M_ret, Py.ret.
  do 2 eexists. split; [reflexivity|]. done.
Qed.

(** With the flag cleared, the handler re-raises. *)
Lemma enforce_except_open self start_time e w :
  fail_closed self = false →
  ∃ w', enforce_except self start_time e w = (Raise e, w').
Proof.
  intros Hflag. unfold enforce_except. rewrite Hflag.
  unfold mbind, M_bind, Py.bind, emit, raise. by eexists.
Qed.

(** Whatever the guarded block does, as long as what it raises derives from
    [Exception], [try]/[except] with the flag set returns a result, and that
    result is BLOCK when the block raised. *)
Lemma guarded_block_closed (body : M SPIELResult) self start_time w :
  fail_closed self = true →
  (∀ e w1, body w = (Raise e, w1) → is_Exception e = true) →
  ∃ r w',
    try_except body (enforce_except self start_time) w = (Ok r, w') ∧
    ∀ e w1, body w = (Raise e, w1) →
      action r = BLOCK ∧
      reasoning r = "Fail-closed triggered due to error: " +:+ exn_str e.
Proof.
  intros Hflag Hclass. unfold try_except.
  destruct (body w) as [[r|e] w1] eqn:Hbody.
  - exists r, w1. split; [done|]. intros ? ? [=].
  - rewrite (Hclass e w1 eq_refl).
    destruct (enforce_except_closed self start_time e w1 Hflag)
      as (r & w' & -> & Ha & Hr & _).
    exists r, w'. split; [done|]. by intros ? ? [= <- <-].
Qed.

(** An exception of a class outside [Exception] passes through
    [try]/[except Exception] untouched: the handler does not run. *)
Lemma try_except_passes_BaseException {A} (body : M A) handler e w w1 :
  body w = (Raise e, w1) →
  is_Exception e = false →
  try_except body handler w = (Raise e, w1).
Proof. intros Hbody Hclass. unfold try_except. by rewrite Hbody, Hclass. Qed.

(** The decorator: with [on_exception] set it contains every exception of the
    wrapped call that derives from [Exception] in a blocking response,
    otherwise it re-raises. *)
Lemma wrapper_contains_fault (str_float : Q → string) {T} timeout_seconds
    log_failures name (call : M T) e w w1 :
  call (tick w) = (Raise e, w1) →
  is_Exception e = true →
  (∃ response w',
     FailClosed.wrapper str_float timeout_seconds true log_failures name call w
     = (Ok (inr response), w') ∧
     FailClosed.reason response = FailClosed.EXCEPTION ∧
     FailClosed.blocked response = true) ∧
  (∃ w',
     FailClosed.wrapper str_float timeout_seconds false log_failures name call w
     = (Raise e, w')).
Proof.
  intros Hcall Hclass. unfold tick in Hcall.
  unfold FailClosed.wrapper, try_except, time_time.
  unfold mbind, M_bind, Py.bind. rewrite Hcall, Hclass.
  split.
  - destruct log_failures;
      unfold FailClosed.new_response, mbind, M_bind, Py.bind, emit, time_time,
        mret, M_ret, Py.ret; by do 2 eexists.
  - by eexists.
Qed.

End fail_closed_facts.

(** ** The audit chain *)

Section chain_facts.

Import HashService.

Variable sha256 : string → string.

Lemma chain_app pre post :
  generate_chain_hash sha256 (pre ++ post)
  = foldl (λ chain_hash entry_hash, sha256 (chain_hash +:+ "|" +:+ entry_hash))
          (generate_chain_hash sha256 pre) post.
Proof. unfold generate_chain_hash. apply foldl_app. Qed.

(** Under a collision-free hash, two different links stay different however
    many common entries are chained after them. *)
Lemma chain_diverges (link link' : string) post :
  Inj (=) (=) sha256 →
  link ≠ link' →
  foldl (λ chain_hash entry_hash, sha256 (chain_hash +:+ "|" +:+ entry_hash))
        link post
  ≠ foldl (λ chain_hash entry_hash, sha256 (chain_hash +:+ "|" +:+ entry_hash))
          link' post.
Proof.
  intros Hinj. revert link link'.
  induction post as [|entry post IH]; intros link link' Hne; [done|].
  simpl. apply IH. intros H%Hinj. by apply str_app_inv_tail in H.
Qed.

End chain_facts.

(** ** Lower-casing Unicode text *)

Section unicode_facts.

Import Unicode.

Variable db : ucd.

Lemma ustartswith_spec (p s : str) :
  startswith p s = true ↔ ∃ post, s = p ++ post.
Proof.
  revert s. induction p as [|a p IH]; intros s; simpl.
  - split; [by exists s|done].
  - destruct s as [|b s].
    + split; [done|]. by intros [post [=]].
    + rewrite andb_true_iff, N.eqb_eq, IH. split.
      * intros [-> [post ->]]. by exists post.
      * intros [post [= -> ->]]. split; [done|]. by exists post.
Qed.

Lemma ucontains_spec (p s : str) :
  contains p s = true ↔ ∃ pre post, s = pre ++ p ++ post.
Proof.
  induction s as [|b s IH]; simpl.
  - rewrite orb_false_r, ustartswith_spec. split.
    + intros [post ->]. by exists [], post.
    + intros (pre & post & H). symmetry in H.
      apply app_eq_nil in H as [-> H]. apply app_eq_nil in H as [-> ->].
      by exists [].
  - rewrite orb_true_iff, ustartswith_spec, IH. split.
    + intros [[post ->] | (pre & post & ->)].
      * by exists [], post.
      * by exists (b :: pre), post.
    + intros ([|c pre] & post & H).
      * left. by exists post.
      * right. injection H as -> ->. by exists pre, post.
Qed.

Lemma cased_follows_app (s p : str) :
  cased_follows db s = true → cased_follows db (s ++ p) = true.
Proof.
  induction s as [|c s IH]; simpl; [done|].
  by destruct (case_ignorable db c).
Qed.

Lemma sigma_shift_refl (l : str) : Forall2 sigma_shift l l.
Proof. induction l; constructor; [by left|done]. Qed.

(** A phrase without the final small sigma is not changed by the shift. *)
Lemma sigma_shift_eq (q q' : str) :
  Forall2 sigma_shift q q' → final_sigma ∉ q → q = q'.
Proof.
  induction 1 as [|a b q q' Hab _ IH]; [done|].
  intros Hq. apply not_elem_of_cons in Hq as [Ha Hq].
  destruct Hab as [-> | [-> _]]; [|done]. f_equal. by apply IH.
Qed.

(** Lower-casing a text followed by more text: the part that comes from the
    text is the lower-cased text up to final sigmas that became small
    sigmas, and it is the lower-cased text itself when the text holds no
    capital sigma. *)
Lemma lower_from_app (cased_before : bool) (t p : str) :
  ∃ l b,
    lower_from db cased_before (t ++ p) = l ++ lower_from db b p ∧
    Forall2 sigma_shift (lower_from db cased_before t) l ∧
    (capital_sigma ∉ t → l = lower_from db cased_before t).
Proof.
  revert cased_before. induction t as [|c t IH]; intros cased_before.
  - exists [], cased_before. repeat split; constructor.
  - destruct (IH (if case_ignorable db c then cased_before else cased db c))
      as (l & b & Heq & Hshift & Hsame).
    simpl. rewrite Heq.
    destruct (c =? capital_sigma)%N eqn:Hc.
    + eexists (_ :: l), b. split; [reflexivity|]. split.
      * simpl. constructor; [|done].
        destruct cased_before; simpl; [|by left].
        destruct (cased_follows db t) eqn:Hfollows.
        -- rewrite (cased_follows_app t p Hfollows). by left.
        -- destruct (cased_follows db (t ++ p)); [by right|by left].
      * intros Hno. apply N.eqb_eq in Hc.
        apply not_elem_of_cons in Hno as [Hne _]. by rewrite Hc in Hne.
    + exists (tolower_full db c ++ l), b. split; [by rewrite app_assoc|].
      split.
      * apply Forall2_app; [apply sigma_shift_refl|done].
      * intros Hno. apply not_elem_of_cons in Hno as [_ Hno].
        by rewrite (Hsame Hno).
Qed.

(** A phrase found in the lower-cased text is still found after more text
    is appended, if the text holds no capital sigma or the phrase no final
    small sigma. *)
Lemma ucontains_lower_app (q t p : str) :
  capital_sigma ∉ t ∨ final_sigma ∉ q →
  contains q (lower db t) = true →
  contains q (lower db (t ++ p)) = true.
Proof.
  intros Hside. unfold lower.
  destruct (lower_from_app false t p) as (l & b & -> & Hshift & Hsame).
  rewrite !ucontains_spec. intros (pre & post & Ht).
  destruct Hside as [Hno | Hq].
  - rewrite (Hsame Hno), Ht. exists pre, (post ++ lower_from db b p).
    by rewrite <- !app_assoc.
  - rewrite Ht in Hshift.
    apply Forall2_app_inv_l in Hshift as (pre' & l' & _ & Hshift & ->).
    apply Forall2_app_inv_l in Hshift as (q' & post' & Hqq & _ & ->).
    rewrite <- (sigma_shift_eq q q' Hqq Hq).
    exists pre', (post' ++ lower_from db b p). by rewrite <- !app_assoc.
Qed.

Lemma uhits_mono (tl tl' : str) (patterns : list str) :
  (∀ q, q ∈ patterns → contains q tl = true → contains q tl' = true) →
  uhits tl patterns ≤ uhits tl' patterns.
Proof.
  unfold uhits. induction patterns as [|q patterns IH]; intros Hsub; [done|].
  assert (Z.of_nat (length (List.filter (λ p, contains p tl) patterns))
          ≤ Z.of_nat (length (List.filter (λ p, contains p tl') patterns)))
    as Hrest.
  { apply IH. intros q' Hq'. apply Hsub. by right. }
  simpl. destruct (contains q tl) eqn:Hq.
  - rewrite (Hsub q ltac:(by left) Hq). simpl. lia.
  - destruct (contains q tl'); simpl; lia.
Qed.

(** Each phrase found takes 15 off the score, whatever is recorded along
    with it. *)
Lemma upenalty_loop (tl : str) (note : str → str) (patterns : list str)
    (score : Z) (notes : list str) :
  (foldl (λ '(score, notes) pattern,
            if contains pattern tl
            then (score - 15, notes ++ [note pattern])
            else (score, notes))
         (score, notes) patterns).1
  = score - 15 * uhits tl patterns.
Proof.
  unfold uhits. revert score notes.
  induction patterns as [|q patterns IH]; intros score notes; simpl; [lia|].
  destruct (contains q tl); rewrite IH; simpl; lia.
Qed.

Lemma uengine_safety (harmful_patterns : list str) (text : str) :
  (UnicodeSPIELEngine._analyze_safety db harmful_patterns text).1
  = Z.max 0 (100 - 15 * uhits (lower db text) harmful_patterns).
Proof.
  unfold UnicodeSPIELEngine._analyze_safety.
  pose proof (upenalty_loop (lower db text)
    (λ pattern, codes "harmful_pattern:" ++ pattern) harmful_patterns 100 [])
    as Hloop.
  destruct (foldl _ _ harmful_patterns) as [score violations].
  simpl in *. by rewrite Hloop.
Qed.

Lemma uservice_safety (self : SPIELService.SPIELService) (text : str) :
  (UnicodeSPIELService._analyze_safety db self text).1
  = Z.max 0 (Z.min 100
      (100 - 15 * uhits (lower db text)
                    (codes <$> SPIELService.harmful_patterns self))).
Proof.
  unfold UnicodeSPIELService._analyze_safety.
  pose proof (upenalty_loop (lower db text)
    (λ pattern, codes "Safety: Found harmful pattern '" ++ pattern ++
                codes "'")
    (codes <$> SPIELService.harmful_patterns self) 100 []) as Hloop.
  destruct (foldl _ _ _) as [score logged].
  simpl in *. by rewrite Hloop.
Qed.

(** A phrase written in Latin-1 holds no final small sigma. *)
Lemma codes_no_final_sigma (s : string) : final_sigma ∉ codes s.
Proof.
  unfold codes. intros (c & Hc & _)%list_elem_of_fmap.
  pose proof (Ascii.N_ascii_bounded c) as Hb. rewrite <- Hc in Hb.
  by vm_compute in Hb.
Qed.

End unicode_facts.

(** On one code point below 256 the sample database agrees with
    [char_lower]. *)
Lemma tolower_full_latin1 (c : ascii) :
  (Ascii.N_of_ascii c =? Unicode.capital_sigma)%N = false ∧
  Unicode.tolower_full sample_ucd (Ascii.N_of_ascii c)
  = [Ascii.N_of_ascii (char_lower c)].
Proof. destruct c as [[] [] [] [] [] [] [] []]; vm_compute; done. Qed.

(** On Latin-1 text, [str.lower] of the sample database is [lower] of the
    Latin-1 model. *)
Lemma lower_codes (s : string) :
  Unicode.lower sample_ucd (Unicode.codes s) = Unicode.codes (lower s).
Proof.
  unfold Unicode.lower. generalize false.
  induction s as [|c s IH]; intros cased_before; [done|].
  change (Unicode.codes (String c s))
    with (Ascii.N_of_ascii c :: Unicode.codes s).
  change (Unicode.codes (lower (String c s)))
    with (Ascii.N_of_ascii (char_lower c) :: Unicode.codes (lower s)).
  cbn [Unicode.lower_from]. rewrite IH.
  destruct (tolower_full_latin1 c) as [-> ->]. done.
Qed.

(** * The claims *)

(** C1, as stated, fails: with the policy flag [fail_closed] switched off,
    [enforce(None)] lets the [AttributeError] of the first analyzer reach the
    caller; and even with the flag set, as in the default policy, the
    [try]/[except Exception] of [enforce] lets an exception of a class
    outside [Exception], such as [KeyboardInterrupt], through, without
    logging it. *)
Lemma C1_fail_open_propagates :
  (SPIELEngine.enforce sample_str_float fail_open_policy None None
     sample_world).1
  = Raise (Exn "AttributeError" "'NoneType' object has no attribute 'lower'") ∧
  try_except (raise (MkExn "KeyboardInterrupt" "" false))
    (SPIELEngine.enforce_except SPIELEngine._default_policy 0) sample_world
  = (Raise (MkExn "KeyboardInterrupt" "" false), sample_world).
Proof. split; reflexivity. Qed.

(** C1, amended: with the [fail_closed] flag set (the default) [enforce]
    returns a result on every text, [None] included; whenever its [try] block
    raises an exception [e], the result is BLOCK with the reasoning
    "Fail-closed triggered due to error: " followed by [str(e)] if the flag
    is set, and [e] is re-raised to the caller if the flag is cleared.
    Either way no failure path yields ALLOW.  The same is true of the
    [try]/[except] of [enforce] around any block of code whatever that
    raises an exception derived from [Exception]; an exception of any other
    class ([KeyboardInterrupt], [SystemExit]) is not caught and reaches the
    caller whatever the flag says. *)
Theorem C1_enforce_fail_closed (str_float : Q → string)
    (self : SPIELEngine.SPIELEngine) :
  (∀ text context w,
     SPIELEngine.fail_closed self = true →
     ∃ r w', SPIELEngine.enforce str_float self text context w = (Ok r, w')) ∧
  (∀ text context w e w1,
     SPIELEngine.enforce_try str_float self text context
       (clock w (reads w)) (tick w) = (Raise e, w1) →
     if SPIELEngine.fail_closed self
     then ∃ r w',
       SPIELEngine.enforce str_float self text context w = (Ok r, w') ∧
       SPIELEngine.action r = SPIELEngine.BLOCK ∧
       SPIELEngine.reasoning r
       = "Fail-closed triggered due to error: " +:+ exn_str e ∧
       SPIELEngine.violations r = ["system_error"]
     else ∃ w',
       SPIELEngine.enforce str_float self text context w = (Raise e, w')) ∧
  (∀ (block : M SPIELEngine.SPIELResult) start_time w e w1,
     block w = (Raise e, w1) →
     if is_Exception e
     then
       if SPIELEngine.fail_closed self
       then ∃ r w',
         try_except block (SPIELEngine.enforce_except self start_time) w
         = (Ok r, w') ∧
         SPIELEngine.action r = SPIELEngine.BLOCK ∧
         SPIELEngine.reasoning r
         = "Fail-closed triggered due to error: " +:+ exn_str e ∧
         SPIELEngine.violations r = ["system_error"]
       else ∃ w',
         try_except block (SPIELEngine.enforce_except self start_time) w
         = (Raise e, w')
     else
       try_except block (SPIELEngine.enforce_except self start_time) w
       = (Raise e, w1)).
Proof.
  assert (∀ (block : M SPIELEngine.SPIELResult) start_time w e w1,
     block w = (Raise e, w1) →
     is_Exception e = true →
     if SPIELEngine.fail_closed self
     then ∃ r w',
       try_except block (SPIELEngine.enforce_except self start_time) w
       = (Ok r, w') ∧
       SPIELEngine.action r = SPIELEngine.BLOCK ∧
       SPIELEngine.reasoning r
       = "Fail-closed triggered due to error: " +:+ exn_str e ∧
       SPIELEngine.violations r = ["system_error"]
     else ∃ w',
       try_except block (SPIELEngine.enforce_except self start_time) w
       = (Raise e, w')) as Hguard.
  { intros block start_time w e w1 Hblock Hclass.
    unfold try_except. rewrite Hblock, Hclass.
    destruct (SPIELEngine.fail_closed self) eqn:Hflag.
    - destruct (enforce_except_closed self start_time e w1 Hflag)
        as (r & w' & -> & Ha & Hr & Hv).
      by exists r, w'.
    - destruct (enforce_except_open self start_time e w1 Hflag) as (w' & ->).
      by exists w'. }
  split; [|split].
  - intros text context w Hflag.
    destruct (guarded_block_closed
      (SPIELEngine.enforce_try str_float self text context (clock w (reads w)))
      self (clock w (reads w)) (tick w) Hflag) as (r & w' & Hrun & _).
    { intros e w1 Htry.
      by destruct (enforce_try_raises_Exception str_float self text context
                     _ _ e w1 Htry) as [_ ->]. }
    by exists r, w'.
  - intros text context w e w1 Htry.
    apply (Hguard _ (clock w (reads w)) (tick w) e w1 Htry).
    by destruct (enforce_try_raises_Exception str_float self text context
                   _ _ e w1 Htry) as [_ ->].
  - intros block start_time w e w1 Hblock.
    destruct (is_Exception e) eqn:Hclass.
    + by apply (Hguard block start_time w e w1).
    + by apply try_except_passes_BaseException.
Qed.

(** The default engine on [None]: it returns, and the result is BLOCK; a
    block that raises a [ValueError] is contained, one that raises
    [SystemExit] is not. *)
Lemma C1_enforce_fail_closed_witness :
  (∃ r w', SPIELEngine.enforce sample_str_float SPIELEngine._default_policy
             None None sample_world = (Ok r, w')) ∧
  (∃ r w', SPIELEngine.enforce sample_str_float SPIELEngine._default_policy
             None None sample_world = (Ok r, w') ∧
           SPIELEngine.action r = SPIELEngine.BLOCK ∧
           SPIELEngine.reasoning r
           = "Fail-closed triggered due to error: " +:+
             "'NoneType' object has no attribute 'lower'" ∧
           SPIELEngine.violations r = ["system_error"]) ∧
  (∃ r w', try_except (raise (Exn "ValueError" "bad policy"))
             (SPIELEngine.enforce_except SPIELEngine._default_policy 0)
             sample_world = (Ok r, w') ∧
           SPIELEngine.action r = SPIELEngine.BLOCK ∧
           SPIELEngine.reasoning r
           = "Fail-closed triggered due to error: " +:+ "bad policy" ∧
           SPIELEngine.violations r = ["system_error"]) ∧
  try_except (raise (MkExn "SystemExit" "1" false))
    (SPIELEngine.enforce_except SPIELEngine._default_policy 0) sample_world
  = (Raise (MkExn "SystemExit" "1" false), sample_world).
Proof.
  destruct (C1_enforce_fail_closed sample_str_float
              SPIELEngine._default_policy) as (H1 & H2 & H3).
  split; [|split; [|split]].
  - apply H1. reflexivity.
  - apply (H2 None None sample_world
              (Exn "AttributeError" "'NoneType' object has no attribute 'lower'")
              (tick sample_world)).
    reflexivity.
  - apply (H3 (raise (Exn "ValueError" "bad policy")) 0%Q sample_world
              (Exn "ValueError" "bad policy") sample_world).
    reflexivity.
  - apply (H3 (raise (MkExn "SystemExit" "1" false)) 0%Q sample_world
              (MkExn "SystemExit" "1" false) sample_world).
    reflexivity.
Defined.

(** C2: the chain hash of a non-empty list verifies against itself; and,
    when SHA-256 is modelled as injective, replacing any one entry by a
    different value makes verification against the original chain hash
    fail. *)
Theorem C2_chain_integrity (sha256 : string → string) :
  (∀ hashes, hashes ≠ [] →
     HashService.verify_chain sha256 hashes
       (HashService.generate_chain_hash sha256 hashes) = true) ∧
  (Inj (=) (=) sha256 →
   ∀ pre entry entry' post, entry ≠ entry' →
     HashService.verify_chain sha256 (pre ++ entry' :: post)
       (HashService.generate_chain_hash sha256 (pre ++ entry :: post))
     = false).
Proof.
  split.
  - intros hashes _. unfold HashService.verify_chain. by apply bool_decide_eq_true.
  - intros Hinj pre entry entry' post Hne.
    unfold HashService.verify_chain. apply bool_decide_eq_false.
    rewrite !chain_app. simpl. apply chain_diverges; [done|].
    intros H%Hinj. apply (inj (String.app _)) in H.
    apply (inj (String.app "|")) in H. congruence.
Qed.

Lemma sample_sha256_inj : Inj (=) (=) sample_sha256.
Proof. intros x y H. by apply (inj (String.app "<")) in H. Qed.

(** A three-entry chain, and the same chain with its middle entry changed. *)
Lemma C2_chain_integrity_witness :
  HashService.verify_chain sample_sha256 ["e1"; "e2"; "e3"]
    (HashService.generate_chain_hash sample_sha256 ["e1"; "e2"; "e3"]) = true ∧
  HashService.verify_chain sample_sha256 ["e1"; "tampered"; "e3"]
    (HashService.generate_chain_hash sample_sha256 ["e1"; "e2"; "e3"]) = false.
Proof.
  destruct (C2_chain_integrity sample_sha256) as [H1 H2].
  split.
  - apply H1. discriminate.
  - apply (H2 sample_sha256_inj ["e1"] "e2" "tampered" ["e3"]). discriminate.
Defined.

(** C10: on the empty list [generate_chain_hash] returns the literal
    "genesis" whatever the hash function is, so no hashing takes place, and
    [verify_chain([], "genesis")] is true. *)
Theorem C10_empty_chain_is_genesis (sha256 : string → string) :
  HashService.generate_chain_hash sha256 [] = "genesis" ∧
  HashService.verify_chain sha256 [] "genesis" = true.
Proof. split; reflexivity. Qed.




(** C4: on every text and context, each of the five dimension scores that the
    engine and the scoring service return lies in [0,100]. *)
Theorem C4_scores_in_range (str_float : Q → string) (text : string)
    (context : option (gmap string pyval)) (w : world) :
  (∀ self, ∃ r w',
     SPIELEngine.enforce str_float self (Some text) context w = (Ok r, w') ∧
     0 ≤ SPIELEngine.safety_score r ≤ 100 ∧
     0 ≤ SPIELEngine.personalization_score r ≤ 100 ∧
     0 ≤ SPIELEngine.integrity_score r ≤ 100 ∧
     0 ≤ SPIELEngine.ethics_score r ≤ 100 ∧
     0 ≤ SPIELEngine.logic_score r ≤ 100) ∧
  (∀ self, ∃ r w',
     SPIELService.analyze self text context w = (Ok r, w') ∧
     0 ≤ SPIELService.safety r ≤ 100 ∧
     0 ≤ SPIELService.personalization r ≤ 100 ∧
     0 ≤ SPIELService.integrity r ≤ 100 ∧
     0 ≤ SPIELService.ethics r ≤ 100 ∧
     0 ≤ SPIELService.logic r ≤ 100).
Proof.
  split; intros self.
  - rewrite enforce_some.
    destruct (enforce_try_some str_float self text context
                (clock w (reads w)) (tick w))
      as (r & Hr & Hs & Hp & Hi & He & Hl & _).
    pose proof (hits_nonneg (lower text) (SPIELEngine.harmful_patterns self)).
    pose proof (hits_nonneg (lower text) (SPIELEngine.dishonest_patterns self)).
    pose proof (hits_nonneg (lower text) (SPIELEngine.unethical_patterns self)).
    exists r, (tick (tick (tick w))). repeat split; try done; lia.
  - destruct (analyze_run self text context)
      as (r & Hr & Hs & Hp & Hi & He & Hl & _).
    destruct (Hr w) as [w' Hrun].
    pose proof (hits_nonneg (lower text) (SPIELService.dishonest_patterns self)).
    pose proof (hits_nonneg (lower text) (SPIELService.unethical_patterns self)).
    pose proof (service_personalization_bounds self text context).
    pose proof (service_logic_bounds self text).
    exists r, w'. repeat split; try done; lia.
Qed.

(** C5: the composite score that the engine and the scoring service return
    is the unweighted mean of the five dimension scores they return; rounding
    it to any fixed number of decimals (one or more) gives the same number;
    and it lies between the least and the greatest dimension score. *)
Theorem C5_composite_is_mean (str_float : Q → string) (text : string)
    (context : option (gmap string pyval)) (w : world) :
  (∀ self, ∃ r w',
     SPIELEngine.enforce str_float self (Some text) context w = (Ok r, w') ∧
     let s := SPIELEngine.safety_score r in
     let p := SPIELEngine.personalization_score r in
     let i := SPIELEngine.integrity_score r in
     let e := SPIELEngine.ethics_score r in
     let l := SPIELEngine.logic_score r in
     (SPIELEngine.composite_score r == mean5 s p i e l)%Q ∧
     (∀ d, round_decimals (S d) (mean5 s p i e l)
           == SPIELEngine.composite_score r)%Q ∧
     (inject_Z (min5 s p i e l) <= SPIELEngine.composite_score r
      <= inject_Z (max5 s p i e l))%Q) ∧
  (∀ self, ∃ r w',
     SPIELService.analyze self text context w = (Ok r, w') ∧
     let s := SPIELService.safety r in
     let p := SPIELService.personalization r in
     let i := SPIELService.integrity r in
     let e := SPIELService.ethics r in
     let l := SPIELService.logic r in
     (SPIELService.composite r == mean5 s p i e l)%Q ∧
     (∀ d, round_decimals (S d) (mean5 s p i e l)
           == SPIELService.composite r)%Q ∧
     (inject_Z (min5 s p i e l) <= SPIELService.composite r
      <= inject_Z (max5 s p i e l))%Q).
Proof.
  assert (∀ s p i e l (c : Q),
    c = (inject_Z (s + p + i + e + l) / 5)%Q →
    (c == mean5 s p i e l)%Q ∧
    (∀ d, round_decimals (S d) (mean5 s p i e l) == c)%Q ∧
    (inject_Z (min5 s p i e l) <= c <= inject_Z (max5 s p i e l))%Q) as Hmean.
  { intros s p i e l c ->. split; [apply sum_div_mean5|]. split.
    - intros d. unfold round_decimals.
      rewrite (round_half_even_comp _
        (inject_Z (s + p + i + e + l) / 5 * inject_Z (10 ^ Z.of_nat (S d)))).
      + apply round_decimals_fifth.
      + apply Qmult_comp; [|reflexivity]. symmetry. apply sum_div_mean5.
    - pose proof (mean5_between s p i e l) as [Hlo Hhi]. split.
      + eapply Qle_trans; [exact Hlo|]. apply Qle_lteq. right.
        symmetry. apply sum_div_mean5.
      + eapply Qle_trans; [|exact Hhi]. apply Qle_lteq. right.
        apply sum_div_mean5. }
  split; intros self.
  - rewrite enforce_some.
    destruct (enforce_try_some str_float self text context
                (clock w (reads w)) (tick w))
      as (r & Hr & _ & _ & _ & _ & _ & Hc & _).
    exists r, (tick (tick (tick w))). split; [done|]. by apply Hmean.
  - destruct (analyze_run self text context)
      as (r & Hr & _ & _ & _ & _ & _ & Hc).
    destruct (Hr w) as [w' Hrun].
    exists r, w'. split; [done|]. by apply Hmean.
Qed.

(** C6: for one text and context the scoring service returns one and the same
    result (all five scores, the composite, the pass flag) in every world,
    and so does the validator (the three checks, the confidence, the
    compliance flag, the issues): neither the clock nor anything logged
    before reaches the result. *)
Theorem C6_scoring_and_validation_deterministic (text : string)
    (context : option (gmap string pyval)) :
  (∀ self, ∃ r, ∀ w,
     (SPIELService.analyze self text context w).1 = Ok r) ∧
  (∀ self, ∃ r, ∀ w,
     (THTService.validate self text context w).1 = Ok r).
Proof.
  split; intros self.
  - destruct (analyze_run self text context) as (r & Hr & _).
    exists r. intros w. destruct (Hr w) as [w' ->]. done.
  - destruct (validate_run self text context) as (r & Hr & _).
    exists r. intros w. destruct (Hr w) as [w' ->]. done.
Qed.

(** C7, as stated, fails: [str.lower] turns a capital sigma at the end of a
    word into the final small sigma, and into the small sigma once more
    letters follow.  With the harmful phrases "φόνος" and "βία" in the
    policy, the text "βία ΦΌΝΟΣ" scores 70 for Safety, and with the catalogue
    phrase "βία" appended it scores 85. *)
Lemma C7_final_sigma_raises_safety :
  greek_phrase ∈ greek_catalogue ∧
  (UnicodeSPIELEngine._analyze_safety sample_ucd greek_catalogue
     greek_text).1 = 70 ∧
  (UnicodeSPIELEngine._analyze_safety sample_ucd greek_catalogue
     (greek_text ++ greek_phrase)).1 = 85.
Proof. split; [|split]; [|reflexivity..]. apply list_elem_of_In. vm_compute. tauto. Qed.

(** C7, amended: appending a phrase to a text never raises the Safety score
    of the engine when the text holds no capital sigma U+03A3 or no harmful
    phrase of the policy holds the final small sigma U+03C2, whatever the
    Unicode character database says otherwise.  That is so for every policy
    whose phrases are written in Latin-1, the default policy included, and
    for the scoring service, whose harmful phrases are built in; and in the
    Latin-1 model of the text it holds for every text, in the engine and in
    the scoring service. *)
Theorem C7_safety_monotone (db : Unicode.ucd) (text p : Unicode.str) :
  (∀ harmful_patterns,
     Unicode.capital_sigma ∉ text ∨
     (∀ q, q ∈ harmful_patterns → Unicode.final_sigma ∉ q) →
     (UnicodeSPIELEngine._analyze_safety db harmful_patterns (text ++ p)).1
     ≤ (UnicodeSPIELEngine._analyze_safety db harmful_patterns text).1) ∧
  (∀ self : SPIELEngine.SPIELEngine,
     (UnicodeSPIELEngine._analyze_safety db
        (Unicode.codes <$> SPIELEngine.harmful_patterns self) (text ++ p)).1
     ≤ (UnicodeSPIELEngine._analyze_safety db
          (Unicode.codes <$> SPIELEngine.harmful_patterns self) text).1) ∧
  (∀ self : SPIELService.SPIELService,
     (UnicodeSPIELService._analyze_safety db self (text ++ p)).1
     ≤ (UnicodeSPIELService._analyze_safety db self text).1) ∧
  (∀ (text p : string) (w : world),
     (∀ self, p ∈ SPIELEngine.harmful_patterns self →
        ∃ score violations score' violations',
          SPIELEngine._analyze_safety self (Some text) w
          = (Ok (score, violations), w) ∧
          SPIELEngine._analyze_safety self (Some (text +:+ p)) w
          = (Ok (score', violations'), w) ∧
          score' ≤ score) ∧
     (∀ self, p ∈ SPIELService.harmful_patterns self →
        ∃ score w1 score' w2,
          SPIELService._analyze_safety self text w = (Ok score, w1) ∧
          SPIELService._analyze_safety self (text +:+ p) w = (Ok score', w2) ∧
          score' ≤ score)).
Proof.
  assert (∀ patterns,
    Unicode.capital_sigma ∉ text ∨
    (∀ q, q ∈ patterns → Unicode.final_sigma ∉ q) →
    uhits (Unicode.lower db text) patterns
    ≤ uhits (Unicode.lower db (text ++ p)) patterns) as Hu.
  { intros patterns Hside. apply uhits_mono. intros q Hq.
    apply ucontains_lower_app. destruct Hside as [Hno | Hfinal]; [by left|].
    right. by apply Hfinal. }
  assert (∀ patterns : list string,
    ∀ q, q ∈ Unicode.codes <$> patterns → Unicode.final_sigma ∉ q) as Hlatin.
  { intros patterns q (s & -> & _)%list_elem_of_fmap.
    apply codes_no_final_sigma. }
  split; [|split; [|split]].
  - intros harmful_patterns Hside. rewrite !uengine_safety.
    pose proof (Hu harmful_patterns Hside). lia.
  - intros self. rewrite !uengine_safety.
    pose proof (Hu _ (or_intror (Hlatin (SPIELEngine.harmful_patterns self)))).
    lia.
  - intros self. rewrite !uservice_safety.
    pose proof (Hu _ (or_intror (Hlatin (SPIELService.harmful_patterns self)))).
    lia.
  - clear. intros text p w.
    assert (∀ patterns,
      hits (lower text) patterns ≤ hits (lower (text +:+ p)) patterns)
      as Hmono.
    { intros patterns. apply hits_mono. intros q _ Hq.
      rewrite lower_app. by apply contains_app_l. }
    split; intros self _.
    + destruct (engine_safety_run self text w) as [v Hv].
      destruct (engine_safety_run self (text +:+ p) w) as [v' Hv'].
      do 4 eexists. split; [exact Hv|]. split; [exact Hv'|].
      pose proof (Hmono (SPIELEngine.harmful_patterns self)). lia.
    + destruct (service_safety_run self text w) as [w1 H1].
      destruct (service_safety_run self (text +:+ p) w) as [w2 H2].
      do 4 eexists. split; [exact H1|]. split; [exact H2|].
      pose proof (Hmono (SPIELService.harmful_patterns self)). lia.
Qed.

(** The Greek text of the counterexample under the default catalogue, whose
    phrases hold no final sigma; and a text that already mentions an attack,
    with "kill" appended. *)
Lemma C7_safety_monotone_witness :
  (UnicodeSPIELEngine._analyze_safety sample_ucd
     (Unicode.codes <$>
      SPIELEngine.harmful_patterns SPIELEngine._default_policy)
     (greek_text ++ Unicode.codes "kill")).1
  ≤ (UnicodeSPIELEngine._analyze_safety sample_ucd
       (Unicode.codes <$>
        SPIELEngine.harmful_patterns SPIELEngine._default_policy)
       greek_text).1 ∧
  (∃ score violations score' violations',
     SPIELEngine._analyze_safety SPIELEngine._default_policy
       (Some "they attack") sample_world
     = (Ok (score, violations), sample_world) ∧
     SPIELEngine._analyze_safety SPIELEngine._default_policy
       (Some ("they attack" +:+ "kill")) sample_world
     = (Ok (score', violations'), sample_world) ∧
     score' ≤ score) ∧
  (∃ score w1 score' w2,
     SPIELService._analyze_safety SPIELService.get_spiel_service
       "they attack" sample_world = (Ok score, w1) ∧
     SPIELService._analyze_safety SPIELService.get_spiel_service
       ("they attack" +:+ "kill") sample_world = (Ok score', w2) ∧
     score' ≤ score).
Proof.
  destruct (C7_safety_monotone sample_ucd greek_text (Unicode.codes "kill"))
    as (H1 & _ & _ & H4).
  destruct (H4 "they attack" "kill" sample_world) as [H5 H6].
  split; [|split].
  - apply H1. right. intros q Hq. compute in Hq.
    repeat (apply elem_of_cons in Hq as [-> | Hq]; [by compute_done|]).
    by apply elem_of_nil in Hq.
  - apply H5. compute_done.
  - apply H6. compute_done.
Defined.

(** C8: on a text of fewer than 50 characters the Transparency check returns
    true, whether or not the text holds a claim word or a reasoning marker;
    [validate] reports it as verified. *)
Theorem C8_short_text_transparent (self : THTService.THTService)
    (text : string) (context : option (gmap string pyval)) (w : world) :
  len text < 50 →
  (∃ w', THTService._verify_transparency self text w = (Ok true, w')) ∧
  (∃ r w', THTService.validate self text context w = (Ok r, w') ∧
           THTService.transparency_verified r = true).
Proof.
  intros Hshort. apply Z.ltb_lt in Hshort. split.
  - destruct (verify_transparency_run self text w) as [w' ->].
    exists w'. rewrite Hshort. by rewrite orb_true_r.
  - destruct (validate_run self text context) as (r & Hr & Ht).
    destruct (Hr w) as [w' Hrun].
    exists r, w'. split; [done|]. rewrite Ht, Hshort. by rewrite orb_true_r.
Qed.

(** A short claim ("is") with no reasoning marker. *)
Lemma C8_short_text_transparent_witness :
  existsb (λ p, contains p (lower "This is the best."))
    (THTService.claim_patterns THTService.get_tht_service) = true ∧
  existsb (λ m, contains m (lower "This is the best."))
    (THTService.transparent_markers THTService.get_tht_service) = false ∧
  (∃ w', THTService._verify_transparency THTService.get_tht_service
           "This is the best." sample_world = (Ok true, w')) ∧
  (∃ r w', THTService.validate THTService.get_tht_service
             "This is the best." None sample_world = (Ok r, w') ∧
           THTService.transparency_verified r = true).
Proof.
  split; [reflexivity|]. split; [reflexivity|].
  apply (C8_short_text_transparent THTService.get_tht_service
           "This is the best." None sample_world).
  reflexivity.
Defined.

(** C9: the Personalization score of the engine and of the scoring service
    lies in [80,100] on every text and context; it is therefore never below
    the default personalization threshold of 70; and [_determine_action]
    chooses the same action and justification whatever the Personalization
    score is. *)
Theorem C9_personalization_never_enforces (str_float : Q → string)
    (text : string) (context : option (gmap string pyval)) (w : world) :
  (∀ self, ∃ r w',
     SPIELEngine.enforce str_float self (Some text) context w = (Ok r, w') ∧
     80 ≤ SPIELEngine.personalization_score r ≤ 100 ∧
     Qlt_bool (inject_Z (SPIELEngine.personalization_score r))
       (SPIELEngine.personalization_threshold SPIELEngine._default_policy)
     = false) ∧
  (∀ self, ∃ r w',
     SPIELService.analyze self text context w = (Ok r, w') ∧
     80 ≤ SPIELService.personalization r ≤ 100) ∧
  (∀ self safety personalization personalization' integrity ethics logic
     violations,
     SPIELEngine._determine_action str_float self safety personalization
       integrity ethics logic violations
     = SPIELEngine._determine_action str_float self safety personalization'
         integrity ethics logic violations).
Proof.
  split; [|split].
  - intros self. rewrite enforce_some.
    destruct (enforce_try_some str_float self text context
                (clock w (reads w)) (tick w))
      as (r & Hr & _ & Hp & _).
    exists r, (tick (tick (tick w))). split; [done|]. split; [done|].
    unfold Qlt_bool. apply negb_false_iff, Qle_bool_iff.
    unfold Qle, inject_Z. simpl. lia.
  - intros self.
    destruct (analyze_run self text context) as (r & Hr & _ & Hp & _).
    destruct (Hr w) as [w' Hrun].
    exists r, w'. split; [done|]. rewrite Hp.
    apply service_personalization_bounds.
  - reflexivity.
Qed.

(** * Further properties of the code *)

(** ** The engine's decision *)

Section engine_decision.

Import SPIELEngine.

Variable str_float : Q → string.

Implicit Types (self : SPIELEngine) (t : string) (w : world)
  (context : option (gmap string pyval)).

Lemma Qlt_bool_iff (x y : Q) : Qlt_bool x y = true ↔ (x < y)%Q.
Proof.
  unfold Qlt_bool. rewrite negb_true_iff. split.
  - intros H. apply Qnot_le_lt. intros Hle. apply Qle_bool_iff in Hle. congruence.
  - intros H. apply not_true_is_false. intros Hle%Qle_bool_iff.
    by apply Qlt_not_le in H.
Qed.

(** The engine records one violation for every hit. *)
Lemma penalty_loop_violations tag weight tl patterns score
    (violations : list string) :
  Z.of_nat (length
    (foldl (λ '(score, violations) pattern,
              if contains pattern tl
              then (score - weight, violations ++ [tag +:+ pattern])
              else (score, violations))
           (score, violations) patterns).2)
  = Z.of_nat (length violations) + hits tl patterns.
Proof.
  revert score violations.
  induction patterns as [|p patterns IH]; intros score violations.
  - rewrite hits_nil. simpl. lia.
  - rewrite hits_cons. simpl.
    destruct (contains p tl); rewrite IH; [rewrite length_app; simpl|]; lia.
Qed.

Lemma engine_safety_violations self t w :
  ∃ score violations,
    _analyze_safety self (Some t) w = (Ok (score, violations), w) ∧
    Z.of_nat (length violations) = hits (lower t) (harmful_patterns self).
Proof.
  unfold _analyze_safety, py_lower, mbind, M_bind, Py.bind, mret, M_ret, Py.ret.
  pose proof (penalty_loop_violations "harmful_pattern:" 15 (lower t)
                (harmful_patterns self) 100 []) as H.
  destruct (foldl _ _ _) as [score violations]. by do 2 eexists.
Qed.

Lemma engine_integrity_violations self t w :
  ∃ score violations,
    _analyze_integrity self (Some t) w = (Ok (score, violations), w) ∧
    Z.of_nat (length violations) = hits (lower t) (dishonest_patterns self).
Proof.
  unfold _analyze_integrity, py_lower, mbind, M_bind, Py.bind, mret, M_ret,
    Py.ret.
  pose proof (penalty_loop_violations "dishonest_pattern:" 15 (lower t)
                (dishonest_patterns self) 95 []) as H.
  destruct (foldl _ _ _) as [score violations]. by do 2 eexists.
Qed.

Lemma engine_ethics_violations self t w :
  ∃ score violations,
    _analyze_ethics self (Some t) w = (Ok (score, violations), w) ∧
    Z.of_nat (length violations) = hits (lower t) (unethical_patterns self).
Proof.
  unfold _analyze_ethics, py_lower, mbind, M_bind, Py.bind, mret, M_ret, Py.ret.
  pose proof (penalty_loop_violations "unethical_pattern:" 20 (lower t)
                (unethical_patterns self) 100 []) as H.
  destruct (foldl _ _ _) as [score violations]. by do 2 eexists.
Qed.

(** What the [try] block leaves in the result besides the scores. *)
Lemma enforce_try_detail self t context start_time w :
  ∃ r,
    enforce_try str_float self (Some t) context start_time w
    = (Ok r, tick (tick w)) ∧
    modifications r = None ∧
    Z.of_nat (length (violations r))
    = hits (lower t) (harmful_patterns self) +
      hits (lower t) (dishonest_patterns self) +
      hits (lower t) (unethical_patterns self).
Proof.
  unfold enforce_try.
  destruct (engine_safety_violations self t w) as (s & sv & Hs & Hsv).
  destruct (engine_personalization_run self t context w) as (p & Hp & _).
  destruct (engine_integrity_violations self t w) as (i & iv & Hi & Hiv).
  destruct (engine_ethics_violations self t w) as (e & ev & He & Hev).
  destruct (engine_logic_run self t w) as (l & Hl & _).
  unfold mbind, M_bind, Py.bind at 1. rewrite Hs.
  unfold Py.bind at 1. rewrite Hp.
  unfold Py.bind at 1. rewrite Hi.
  unfold Py.bind at 1. rewrite He.
  unfold Py.bind at 1. rewrite Hl.
  destruct (_determine_action _ _ _ _ _ _ _ _) as [a reason].
  unfold Py.bind, time_time, mret, M_ret, Py.ret.
  eexists. split; [reflexivity|]. simpl. split; [done|].
  rewrite !length_app. lia.
Qed.

(** [_determine_action] answers BLOCK exactly on the critical rule and on the
    two threshold rules for Safety and Ethics. *)
Lemma determine_action_block self s p i e l v :
  (_determine_action str_float self s p i e l v).1 = BLOCK ↔
  s < 50 ∨ e < 50 ∨
  (inject_Z s < safety_threshold self)%Q ∨
  (inject_Z e < ethics_threshold self)%Q.
Proof.
  unfold _determine_action.
  destruct (s <? 50) eqn:Hs; [apply Z.ltb_lt in Hs; simpl; by intuition|].
  destruct (e <? 50) eqn:He; [apply Z.ltb_lt in He; simpl; by intuition|].
  apply Z.ltb_ge in Hs, He. simpl.
  destruct (Qlt_bool (inject_Z s) _) eqn:Hst.
  { apply Qlt_bool_iff in Hst. simpl. by intuition. }
  destruct (Qlt_bool (inject_Z e) _) eqn:Het.
  { apply Qlt_bool_iff in Het. simpl. by intuition. }
  assert (¬ (inject_Z s < safety_threshold self)%Q) as Hns.
  { intros H%Qlt_bool_iff. congruence. }
  assert (¬ (inject_Z e < ethics_threshold self)%Q) as Hne.
  { intros H%Qlt_bool_iff. congruence. }
  destruct (Qlt_bool (inject_Z i) _); [simpl; split; [done | intuition lia]|].
  destruct (Qlt_bool (inject_Z l) _); [simpl; split; [done | intuition lia]|].
  destruct (negb _); simpl; (split; [done | intuition lia]).
Qed.

(** [_determine_action] answers ALLOW only with an empty violation list, and
    never answers MODIFY. *)
Lemma determine_action_allow self s p i e l v :
  ((_determine_action str_float self s p i e l v).1 = ALLOW → v = []) ∧
  (_determine_action str_float self s p i e l v).1 ≠ MODIFY.
Proof.
  unfold _determine_action.
  destruct (_ || _); [done|].
  destruct (Qlt_bool (inject_Z s) _); [done|].
  destruct (Qlt_bool (inject_Z e) _); [done|].
  destruct (Qlt_bool (inject_Z i) _); [done|].
  destruct (Qlt_bool (inject_Z l) _); [done|].
  destruct (bool_decide (v = [])) eqn:Hv; simpl; [|done].
  by apply bool_decide_eq_true in Hv.
Qed.

End engine_decision.

Lemma hits_zero (tl : string) (patterns : list string) :
  hits tl patterns = 0 ↔ ∀ p, p ∈ patterns → contains p tl = false.
Proof.
  induction patterns as [|q patterns IH].
  - split; [intros _ p Hp; by apply not_elem_of_nil in Hp | done].
  - rewrite hits_cons. pose proof (hits_nonneg tl patterns). split.
    + intros H0 p Hp. destruct (contains q tl) eqn:Hq; [lia|].
      apply elem_of_cons in Hp as [->|Hp]; [done|]. apply IH; [lia | done].
    + intros Hall. rewrite (Hall q) by apply list_elem_of_here.
      apply proj2 in IH. rewrite IH; [done|].
      intros p Hp. apply Hall. by apply list_elem_of_further.
Qed.

(** X1: on a text, [enforce] answers BLOCK exactly when the Safety or the
    Ethics score is below 50 or below its policy threshold; Integrity, Logic
    and Personalization never block. *)
Theorem X1_engine_blocks_exactly (str_float : Q → string)
    (self : SPIELEngine.SPIELEngine) (text : string)
    (context : option (gmap string pyval)) (w : world) :
  ∃ r w',
    SPIELEngine.enforce str_float self (Some text) context w = (Ok r, w') ∧
    (SPIELEngine.action r = SPIELEngine.BLOCK ↔
     SPIELEngine.safety_score r < 50 ∨
     SPIELEngine.ethics_score r < 50 ∨
     (inject_Z (SPIELEngine.safety_score r)
      < SPIELEngine.safety_threshold self)%Q ∨
     (inject_Z (SPIELEngine.ethics_score r)
      < SPIELEngine.ethics_threshold self)%Q).
Proof.
  rewrite enforce_some.
  destruct (enforce_try_some str_float self text context
              (clock w (reads w)) (tick w))
    as (r & Hr & _ & _ & _ & _ & _ & _ & Hact).
  exists r, (tick (tick (tick w))). split; [done|].
  rewrite <- (determine_action_block str_float self _
    (SPIELEngine.personalization_score r) (SPIELEngine.integrity_score r) _
    (SPIELEngine.logic_score r) (SPIELEngine.violations r)).
  by rewrite <- Hact.
Qed.

(** X2: on a text, [enforce] answers ALLOW only if no phrase of the harmful,
    dishonest or unethical catalogue occurs in the lower-cased text: the
    violation list is then empty and Safety, Integrity and Ethics stand at
    their baselines 100, 95 and 100. *)
Theorem X2_engine_allows_only_clean_text (str_float : Q → string)
    (self : SPIELEngine.SPIELEngine) (text : string)
    (context : option (gmap string pyval)) (w : world) :
  ∃ r w',
    SPIELEngine.enforce str_float self (Some text) context w = (Ok r, w') ∧
    (SPIELEngine.action r = SPIELEngine.ALLOW →
     (∀ p, p ∈ SPIELEngine.harmful_patterns self ++
               SPIELEngine.dishonest_patterns self ++
               SPIELEngine.unethical_patterns self →
           contains p (lower text) = false) ∧
     SPIELEngine.violations r = [] ∧
     SPIELEngine.safety_score r = 100 ∧
     SPIELEngine.integrity_score r = 95 ∧
     SPIELEngine.ethics_score r = 100).
Proof.
  rewrite enforce_some.
  destruct (enforce_try_some str_float self text context
              (clock w (reads w)) (tick w))
    as (r & Hr & Hs & _ & Hi & He & _ & _ & Hact).
  destruct (enforce_try_detail str_float self text context
              (clock w (reads w)) (tick w)) as (r' & Hr' & _ & Hlen).
  rewrite Hr in Hr'. injection Hr' as <-.
  exists r, (tick (tick (tick w))). split; [done|]. intros Hallow.
  assert (SPIELEngine.violations r = []) as Hv.
  { eapply determine_action_allow. rewrite <- Hact. exact Hallow. }
  rewrite Hv in Hlen. simpl in Hlen.
  pose proof (hits_nonneg (lower text) (SPIELEngine.harmful_patterns self)).
  pose proof (hits_nonneg (lower text) (SPIELEngine.dishonest_patterns self)).
  pose proof (hits_nonneg (lower text) (SPIELEngine.unethical_patterns self)).
  split; [|repeat split; [done | lia..]].
  intros p Hp. rewrite !elem_of_app in Hp.
  destruct Hp as [Hp | [Hp | Hp]];
    (eapply hits_zero; [|exact Hp]); lia.
Qed.

(** X3: whatever the input, text or [None], a result that [enforce] returns
    never carries the action MODIFY and never carries modifications. *)
Theorem X3_engine_never_modifies (str_float : Q → string)
    (self : SPIELEngine.SPIELEngine) (text : option string)
    (context : option (gmap string pyval)) (w w' : world)
    (r : SPIELEngine.SPIELResult) :
  SPIELEngine.enforce str_float self text context w = (Ok r, w') →
  SPIELEngine.action r ≠ SPIELEngine.MODIFY ∧
  SPIELEngine.modifications r = None.
Proof.
  destruct text as [t|].
  - rewrite enforce_some.
    destruct (enforce_try_some str_float self t context
                (clock w (reads w)) (tick w))
      as (r1 & Hr1 & _ & _ & _ & _ & _ & _ & Hact).
    destruct (enforce_try_detail str_float self t context
                (clock w (reads w)) (tick w)) as (r2 & Hr2 & Hmod & _).
    rewrite Hr1 in Hr2. injection Hr2 as <-.
    rewrite Hr1. intros [= <- <-]. split; [|done].
    pose proof (determine_action_allow str_float self
      (SPIELEngine.safety_score r1) (SPIELEngine.personalization_score r1)
      (SPIELEngine.integrity_score r1) (SPIELEngine.ethics_score r1)
      (SPIELEngine.logic_score r1) (SPIELEngine.violations r1)) as [_ Hne].
    by rewrite <- Hact in Hne.
  - unfold SPIELEngine.enforce, try_except, mbind, M_bind, Py.bind, time_time.
    simpl. unfold SPIELEngine.enforce_except, mbind, M_bind, Py.bind, emit.
    destruct (SPIELEngine.fail_closed self); simpl; [|done].
    by intros [= <- <-].
Qed.

(** The default engine on a harmless sentence. *)
Lemma X3_engine_never_modifies_witness :
  ∃ r w',
    SPIELEngine.enforce sample_str_float SPIELEngine._default_policy
      (Some "I would be glad to explain this.") None sample_world = (Ok r, w') ∧
    SPIELEngine.action r ≠ SPIELEngine.MODIFY ∧
    SPIELEngine.modifications r = None.
Proof.
  do 2 eexists. split; [reflexivity|].
  eapply (X3_engine_never_modifies sample_str_float SPIELEngine._default_policy
            (Some "I would be glad to explain this.") None sample_world).
  reflexivity.
Defined.

(** ** The validator *)

Section validator_facts.

Import THTService.

Implicit Types (self : THTService) (t : string) (w : world)
  (context : option (gmap string pyval)).

(** An occurrence survives text added in front. *)
Lemma contains_app_front (p s t : string) :
  contains p s = true → contains p (t +:+ s) = true.
Proof.
  rewrite !contains_spec. intros (a & b & ->).
  exists (t +:+ a), b. by rewrite !str_app_assoc.
Qed.

Lemma existsb_contains_mono (tl tl' : string) (patterns : list string) :
  (∀ p, contains p tl = true → contains p tl' = true) →
  existsb (λ p, contains p tl) patterns = true →
  existsb (λ p, contains p tl') patterns = true.
Proof.
  intros Hmono. rewrite !existsb_exists.
  intros (p & Hp & Hc). exists p. auto.
Qed.

(** Everything [validate] returns, in terms of the phrases that occur. *)
Lemma validate_detail self t context :
  let truth :=
    negb (existsb (λ p, contains p (lower t)) (false_patterns self)) in
  let honesty :=
    negb (existsb (λ p, contains p (lower t)) (dishonest_patterns self)) in
  let transparency :=
    negb (existsb (λ p, contains p (lower t)) (claim_patterns self))
    || (len t <? 50)
    || existsb (λ m, contains m (lower t)) (transparent_markers self) in
  ∃ r,
    (∀ w, ∃ w', validate self t context w = (Ok r, w')) ∧
    truth_verified r = truth ∧
    honesty_verified r = honesty ∧
    transparency_verified r = transparency ∧
    confidence_score r
    = (inject_Z (Z.b2z truth + Z.b2z honesty + Z.b2z transparency) / 3)%Q ∧
    is_compliant r
    = truth && honesty && transparency &&
      Qle_bool (confidence_threshold self) (confidence_score r) ∧
    Z.of_nat (length (issues r))
    = 3 - (Z.b2z truth + Z.b2z honesty + Z.b2z transparency).
Proof.
  intros truth honesty transparency.
  eexists. split.
  - intros w. unfold validate, logger_debug at 1, logger_info.
    unfold mbind, M_bind, Py.bind at 1. simpl.
    unfold Py.bind at 1, _verify_truth.
    edestruct (for_return_none_found
      (λ pattern, logger_debug ("Truth: Found false pattern '" +:+ pattern +:+ "'")))
      as [w1 ->].
    { intros. apply emit_ok. }
    unfold Py.bind at 1, _verify_honesty.
    edestruct (for_return_none_found
      (λ pattern, logger_debug ("Honesty: Found dishonest pattern '" +:+ pattern +:+ "'")))
      as [w2 ->].
    { intros. apply emit_ok. }
    unfold Py.bind at 1.
    edestruct verify_transparency_run as [w3 ->].
    unfold Py.bind, emit, mret, M_ret, Py.ret.
    eexists. reflexivity.
  - simpl. fold truth honesty transparency.
    repeat split; try reflexivity.
    destruct truth, honesty, transparency; reflexivity.
Qed.

End validator_facts.

(** X4: in the result of [validate], the confidence is the share of the three
    checks that raised no issue, and the text is compliant exactly when there
    is no issue and the configured threshold is at most 1. *)
Theorem X4_validator_confidence_and_compliance (self : THTService.THTService)
    (text : string) (context : option (gmap string pyval)) (w : world) :
  ∃ r w',
    THTService.validate self text context w = (Ok r, w') ∧
    (THTService.confidence_score r
     == inject_Z (3 - Z.of_nat (length (THTService.issues r))) / 3)%Q ∧
    (THTService.is_compliant r = true ↔
     THTService.issues r = [] ∧ (THTService.confidence_threshold self <= 1)%Q).
Proof.
  destruct (validate_detail self text context)
    as (r & Hr & Ht & Hh & Htr & Hc & Hcomp & Hi).
  destruct (Hr w) as [w' Hrun]. exists r, w'. split; [done|].
  rewrite Hcomp, Hc.
  destruct (negb (existsb _ (THTService.false_patterns self)));
  destruct (negb (existsb _ (THTService.dishonest_patterns self)));
  destruct (negb (existsb _ (THTService.claim_patterns self)) || _ || _);
    simpl in *;
    (split; [by replace (Z.of_nat (length (THTService.issues r))) with
                 (3 - (3 - Z.of_nat (length (THTService.issues r)))) by lia;
                rewrite Hi|]);
    try (split; [done | intros [Hnil _]; rewrite Hnil in Hi; simpl in Hi; lia]).
  rewrite Qle_bool_iff.
  assert (THTService.issues r = []) as Hnil.
  { apply length_zero_iff_nil. lia. }
  split; [intros H; split; [done|] | intros [_ H]].
  - eapply Qle_trans; [exact H|]. unfold Qle. simpl. lia.
  - eapply Qle_trans; [exact H|]. unfold Qle. simpl. lia.
Qed.

Lemma existsb_contains_iff (tl : string) (patterns : list string) :
  existsb (λ p, contains p tl) patterns = true ↔
  ∃ p, p ∈ patterns ∧ contains p tl = true.
Proof.
  rewrite existsb_exists. split; intros (p & Hp & Hc); exists p; split;
    try done; by apply list_elem_of_In.
Qed.

(** X5: [validate] fails the Truth check exactly when a phrase of the
    false-claim list occurs in the lower-cased text, the Honesty check
    exactly when a phrase of the dishonest list occurs, and the Transparency
    check exactly when a claim word occurs, the text has 50 characters or
    more, and no transparency marker occurs. *)
Theorem X5_validator_checks_characterised (self : THTService.THTService)
    (text : string) (context : option (gmap string pyval)) (w : world) :
  ∃ r w',
    THTService.validate self text context w = (Ok r, w') ∧
    (THTService.truth_verified r = false ↔
     ∃ p, p ∈ THTService.false_patterns self ∧
          contains p (lower text) = true) ∧
    (THTService.honesty_verified r = false ↔
     ∃ p, p ∈ THTService.dishonest_patterns self ∧
          contains p (lower text) = true) ∧
    (THTService.transparency_verified r = false ↔
     (∃ p, p ∈ THTService.claim_patterns self ∧
           contains p (lower text) = true) ∧
     50 ≤ len text ∧
     ∀ m, m ∈ THTService.transparent_markers self →
          contains m (lower text) = false).
Proof.
  destruct (validate_detail self text context)
    as (r & Hr & Ht & Hh & Htr & _).
  destruct (Hr w) as [w' Hrun]. exists r, w'. split; [done|].
  rewrite Ht, Hh, Htr. split; [|split].
  - by rewrite negb_false_iff, existsb_contains_iff.
  - by rewrite negb_false_iff, existsb_contains_iff.
  - rewrite !orb_false_iff, negb_false_iff, existsb_contains_iff, Z.ltb_ge.
    split.
    + intros [[Hclaim Hlen] Hnone]. repeat split; try done.
      intros m Hm. apply not_true_is_false. intros Hc.
      assert (existsb (λ m, contains m (lower text))
                (THTService.transparent_markers self) = true) as Hex.
      { apply existsb_contains_iff. by exists m. }
      congruence.
    + intros (Hclaim & Hlen & Hnone). repeat split; try done.
      apply not_true_is_false. intros (m & Hm & Hc)%existsb_contains_iff.
      rewrite (Hnone m Hm) in Hc. done.
Qed.

(** X6: a failed Truth or Honesty check cannot be repaired by adding text:
    if [validate] fails the check on a text, it fails it on every text that
    contains that text. *)
Theorem X6_validator_failure_is_stable (self : THTService.THTService)
    (text before after : string) (context : option (gmap string pyval))
    (w : world) :
  ∃ r r' w1 w2,
    THTService.validate self text context w = (Ok r, w1) ∧
    THTService.validate self (before +:+ text +:+ after) context w
    = (Ok r', w2) ∧
    (THTService.truth_verified r = false →
     THTService.truth_verified r' = false) ∧
    (THTService.honesty_verified r = false →
     THTService.honesty_verified r' = false).
Proof.
  destruct (validate_detail self text context) as (r & Hr & Ht & Hh & _).
  destruct (validate_detail self (before +:+ text +:+ after) context)
    as (r' & Hr' & Ht' & Hh' & _).
  destruct (Hr w) as [w1 Hrun]. destruct (Hr' w) as [w2 Hrun'].
  exists r, r', w1, w2. split; [done|]. split; [done|].
  assert (∀ p, contains p (lower text) = true →
               contains p (lower (before +:+ text +:+ after)) = true) as Hmono.
  { intros p Hp. rewrite !lower_app.
    by apply contains_app_front, contains_app_l. }
  rewrite Ht, Hh, Ht', Hh', !negb_false_iff.
  split; apply existsb_contains_mono, Hmono.
Qed.

(** An overconfident sentence, wrapped in reasoning. *)
Lemma X6_validator_failure_is_stable_witness :
  ∃ r r' w1 w2,
    THTService.validate THTService.get_tht_service
      "it is definitely so" None sample_world = (Ok r, w1) ∧
    THTService.validate THTService.get_tht_service
      ("Because research shows, " +:+ "it is definitely so" +:+ ", I believe.")
      None sample_world = (Ok r', w2) ∧
    THTService.truth_verified r = false ∧
    THTService.truth_verified r' = false.
Proof.
  destruct (X6_validator_failure_is_stable THTService.get_tht_service
              "it is definitely so" "Because research shows, " ", I believe."
              None sample_world)
    as (r & r' & w1 & w2 & H1 & H2 & Ht & _).
  exists r, r', w1, w2. split; [done|]. split; [done|].
  assert (THTService.truth_verified r = false) as Hf.
  { vm_compute in H1. injection H1 as <- _. reflexivity. }
  split; [done|]. by apply Ht.
Defined.

(** X7: [analyze_detailed] returns [validate]'s result together with exactly
    one recommendation for each issue in it: none when all three checks pass,
    three when all fail. *)
Theorem X7_detailed_one_recommendation_per_issue
    (self : THTService.THTService) (text : string)
    (context : option (gmap string pyval)) (w : world) :
  ∃ d w' w1,
    THTDetailed.analyze_detailed self text context w = (Ok d, w') ∧
    THTService.validate self text context w
    = (Ok (THTDetailed.basic_result d), w1) ∧
    length (THTDetailed.recommendations d)
    = length (THTService.issues (THTDetailed.basic_result d)) ∧
    THTDetailed.detailed d = true.
Proof.
  destruct (validate_detail self text context)
    as (r & Hr & Ht & Hh & Htr & _ & _ & Hi).
  destruct (Hr w) as [w1 Hrun].
  unfold THTDetailed.analyze_detailed, mbind, M_bind, Py.bind.
  rewrite Hrun. unfold mret, M_ret, Py.ret.
  do 3 eexists. split; [reflexivity|]. simpl. split; [done|].
  split; [|done]. apply Nat2Z.inj. rewrite Hi, Ht, Hh, Htr.
  destruct (negb (existsb _ (THTService.false_patterns self)));
  destruct (negb (existsb _ (THTService.dishonest_patterns self)));
  destruct (negb (existsb _ (THTService.claim_patterns self)) || _ || _);
    reflexivity.
Qed.

(** ** The scoring service *)

(** The pass flag of [analyze], next to its scores. *)
Lemma analyze_passing (self : SPIELService.SPIELService) (text : string)
    (context : option (gmap string pyval)) :
  ∃ r,
    (∀ w, ∃ w', SPIELService.analyze self text context w = (Ok r, w')) ∧
    SPIELService.safety r
    = Z.max 0 (Z.min 100
        (100 - 15 * hits (lower text) (SPIELService.harmful_patterns self))) ∧
    SPIELService.integrity r
    = Z.max 0
        (95 - 15 * hits (lower text) (SPIELService.dishonest_patterns self)) ∧
    SPIELService.ethics r
    = Z.max 0
        (100 - 20 * hits (lower text) (SPIELService.unethical_patterns self)) ∧
    SPIELService.is_passing r
    = Qle_bool (SPIELService.safety_threshold self)
        (inject_Z (SPIELService.safety r)) &&
      Qle_bool (SPIELService.integrity_threshold self)
        (inject_Z (SPIELService.integrity r)) &&
      Qle_bool (SPIELService.ethics_threshold self)
        (inject_Z (SPIELService.ethics r)) &&
      Qle_bool (SPIELService.safety_threshold self) (SPIELService.composite r).
Proof.
  eexists. split.
  - intros w. unfold SPIELService.analyze, SPIELService.logger_debug at 1,
      SPIELService.logger_info.
    unfold mbind, M_bind, Py.bind at 1. simpl.
    unfold Py.bind at 1.
    edestruct service_safety_run as [w1 ->].
    unfold Py.bind at 1.
    edestruct service_integrity_run as [w2 ->].
    unfold Py.bind at 1.
    edestruct service_ethics_run as [w3 ->].
    unfold Py.bind, emit, mret, M_ret, Py.ret.
    eexists. reflexivity.
  - simpl. done.
Qed.

Lemma Qle_bool_inject_Z (a b : Z) :
  Qle_bool (inject_Z a) (inject_Z b) = true ↔ a ≤ b.
Proof. rewrite Qle_bool_iff. unfold Qle. simpl. lia. Qed.

(** X8: with the default thresholds (85, 90, 80) the scoring service passes a
    text only if no phrase of its unethical list occurs in it and at most one
    phrase of its harmful list and at most one of its dishonest list do. *)
Theorem X8_service_passes_only_nearly_clean_text (text : string)
    (context : option (gmap string pyval)) (w : world) :
  ∃ r w',
    SPIELService.analyze SPIELService.get_spiel_service text context w
    = (Ok r, w') ∧
    (SPIELService.is_passing r = true →
     hits (lower text)
       (SPIELService.unethical_patterns SPIELService.get_spiel_service) = 0 ∧
     hits (lower text)
       (SPIELService.harmful_patterns SPIELService.get_spiel_service) ≤ 1 ∧
     hits (lower text)
       (SPIELService.dishonest_patterns SPIELService.get_spiel_service) ≤ 1).
Proof.
  destruct (analyze_passing SPIELService.get_spiel_service text context)
    as (r & Hr & Hs & Hi & He & Hp).
  destruct (Hr w) as [w' Hrun]. exists r, w'. split; [done|].
  rewrite Hp, !andb_true_iff. intros [[[H1 H2] H3] _].
  change (SPIELService.safety_threshold SPIELService.get_spiel_service)
    with (inject_Z 85) in H1.
  change (SPIELService.integrity_threshold SPIELService.get_spiel_service)
    with (inject_Z 80) in H2.
  change (SPIELService.ethics_threshold SPIELService.get_spiel_service)
    with (inject_Z 90) in H3.
  apply Qle_bool_inject_Z in H1, H2, H3.
  pose proof (hits_nonneg (lower text)
    (SPIELService.unethical_patterns SPIELService.get_spiel_service)).
  lia.
Qed.

(** ** The [fail_closed] decorator *)

(** X9: with [on_exception] set, a decorated call that comes to an end, by
    returning or by raising, lets no exception derived from [Exception] reach
    the caller.  The wrapper returns the wrapped call's own result only if
    that call returned within the timeout; it returns a blocking response of
    reason TIMEOUT if the call returned late, and one of reason EXCEPTION
    holding the exception if the call raised an exception derived from
    [Exception].  It raises only what the wrapped call raised from outside
    [Exception] ([KeyboardInterrupt], [SystemExit]), which it neither catches
    nor logs. *)
Theorem X9_decorator_contains_every_outcome (str_float : Q → string)
    {T : Type} (timeout_seconds : Q) (log_failures : bool) (name : string)
    (call : M T) (w : world) :
  ∃ out w',
    FailClosed.wrapper str_float timeout_seconds true log_failures name call w
    = (out, w') ∧
    match out with
    | Ok (inl result) =>
        ∃ w1, call (tick w) = (Ok result, w1) ∧
              (clock w1 (reads w1) - clock w (reads w) <= timeout_seconds)%Q
    | Ok (inr response) =>
        FailClosed.blocked response = true ∧
        FailClosed.safe_response response
        = FailClosed._generate_safe_response ∧
        ((FailClosed.reason response = FailClosed.TIMEOUT ∧
          ∃ result w1,
            call (tick w) = (Ok result, w1) ∧
            (timeout_seconds < clock w1 (reads w1) - clock w (reads w))%Q) ∨
         (FailClosed.reason response = FailClosed.EXCEPTION ∧
          ∃ e w1,
            call (tick w) = (Raise e, w1) ∧ is_Exception e = true ∧
            FailClosed.original_error response = Some e))
    | Raise e =>
        is_Exception e = false ∧ call (tick w) = (Raise e, w')
    end.
Proof.
  unfold FailClosed.wrapper, try_except, time_time.
  unfold mbind, M_bind, Py.bind. fold (tick w).
  destruct (call (tick w)) as [[result|e] w1] eqn:Hcall.
  - destruct (Qlt_bool timeout_seconds _) eqn:Hlate.
    + destruct log_failures;
        unfold FailClosed.new_response, mbind, M_bind, Py.bind, emit,
          time_time, mret, M_ret, Py.ret; do 2 eexists;
        (split; [reflexivity|]); simpl;
        (split; [done|]); (split; [done|]); left; (split; [done|]);
        exists result, w1; (split; [done|]); by apply Qlt_bool_iff.
    + unfold mret, M_ret, Py.ret. do 2 eexists. split; [reflexivity|].
      exists w1. split; [done|]. simpl.
      apply Qnot_lt_le. intros H%Qlt_bool_iff. congruence.
  - destruct (is_Exception e) eqn:Hclass.
    + destruct log_failures;
        unfold FailClosed.new_response, mbind, M_bind, Py.bind, emit,
          time_time, mret, M_ret, Py.ret; do 2 eexists;
        (split; [reflexivity|]); simpl;
        (split; [done|]); (split; [done|]); right; (split; [done|]);
        by exists e, w1.
    + do 2 eexists. split; [reflexivity|]. done.
Qed.

(** X10: a decorated call that returns after the timeout has its result
    discarded and replaced by a TIMEOUT response; the call itself is not cut
    short, so everything it logged is still in the log. *)
Theorem X10_decorator_discards_late_result (str_float : Q → string)
    {T : Type} (timeout_seconds : Q) (on_exception log_failures : bool)
    (name : string) (call : M T) (w w1 : world) (result : T) :
  call (tick w) = (Ok result, w1) →
  (timeout_seconds < clock w1 (reads w1) - clock w (reads w))%Q →
  ∃ response w' added,
    FailClosed.wrapper str_float timeout_seconds on_exception log_failures
      name call w = (Ok (inr response), w') ∧
    FailClosed.reason response = FailClosed.TIMEOUT ∧
    FailClosed.message response
    = "Operation exceeded timeout of " +:+ str_float timeout_seconds +:+ "s" ∧
    log w' = added ++ log w1.
Proof.
  intros Hcall Hlate%Qlt_bool_iff. unfold tick in Hcall.
  unfold FailClosed.wrapper, try_except, time_time.
  unfold mbind, M_bind, Py.bind. rewrite Hcall. simpl. rewrite Hlate.
  destruct log_failures;
    unfold FailClosed.new_response, mbind, M_bind, Py.bind, emit,
      time_time, mret, M_ret, Py.ret; simpl.
  - do 2 eexists. eexists [_]. split; [reflexivity|]. done.
  - do 2 eexists. exists []. split; [reflexivity|]. done.
Qed.

(** A call that logs one line and returns 7 while the clock advances by one
    second per reading, under a timeout of half a second. *)
Lemma X10_decorator_discards_late_result_witness :
  ∃ response w' added,
    FailClosed.wrapper sample_str_float (1 # 2) true true "slow"
      (emit "app" INFO "working";; mret 7) sample_world
    = (Ok (inr response), w') ∧
    FailClosed.reason response = FailClosed.TIMEOUT ∧
    FailClosed.message response
    = "Operation exceeded timeout of " +:+ sample_str_float (1 # 2) +:+ "s" ∧
    log w' = added ++ [LogRecord "app" INFO "working"].
Proof.
  apply (X10_decorator_discards_late_result sample_str_float (1 # 2) true true
           "slow" (emit "app" INFO "working";; mret 7) sample_world
           (World (clock sample_world) 1 [LogRecord "app" INFO "working"]) 7).
  - reflexivity.
  - reflexivity.
Defined.

(** ** The audit chain, continued *)

Section chain_more.

Import HashService.

Lemma contains_char_cons (x c : ascii) (s : string) :
  contains (String x "") (String c s)
  = bool_decide (x = c) || contains (String x "") s.
Proof. simpl. by rewrite andb_true_r. Qed.

(** Two texts joined by the separator can be taken apart again when the
    first holds no separator. *)
Lemma split_at_bar (a a' b b' : string) :
  contains "|" a = false → contains "|" a' = false →
  a +:+ "|" +:+ b = a' +:+ "|" +:+ b' → a = a' ∧ b = b'.
Proof.
  revert a'. induction a as [|c a IH]; intros [|c' a'] Ha Ha' H.
  - rewrite !str_app_nil_l in H. split; [done|].
    by apply (inj (String.app "|")) in H.
  - rewrite str_app_nil_l, str_app_cons in H. injection H as <- _.
    rewrite contains_char_cons, bool_decide_eq_true_2 in Ha'; done.
  - rewrite str_app_nil_l, str_app_cons in H. injection H as -> _.
    rewrite contains_char_cons, bool_decide_eq_true_2 in Ha; done.
  - rewrite !str_app_cons in H. injection H as -> H.
    rewrite contains_char_cons in Ha, Ha'.
    apply orb_false_iff in Ha as [_ Ha], Ha' as [_ Ha'].
    destruct (IH a' Ha Ha' H) as [-> ->]. done.
Qed.

Variable sha256 : string → string.

Lemma chain_snoc hashes entry :
  generate_chain_hash sha256 (hashes ++ [entry])
  = sha256 (generate_chain_hash sha256 hashes +:+ "|" +:+ entry).
Proof. by rewrite chain_app. Qed.

Lemma chain_no_bar hashes :
  (∀ d, contains "|" (sha256 d) = false) →
  contains "|" (generate_chain_hash sha256 hashes) = false.
Proof.
  intros Hhex. destruct hashes as [|entry hashes _] using rev_ind; [done|].
  rewrite chain_snoc. apply Hhex.
Qed.

End chain_more.

Lemma sample_digest_inj : Inj (=) (=) sample_digest.
Proof.
  assert (∀ b b', bit_char b = bit_char b' → b = b') as Hbit.
  { by intros [] []. }
  intros x. induction x as [|[b0 b1 b2 b3 b4 b5 b6 b7] x IH];
    intros [|[c0 c1 c2 c3 c4 c5 c6 c7] y] H; simpl in H; try done.
  injection H as H0 H1 H2 H3 H4 H5 H6 H7 H.
  apply Hbit in H0, H1, H2, H3, H4, H5, H6, H7. subst.
  f_equal. by apply IH.
Qed.

Lemma sample_digest_no_bar d : contains "|" (sample_digest d) = false.
Proof.
  induction d as [|[b0 b1 b2 b3 b4 b5 b6 b7] d IH]; [done|].
  simpl sample_digest. rewrite !contains_char_cons, IH.
  by destruct b0, b1, b2, b3, b4, b5, b6, b7.
Qed.

Lemma sample_digest_not_genesis d : sample_digest d ≠ "genesis".
Proof.
  destruct d as [|[b0 b1 b2 b3 b4 b5 b6 b7] d]; [done|].
  simpl. by destruct b0.
Qed.

(** X11: under a collision-free hash whose digests hold no separator and are
    never the word "genesis", the chain hash determines the whole list of
    entry hashes: two different lists, whether an entry was changed, added,
    dropped or moved, never have the same chain hash.  In particular the
    order of two different entries matters. *)
Theorem X11_chain_hash_determines_entries (sha256 : string → string) :
  Inj (=) (=) sha256 →
  (∀ d, contains "|" (sha256 d) = false) →
  (∀ d, sha256 d ≠ "genesis") →
  (∀ hashes hashes',
     HashService.generate_chain_hash sha256 hashes
     = HashService.generate_chain_hash sha256 hashes' →
     hashes = hashes') ∧
  (∀ a b, a ≠ b →
     HashService.generate_chain_hash sha256 [a; b]
     ≠ HashService.generate_chain_hash sha256 [b; a]).
Proof.
  intros Hinj Hhex Hgen.
  assert (∀ hashes hashes',
     HashService.generate_chain_hash sha256 hashes
     = HashService.generate_chain_hash sha256 hashes' →
     hashes = hashes') as Hdet.
  { intros hashes.
    induction hashes as [|entry hashes IH] using rev_ind;
      intros hashes'; destruct hashes' as [|entry' hashes' _] using rev_ind.
    - done.
    - rewrite chain_snoc. intros H. symmetry in H. by apply Hgen in H.
    - rewrite chain_snoc. intros H. by apply Hgen in H.
    - rewrite !chain_snoc. intros H%Hinj.
      apply split_at_bar in H as [Hc ->]; [|by apply chain_no_bar..].
      by rewrite (IH hashes' Hc). }
  split; [exact Hdet|].
  intros a b Hne H%Hdet. congruence.
Qed.

(** Two orders of the same two entries under the bit-string stand-in. *)
Lemma X11_chain_hash_determines_entries_witness :
  HashService.generate_chain_hash sample_digest ["a"; "b"]
  ≠ HashService.generate_chain_hash sample_digest ["b"; "a"].
Proof.
  destruct (X11_chain_hash_determines_entries sample_digest
              sample_digest_inj sample_digest_no_bar sample_digest_not_genesis)
    as [_ Horder].
  apply Horder. discriminate.
Defined.

(** ** The other hashes of the hash service *)

Lemma sample_digest_ascii d : is_ascii (sample_digest d) = true.
Proof.
  induction d as [|[b0 b1 b2 b3 b4 b5 b6 b7] d IH]; [done|].
  simpl. rewrite IH. by destruct b0, b1, b2, b3, b4, b5, b6, b7.
Qed.

(** X12: the audit-entry hash and the integrity hash join their fields with
    the separator without escaping it, so a separator inside a field moves
    the field boundary unnoticed: for every hash function, the input "a|b"
    with the output "c" hashes to the same value as the input "a" with the
    output "b|c". *)
Theorem X12_entry_hashes_do_not_separate_fields (sha256 : string → string)
    (timestamp_str isoformat : Q → string) (a b c : string) (ts : Q) :
  (∀ request_id status,
     HashServiceOps.generate_audit_entry_hash sha256 isoformat request_id
       (a +:+ "|" +:+ b) c status ts
     = HashServiceOps.generate_audit_entry_hash sha256 isoformat request_id
         a (b +:+ "|" +:+ c) status ts) ∧
  (∀ w,
     HashServiceOps.generate_integrity_hash sha256 timestamp_str
       (a +:+ "|" +:+ b) c (Some ts) w
     = HashServiceOps.generate_integrity_hash sha256 timestamp_str
         a (b +:+ "|" +:+ c) (Some ts) w).
Proof.
  split.
  - intros request_id status. unfold HashServiceOps.generate_audit_entry_hash.
    by rewrite !str_app_assoc.
  - intros w. unfold HashServiceOps.generate_integrity_hash.
    unfold mbind, M_bind, Py.bind, mret, M_ret, Py.ret.
    by rewrite !str_app_assoc.
Qed.

(** X13: when no field holds the separator, the audit-entry hash under a
    collision-free hash function determines the request id, the input, the
    output, the status and the printed timestamp. *)
Theorem X13_entry_hash_determines_clean_fields (sha256 : string → string)
    (isoformat : Q → string)
    (request_id input_text output_text status : string) (ts : Q)
    (request_id' input_text' output_text' status' : string) (ts' : Q) :
  Inj (=) (=) sha256 →
  Forall (λ field, contains "|" field = false)
    [request_id; input_text; output_text; status;
     request_id'; input_text'; output_text'; status'] →
  HashServiceOps.generate_audit_entry_hash sha256 isoformat request_id
    input_text output_text status ts
  = HashServiceOps.generate_audit_entry_hash sha256 isoformat request_id'
      input_text' output_text' status' ts' →
  request_id = request_id' ∧ input_text = input_text' ∧
  output_text = output_text' ∧ status = status' ∧
  isoformat ts = isoformat ts'.
Proof.
  intros Hinj Hclean H%Hinj.
  repeat match goal with
         | H : Forall _ (_ :: _) |- _ =>
             apply Forall_cons in H as [? H]
         end.
  apply split_at_bar in H as [-> H]; [|done..].
  apply split_at_bar in H as [-> H]; [|done..].
  apply split_at_bar in H as [-> H]; [|done..].
  apply split_at_bar in H as [-> H]; [|done..].
  done.
Qed.

(** Two entries with the same hash under the bit-string stand-in. *)
Lemma X13_entry_hash_determines_clean_fields_witness :
  "req-1" = "req-1" ∧ "hello" = "hello" ∧ "hi there" = "hi there" ∧
  "safe" = "safe" ∧ sample_str_float 5 = sample_str_float 5.
Proof.
  apply (X13_entry_hash_determines_clean_fields sample_digest sample_str_float
           "req-1" "hello" "hi there" "safe" 5
           "req-1" "hello" "hi there" "safe" 5 sample_digest_inj).
  - by repeat constructor.
  - reflexivity.
Defined.

(** X14: [verify_hmac] raises a [TypeError] instead of answering when the
    expected value holds a non-ASCII character; when HMAC digests are ASCII,
    as hex digests are, it answers true on the HMAC it has itself computed
    for the message and key, and on an ASCII expected value it answers
    whether that value equals the computed HMAC.  An empty key counts as no
    key: the service's secret key is used in its place, and a service built
    with an empty secret key is the service built with none. *)
Theorem X14_verify_hmac_outcomes (hmac_sha256_hex : string → string → string)
    (self : HashServiceOps.HashService) (message expected_hmac : string)
    (key : option string) (w : world) :
  (∀ k m, is_ascii (hmac_sha256_hex k m) = true) →
  HashServiceOps.verify_hmac hmac_sha256_hex self message
    (HashServiceOps.hmac_sha256 hmac_sha256_hex self message key) key w
  = (Ok true, w) ∧
  (is_ascii expected_hmac = true →
   HashServiceOps.verify_hmac hmac_sha256_hex self message expected_hmac key w
   = (Ok (bool_decide
            (HashServiceOps.hmac_sha256 hmac_sha256_hex self message key
             = expected_hmac)), w)) ∧
  (is_ascii expected_hmac = false →
   HashServiceOps.verify_hmac hmac_sha256_hex self message expected_hmac key w
   = (Raise (Exn "TypeError"
        "comparing strings with non-ASCII characters is not supported"), w)) ∧
  HashServiceOps.verify_hmac hmac_sha256_hex self message
    (HashServiceOps.hmac_sha256 hmac_sha256_hex self message None) (Some "") w
  = (Ok true, w) ∧
  HashServiceOps.__init__ (Some "") = HashServiceOps.__init__ None.
Proof.
  intros Hascii.
  unfold HashServiceOps.verify_hmac, HashServiceOps.hmac_sha256, compare_digest.
  simpl. rewrite !Hascii. simpl. split; [|split; [|split; [|split]]].
  - by rewrite bool_decide_eq_true_2.
  - by intros ->.
  - by intros ->.
  - by rewrite bool_decide_eq_true_2.
  - done.
Qed.

(** The bit-string stand-in as HMAC: a round trip, an expected value holding
    the character 233, and the empty key. *)
Lemma X14_verify_hmac_outcomes_witness :
  HashServiceOps.verify_hmac (λ k m, sample_digest (k +:+ m))
    (HashServiceOps.__init__ None) "msg"
    (HashServiceOps.hmac_sha256 (λ k m, sample_digest (k +:+ m))
       (HashServiceOps.__init__ None) "msg" (Some "k")) (Some "k") sample_world
  = (Ok true, sample_world) ∧
  HashServiceOps.verify_hmac (λ k m, sample_digest (k +:+ m))
    (HashServiceOps.__init__ None) "msg" (String "233" "") (Some "k")
    sample_world
  = (Raise (Exn "TypeError"
       "comparing strings with non-ASCII characters is not supported"),
     sample_world) ∧
  HashServiceOps.verify_hmac (λ k m, sample_digest (k +:+ m))
    (HashServiceOps.__init__ None) "msg"
    (HashServiceOps.hmac_sha256 (λ k m, sample_digest (k +:+ m))
       (HashServiceOps.__init__ None) "msg" None) (Some "") sample_world
  = (Ok true, sample_world).
Proof.
  destruct (X14_verify_hmac_outcomes (λ k m, sample_digest (k +:+ m))
              (HashServiceOps.__init__ None) "msg" (String "233" "")
              (Some "k") sample_world
              (λ k m, sample_digest_ascii (k +:+ m)))
    as (H1 & _ & H3 & H4 & _).
  split; [exact H1|]. split; [apply H3; reflexivity | exact H4].
Defined.

(** ** The rest of [fail_closed.py] *)

(** X15: [ensure_safe_output] hands back the given output, untouched and
    without logging, exactly when there is an output, validation passed and
    the confidence reaches the threshold; in every other case it returns the
    fixed apology, never the output. *)
Theorem X15_safe_output_only_when_all_checks_hold (str_float : Q → string)
    (output : option string) (validation_passed : bool)
    (confidence confidence_threshold : Q) (w : world) :
  ∃ answer w',
    SafeOutput.ensure_safe_output str_float output validation_passed
      confidence confidence_threshold w = (Ok answer, w') ∧
    (∀ text, output = Some text → validation_passed = true →
             (confidence_threshold <= confidence)%Q →
             answer = text ∧ w' = w) ∧
    (output = None ∨ validation_passed = false ∨
     (confidence < confidence_threshold)%Q →
     answer = FailClosed._generate_safe_response).
Proof.
  unfold SafeOutput.ensure_safe_output.
  destruct output as [text|].
  - destruct validation_passed; simpl.
    + destruct (Qlt_bool confidence confidence_threshold) eqn:Hlow.
      * unfold FailClosed.new_response, mbind, M_bind, Py.bind, emit,
          time_time, mret, M_ret, Py.ret.
        do 2 eexists. split; [reflexivity|]. simpl. split; [|done].
        intros ? _ _ Hle. apply Qlt_bool_iff in Hlow.
        by apply Qlt_not_le in Hlow.
      * unfold mret, M_ret, Py.ret. do 2 eexists. split; [reflexivity|].
        split; [by intros ? [= ->]|].
        intros [?|[?|Hlt%Qlt_bool_iff]]; congruence.
    + unfold FailClosed.new_response, mbind, M_bind, Py.bind, emit,
        time_time, mret, M_ret, Py.ret.
      do 2 eexists. split; [reflexivity|]. by simpl.
  - unfold FailClosed.new_response, mbind, M_bind, Py.bind, emit,
      time_time, mret, M_ret, Py.ret.
    do 2 eexists. split; [reflexivity|]. by simpl.
Qed.

(** A validated answer at confidence 0.9 against 0.8, and the same answer at
    confidence 0.5. *)
Lemma X15_safe_output_only_when_all_checks_hold_witness :
  (SafeOutput.ensure_safe_output sample_str_float (Some "42") true
     (9 # 10) (8 # 10) sample_world).1 = Ok "42" ∧
  (SafeOutput.ensure_safe_output sample_str_float (Some "42") true
     (5 # 10) (8 # 10) sample_world).1
  = Ok FailClosed._generate_safe_response.
Proof.
  split.
  - destruct (X15_safe_output_only_when_all_checks_hold sample_str_float
                (Some "42") true (9 # 10) (8 # 10) sample_world)
      as (answer & w' & -> & Hpass & _).
    destruct (Hpass "42") as [-> _]; [reflexivity | reflexivity | | done].
    unfold Qle. simpl. lia.
  - destruct (X15_safe_output_only_when_all_checks_hold sample_str_float
                (Some "42") true (5 # 10) (8 # 10) sample_world)
      as (answer & w' & -> & _ & Hblock).
    rewrite Hblock; [done|]. right. right. reflexivity.
Defined.

(** X16: when the block of a [with FailClosedGuard(...)] statement raises, the
    exception does not leave the statement; the guard then holds it, answers
    true to [should_block] for every result without looking at the clock, and
    gives a blocked response with the reason EXCEPTION and the exception's
    text. *)
Theorem X16_guard_suppresses_and_blocks (str_float : Q → string) {A : Type}
    (self : FailClosedGuard.FailClosedGuard)
    (body : FailClosedGuard.FailClosedGuard → M A) (e : exn) (w w1 : world) :
  body {| FailClosedGuard.timeout := FailClosedGuard.timeout self;
          FailClosedGuard.uncertainty_threshold :=
            FailClosedGuard.uncertainty_threshold self;
          FailClosedGuard.start_time := Some (clock w (reads w));
          FailClosedGuard.error := FailClosedGuard.error self |} (tick w)
  = (Raise e, w1) →
  ∃ guard w',
    FailClosedGuard.with_guard self body w = (Ok (guard, None), w') ∧
    FailClosedGuard.error guard = Some e ∧
    (∀ (R : Type) (result : option R) w2,
       FailClosedGuard.should_block guard result w2 = (Ok true, w2)) ∧
    (∀ w2, ∃ response w3,
       FailClosedGuard.blocked_response str_float guard w2
       = (Ok response, w3) ∧
       FailClosed.reason response = FailClosed.EXCEPTION ∧
       FailClosed.message response = exn_str e ∧
       FailClosed.original_error response = Some e ∧
       FailClosed.blocked response = true).
Proof.
  intros Hbody. unfold tick in Hbody.
  unfold FailClosedGuard.with_guard, FailClosedGuard.__enter__,
    FailClosedGuard.__exit__.
  unfold mbind, M_bind, Py.bind, time_time, mret, M_ret, Py.ret, emit.
  rewrite Hbody. do 2 eexists. split; [reflexivity|]. simpl.
  split; [done|]. split.
  - intros R result w2. unfold FailClosedGuard.should_block,
      FailClosedGuard.had_error. simpl. done.
  - intros w2. unfold FailClosedGuard.blocked_response. simpl.
    unfold FailClosed.new_response, mbind, M_bind, Py.bind, time_time, mret,
      M_ret, Py.ret.
    do 2 eexists. split; [reflexivity|]. done.
Qed.

(** A block that raises a [ValueError] at once. *)
Lemma X16_guard_suppresses_and_blocks_witness :
  ∃ guard w',
    FailClosedGuard.with_guard (FailClosedGuard.__init__ 5 (1 # 2))
      (λ _, raise (A := Z) (Exn "ValueError" "boom")) sample_world
    = (Ok (guard, None), w') ∧
    FailClosedGuard.error guard = Some (Exn "ValueError" "boom").
Proof.
  destruct (X16_guard_suppresses_and_blocks sample_str_float
              (FailClosedGuard.__init__ 5 (1 # 2))
              (λ _, raise (A := Z) (Exn "ValueError" "boom"))
              (Exn "ValueError" "boom") sample_world (tick sample_world))
    as (guard & w' & Hrun & Herr & _).
  - reflexivity.
  - by exists guard, w'.
Defined.

(** X17: a guard that was entered and holds no error answers [should_block]
    by reading the clock once: true exactly when more than [timeout] seconds
    have passed since it was entered or the result is [None].  The
    uncertainty threshold it was built with plays no part. *)
Theorem X17_guard_blocks_on_timeout_or_none {R : Type}
    (self : FailClosedGuard.FailClosedGuard) (start : Q)
    (result : option R) (w : world) :
  FailClosedGuard.error self = None →
  FailClosedGuard.start_time self = Some start →
  ∃ answer,
    FailClosedGuard.should_block self result w = (Ok answer, tick w) ∧
    (answer = true ↔
     (FailClosedGuard.timeout self < clock w (reads w) - start)%Q ∨
     result = None).
Proof.
  intros Herr Hstart.
  unfold FailClosedGuard.should_block, FailClosedGuard.had_error,
    FailClosedGuard.timed_out, FailClosedGuard.elapsed.
  rewrite Herr, Hstart. rewrite bool_decide_eq_false_2 by (by intros [? ?]).
  unfold mbind, M_bind, Py.bind, time_time, mret, M_ret, Py.ret. fold (tick w).
  destruct (Qlt_bool _ _) eqn:Hlate.
  - eexists. split; [reflexivity|]. apply Qlt_bool_iff in Hlate. tauto.
  - assert (¬ (FailClosedGuard.timeout self < clock w (reads w) - start)%Q)
      as Hnot by (intros H%Qlt_bool_iff; congruence).
    destruct result; eexists; (split; [reflexivity|]); intuition congruence.
Qed.

(** A guard entered at second 0 with a timeout of 5, asked at second 1. *)
Lemma X17_guard_blocks_on_timeout_or_none_witness :
  FailClosedGuard.should_block
    {| FailClosedGuard.timeout := 5;
       FailClosedGuard.uncertainty_threshold := 1 # 2;
       FailClosedGuard.start_time := Some 0%Q;
       FailClosedGuard.error := None |}
    (Some 3) (tick sample_world)
  = (Ok false, tick (tick sample_world)).
Proof.
  destruct (X17_guard_blocks_on_timeout_or_none
              {| FailClosedGuard.timeout := 5;
                 FailClosedGuard.uncertainty_threshold := 1 # 2;
                 FailClosedGuard.start_time := Some 0%Q;
                 FailClosedGuard.error := None |}
              0%Q (Some 3) (tick sample_world) eq_refl eq_refl)
    as (answer & -> & Hiff).
  destruct answer; [|done].
  destruct (proj1 Hiff eq_refl) as [Hlate | Hnone]; [|done].
  exfalso. revert Hlate. apply Qle_not_lt. unfold Qle. simpl. lia.
Defined.

(** ** The rate limiter *)

Section rate_limiter.

Import RateLimiter.

Lemma bfilter_length_le {A} (f : A → bool) (l : list A) :
  (length (List.filter f l) ≤ length l)%nat.
Proof. induction l as [|x l IH]; simpl; [lia|]. destruct (f x); simpl; lia. Qed.

Lemma bfilter_Forall {A} (f : A → bool) (l : list A) :
  Forall (λ x, f x = true) (List.filter f l).
Proof.
  induction l as [|x l IH]; simpl; [constructor|].
  destruct (f x) eqn:Hx; [by constructor | done].
Qed.

Lemma recent_snoc now times :
  recent now (times ++ [now]) = recent now times + 1.
Proof.
  unfold recent. rewrite List.filter_app, length_app. simpl.
  assert (Qlt_bool (now - 1) now = true) as ->.
  { apply Qlt_bool_iff. lra. }
  simpl. lia.
Qed.

End rate_limiter.

(** A request that [check] admits. *)
Lemma check_admits
    (self self' : RateLimiter.RateLimiter) (answer : bool) (w w' : world) :
  RateLimiter.check self w = (Ok (self', inl answer), w') →
  let now := clock w (reads w) in
  answer = true ∧
  RateLimiter.request_times self'
  = kept now (RateLimiter.request_times self) ++ [now] ∧
  Z.of_nat (length (RateLimiter.request_times self'))
  ≤ RateLimiter.requests_per_minute self ∧
  recent now (RateLimiter.request_times self')
  ≤ RateLimiter.burst_limit self ∧
  Forall (λ t, (now - 60 < t)%Q) (RateLimiter.request_times self').
Proof.
  unfold RateLimiter.check.
  unfold mbind, M_bind, Py.bind, time_time. simpl.
  fold (kept (clock w (reads w)) (RateLimiter.request_times self)).
  fold (recent (clock w (reads w))
          (kept (clock w (reads w)) (RateLimiter.request_times self))).
  destruct (_ <=? recent _ _) eqn:Hburst; [done|].
  destruct (_ <=? Z.of_nat _) eqn:Hrate; [done|].
  unfold mret, M_ret, Py.ret. intros [= <- <- <-]. simpl.
  apply Z.leb_gt in Hburst, Hrate.
  split; [done|]. split; [done|]. split; [rewrite length_app; simpl; lia|].
  split; [rewrite recent_snoc; lia|].
  apply Forall_app. split.
  - eapply Forall_impl; [apply bfilter_Forall|].
    intros t Ht. by apply Qlt_bool_iff in Ht.
  - constructor; [lra | constructor].
Qed.

(** A request that [check] rejects. *)
Lemma check_rejects
    (self self' : RateLimiter.RateLimiter)
    (response : FailClosed.FailClosedResponse) (w w' : world) :
  RateLimiter.check self w = (Ok (self', inr response), w') →
  let now := clock w (reads w) in
  FailClosed.reason response = FailClosed.RATE_LIMIT ∧
  FailClosed.blocked response = true ∧
  RateLimiter.request_times self' = kept now (RateLimiter.request_times self) ∧
  (RateLimiter.burst_limit self
   ≤ recent now (kept now (RateLimiter.request_times self)) ∨
   RateLimiter.requests_per_minute self
   ≤ Z.of_nat (length (kept now (RateLimiter.request_times self)))).
Proof.
  unfold RateLimiter.check.
  unfold mbind, M_bind, Py.bind, time_time. simpl.
  fold (kept (clock w (reads w)) (RateLimiter.request_times self)).
  fold (recent (clock w (reads w))
          (kept (clock w (reads w)) (RateLimiter.request_times self))).
  destruct (_ <=? recent _ _) eqn:Hburst.
  - unfold FailClosed.new_response, mbind, M_bind, Py.bind, time_time, mret,
      M_ret, Py.ret. intros [= <- <- <-]. simpl.
    apply Z.leb_le in Hburst. auto.
  - destruct (_ <=? Z.of_nat _) eqn:Hrate; [|done].
    unfold FailClosed.new_response, mbind, M_bind, Py.bind, time_time, mret,
      M_ret, Py.ret. intros [= <- <- <-]. simpl.
    apply Z.leb_le in Hrate. auto.
Qed.

(** X18: a request that [check] admits is recorded with the current time, and
    the limiter then holds at most [requests_per_minute] requests, all from
    within the last minute, of which at most [burst_limit] fall in the last
    second.  A request that [check] rejects is answered with a blocking
    response of reason RATE_LIMIT and is not recorded: the limiter only
    forgets the requests older than a minute, and the burst limit or the
    per-minute limit had already been reached. *)
Theorem X18_rate_limiter_check_outcome
    (self self' : RateLimiter.RateLimiter)
    (answer : bool + FailClosed.FailClosedResponse) (w w' : world) :
  RateLimiter.check self w = (Ok (self', answer), w') →
  let now := clock w (reads w) in
  match answer with
  | inl flag =>
      flag = true ∧
      RateLimiter.request_times self'
      = kept now (RateLimiter.request_times self) ++ [now] ∧
      Z.of_nat (length (RateLimiter.request_times self'))
      ≤ RateLimiter.requests_per_minute self ∧
      recent now (RateLimiter.request_times self')
      ≤ RateLimiter.burst_limit self ∧
      Forall (λ t, (now - 60 < t)%Q) (RateLimiter.request_times self')
  | inr response =>
      FailClosed.reason response = FailClosed.RATE_LIMIT ∧
      FailClosed.blocked response = true ∧
      RateLimiter.request_times self'
      = kept now (RateLimiter.request_times self) ∧
      (RateLimiter.burst_limit self
       ≤ recent now (kept now (RateLimiter.request_times self)) ∨
       RateLimiter.requests_per_minute self
       ≤ Z.of_nat (length (kept now (RateLimiter.request_times self))))
  end.
Proof.
  intros Hcheck. destruct answer as [flag|response].
  - by apply (check_admits self self' flag w w').
  - by apply (check_rejects self self' response w w').
Qed.

(** A fresh limiter admits the first request; a limiter with a burst limit
    of one rejects a second request within the same second. *)
Lemma X18_rate_limiter_check_outcome_witness :
  (∃ self' w',
     RateLimiter.check (RateLimiter.__init__ 100 20) sample_world
     = (Ok (self', inl true), w') ∧
     RateLimiter.request_times self' = [0%Q]) ∧
  (∃ self' response w',
     RateLimiter.check
       {| RateLimiter.requests_per_minute := 100;
          RateLimiter.burst_limit := 1;
          RateLimiter.request_times := [(1 # 2)%Q] |}
       (tick sample_world) = (Ok (self', inr response), w') ∧
     FailClosed.reason response = FailClosed.RATE_LIMIT ∧
     RateLimiter.request_times self' = [(1 # 2)%Q]).
Proof.
  split.
  - destruct (RateLimiter.check (RateLimiter.__init__ 100 20) sample_world)
      as [[[self' [flag|response]]|e] w'] eqn:Hcheck;
      try discriminate Hcheck.
    destruct (X18_rate_limiter_check_outcome
                (RateLimiter.__init__ 100 20) self' (inl flag) sample_world w'
                Hcheck) as (-> & Htimes & _).
    by exists self', w'.
  - destruct (RateLimiter.check
        {| RateLimiter.requests_per_minute := 100;
           RateLimiter.burst_limit := 1;
           RateLimiter.request_times := [(1 # 2)%Q] |}
        (tick sample_world))
      as [[[self' [flag|response]]|e] w'] eqn:Hcheck;
      try discriminate Hcheck.
    destruct (X18_rate_limiter_check_outcome _ self' (inr response)
                (tick sample_world) w' Hcheck) as (Hreason & _ & Htimes & _).
    by exists self', response, w'.
Defined.

(** X19: [check] always answers and never changes the two limits; once the
    limiter holds no more than [requests_per_minute] requests it never holds
    more, which is the case from construction on when that limit is not
    negative; and a limiter whose burst limit or per-minute limit is zero or
    negative rejects every request. *)
Theorem X19_rate_limiter_stays_within_capacity
    (self : RateLimiter.RateLimiter) (w : world) :
  ∃ self' answer w',
    RateLimiter.check self w = (Ok (self', answer), w') ∧
    RateLimiter.requests_per_minute self'
    = RateLimiter.requests_per_minute self ∧
    RateLimiter.burst_limit self' = RateLimiter.burst_limit self ∧
    (Z.of_nat (length (RateLimiter.request_times self))
     ≤ RateLimiter.requests_per_minute self →
     Z.of_nat (length (RateLimiter.request_times self'))
     ≤ RateLimiter.requests_per_minute self') ∧
    (RateLimiter.burst_limit self ≤ 0 ∨
     RateLimiter.requests_per_minute self ≤ 0 →
     ∃ response, answer = inr response).
Proof.
  unfold RateLimiter.check.
  unfold mbind, M_bind, Py.bind, time_time. simpl.
  fold (kept (clock w (reads w)) (RateLimiter.request_times self)).
  fold (recent (clock w (reads w))
          (kept (clock w (reads w)) (RateLimiter.request_times self))).
  pose proof (bfilter_length_le (λ t, Qlt_bool (clock w (reads w) - 60) t)
                (RateLimiter.request_times self)) as Hkept.
  fold (kept (clock w (reads w)) (RateLimiter.request_times self)) in Hkept.
  destruct (_ <=? recent _ _) eqn:Hburst.
  - unfold FailClosed.new_response, mbind, M_bind, Py.bind, time_time, mret,
      M_ret, Py.ret.
    do 3 eexists. split; [reflexivity|]. simpl.
    repeat split; [lia | eauto].
  - destruct (_ <=? Z.of_nat _) eqn:Hrate.
    + unfold FailClosed.new_response, mbind, M_bind, Py.bind, time_time, mret,
        M_ret, Py.ret.
      do 3 eexists. split; [reflexivity|]. simpl.
      repeat split; [lia | eauto].
    + unfold mret, M_ret, Py.ret.
      do 3 eexists. split; [reflexivity|]. simpl.
      apply Z.leb_gt in Hburst, Hrate.
      repeat split; [rewrite length_app; simpl; lia|].
      unfold recent in Hburst. lia.
Qed.

(** A limiter with no capacity rejects the first request. *)
Lemma X19_rate_limiter_stays_within_capacity_witness :
  ∃ self' response w',
    RateLimiter.check (RateLimiter.__init__ 0 20) sample_world
    = (Ok (self', inr response), w').
Proof.
  destruct (X19_rate_limiter_stays_within_capacity
              (RateLimiter.__init__ 0 20) sample_world)
    as (self' & answer & w' & Hcheck & _ & _ & _ & Hreject).
  destruct Hreject as [response ->]; [right; reflexivity|].
  by exists self', response, w'.
Defined.

(** ** The routers *)

Lemma startswith_slice (p s : string) :
  startswith p s = true → s = p +:+ slice_from (String.length p) s.
Proof.
  revert s. induction p as [|a p IH]; intros [|b s]; simpl; try done.
  rewrite andb_true_iff, bool_decide_eq_true. intros [-> H].
  rewrite str_app_cons. f_equal. by apply IH.
Qed.

Lemma slice_from_app (p s : string) : slice_from (String.length p) (p +:+ s) = s.
Proof.
  induction p as [|a p IH]; [by destruct s|].
  rewrite str_app_cons. simpl. apply IH.
Qed.

Lemma startswith_app (p s : string) : startswith p (p +:+ s) = true.
Proof. apply startswith_spec. by exists s. Qed.

Lemma slice_bearer (key : string) : slice_from 7 ("Bearer " +:+ key) = key.
Proof. exact (slice_from_app "Bearer " key). Qed.

(** X20: [verify_license] of the validation router returns a key exactly for
    a header of the form "Bearer " followed by a non-empty key, and the key
    it returns is that key; every other header, a missing one included, is
    refused with status 401. *)
Theorem X20_license_header_round_trip (authorization : option string) :
  (∀ key, ValidationRouter.verify_license authorization = inr key ↔
          authorization = Some ("Bearer " +:+ key) ∧ key ≠ "") ∧
  (∀ refusal, ValidationRouter.verify_license authorization = inl refusal →
              Http.status_code refusal = 401).
Proof.
  split.
  - intros key. unfold ValidationRouter.verify_license.
    destruct authorization as [header|].
    2: { split; [done | intros [H _]; discriminate H]. }
    destruct (bool_decide (header = "")) eqn:Hempty.
    { apply bool_decide_eq_true in Hempty as ->.
      split; [done | intros [H _]; discriminate H]. }
    destruct (startswith "Bearer " header) eqn:Hprefix; cbn [negb]; cbv zeta.
    + apply startswith_slice in Hprefix. simpl String.length in Hprefix.
      destruct (bool_decide (slice_from 7 header = "")) eqn:Hkey.
      * apply bool_decide_eq_true in Hkey.
        split; [done|]. intros [H Hne]. injection H as Hh.
        rewrite Hh in Hkey.
        by rewrite slice_bearer in Hkey.
      * apply bool_decide_eq_false in Hkey. split.
        -- intros H.
           assert (slice_from 7 header = key) as <- by (by injection H).
           by rewrite <- Hprefix.
        -- intros [H _]. injection H as Hh. f_equal. rewrite Hh.
           apply slice_bearer.
    + split; [done|]. intros [H _]. injection H as Hh.
      rewrite Hh, (startswith_app "Bearer " key) in Hprefix. done.
  - intros refusal. unfold ValidationRouter.verify_license.
    destruct authorization as [header|]; [|by intros [= <-]].
    destruct (bool_decide (header = "")); [by intros [= <-]|].
    destruct (startswith "Bearer " header); cbn [negb]; cbv zeta;
      [|by intros [= <-]].
    destruct (bool_decide (slice_from 7 header = "")); [by intros [= <-]|done].
Qed.

(** The header "Bearer sk_live_123". *)
Lemma X20_license_header_round_trip_witness :
  ValidationRouter.verify_license (Some "Bearer sk_live_123")
  = inr "sk_live_123".
Proof.
  apply (X20_license_header_round_trip (Some "Bearer sk_live_123")).
  split; [reflexivity | discriminate].
Defined.

(** X21: [verify_license] of the audit router returns a key for every header
    that starts with "Bearer ", also when nothing follows: unlike the
    validation router, which refuses it, the audit router lets the header
    "Bearer " through with the empty key. *)
Theorem X21_audit_router_accepts_empty_key (authorization : option string)
    (key : string) :
  (AuditRouter.verify_license authorization = inr key ↔
   authorization = Some ("Bearer " +:+ key)) ∧
  AuditRouter.verify_license (Some "Bearer ") = inr "" ∧
  ValidationRouter.verify_license (Some "Bearer ")
  = inl {| Http.status_code := 401; Http.detail := "License key required" |}.
Proof.
  split; [|done].
  unfold AuditRouter.verify_license.
  destruct authorization as [header|]; [|done].
  destruct (bool_decide (header = "")) eqn:Hempty.
  { apply bool_decide_eq_true in Hempty as ->.
    split; [done | intros H; discriminate H]. }
  destruct (startswith "Bearer " header) eqn:Hprefix; cbn [negb]; cbv zeta.
  - apply startswith_slice in Hprefix. simpl String.length in Hprefix. split.
    + intros H.
           assert (slice_from 7 header = key) as <- by (by injection H).
           by rewrite <- Hprefix.
    + intros H. injection H as Hh. f_equal. rewrite Hh.
      apply slice_bearer.
  - split; [done|]. intros H. injection H as Hh.
    rewrite Hh, (startswith_app "Bearer " key) in Hprefix. done.
Qed.

(** Below capacity [add_audit_entry] only appends. *)
Lemma add_audit_entry_below_capacity
    (audit_store : list AuditRouter.audit_entry)
    (entry : AuditRouter.audit_entry) :
  Z.of_nat (length audit_store) < 10000 →
  AuditRouter.add_audit_entry audit_store entry = audit_store ++ [entry].
Proof.
  intros Hroom. unfold AuditRouter.add_audit_entry.
  rewrite length_app. simpl length.
  destruct (10000 <? _) eqn:Hfull; [|done].
  apply Z.ltb_lt in Hfull. lia.
Qed.

(** X22: after [add_audit_entry] the store never holds more than 10000
    entries, the entry just added is its last one, and the store is the old
    store with the new entry appended, cut down from the front: nothing is
    reordered, and below capacity nothing is dropped. *)
Theorem X22_audit_store_keeps_the_latest
    (audit_store : list AuditRouter.audit_entry)
    (entry : AuditRouter.audit_entry) :
  let audit_store' := AuditRouter.add_audit_entry audit_store entry in
  Z.of_nat (length audit_store') ≤ 10000 ∧
  last audit_store' = Some entry ∧
  audit_store' `suffix_of` (audit_store ++ [entry]) ∧
  (Z.of_nat (length audit_store) < 10000 →
   audit_store' = audit_store ++ [entry]).
Proof.
  split; [|split; [|split]]; [..|apply add_audit_entry_below_capacity];
    unfold AuditRouter.add_audit_entry, last_n;
    set (n := Z.to_nat 10000);
    assert (Z.of_nat n = 10000) as Hn by (subst n; lia);
    clearbody n; rewrite length_app; simpl length;
    destruct (10000 <? _) eqn:Hfull;
    try apply Z.ltb_lt in Hfull; try apply Z.ltb_ge in Hfull.
  - rewrite length_drop, length_app. simpl. lia.
  - rewrite length_app. simpl. lia.
  - rewrite drop_app_le by lia. apply last_snoc.
  - apply last_snoc.
  - apply suffix_drop.
  - done.
Qed.

(** A store of two entries, below capacity. *)
Lemma X22_audit_store_keeps_the_latest_witness :
  AuditRouter.add_audit_entry
    [sample_entry "r1" "h1"; sample_entry "r2" "h2"] (sample_entry "r3" "h3")
  = [sample_entry "r1" "h1"; sample_entry "r2" "h2"; sample_entry "r3" "h3"].
Proof.
  destruct (X22_audit_store_keeps_the_latest
              [sample_entry "r1" "h1"; sample_entry "r2" "h2"]
              (sample_entry "r3" "h3")) as (_ & _ & _ & H).
  apply H. simpl. lia.
Defined.

(** X23: while the store holds fewer than 10000 entries, adding an entry
    extends the chain hash over the store's integrity hashes by exactly one
    link: the new chain hash is the hash of the old one, the separator and
    the new entry's integrity hash. *)
Theorem X23_adding_an_entry_extends_the_chain (sha256 : string → string)
    (audit_store : list AuditRouter.audit_entry)
    (entry : AuditRouter.audit_entry) :
  Z.of_nat (length audit_store) < 10000 →
  HashService.generate_chain_hash sha256
    (AuditRouter.integrity_hash <$>
     AuditRouter.add_audit_entry audit_store entry)
  = sha256
      (HashService.generate_chain_hash sha256
         (AuditRouter.integrity_hash <$> audit_store)
       +:+ "|" +:+ AuditRouter.integrity_hash entry).
Proof.
  intros Hroom. rewrite add_audit_entry_below_capacity by done.
  rewrite fmap_app. apply chain_snoc.
Qed.

(** One entry added to a store of one. *)
Lemma X23_adding_an_entry_extends_the_chain_witness :
  HashService.generate_chain_hash sample_sha256
    (AuditRouter.integrity_hash <$>
     AuditRouter.add_audit_entry [sample_entry "r1" "h1"]
       (sample_entry "r2" "h2"))
  = sample_sha256
      (HashService.generate_chain_hash sample_sha256 ["h1"] +:+ "|" +:+ "h2").
Proof.
  apply (X23_adding_an_entry_extends_the_chain sample_sha256
           [sample_entry "r1" "h1"] (sample_entry "r2" "h2")).
  simpl. lia.
Defined.

(** X24: [verify_audit_integrity] looks the requested ids up in the store and
    chains the matching entries in the order of the store: the answer is the
    same for every reordering of the requested ids and for every license key,
    and when it is not the refusal 400 it reports as many entries as ids were
    requested and is valid exactly when [verify_chain] accepts the integrity
    hashes of the matching entries, in store order, against the expected
    hash. *)
Theorem X24_audit_verification_follows_store_order (sha256 : string → string)
    (audit_store : list AuditRouter.audit_entry)
    (request_ids request_ids' : list string)
    (expected_chain_hash license_key license_key' : string) :
  request_ids ≡ₚ request_ids' →
  AuditRouter.verify_audit_integrity sha256 audit_store request_ids
    expected_chain_hash license_key
  = AuditRouter.verify_audit_integrity sha256 audit_store request_ids'
      expected_chain_hash license_key' ∧
  ∀ report,
    AuditRouter.verify_audit_integrity sha256 audit_store request_ids
      expected_chain_hash license_key = inr report →
    AuditRouter.entries_verified report = Z.of_nat (length request_ids) ∧
    AuditRouter.valid report
    = HashService.verify_chain sha256
        (AuditRouter.integrity_hash <$>
         List.filter
           (λ e, bool_decide (AuditRouter.request_id e ∈ request_ids))
           audit_store)
        expected_chain_hash.
Proof.
  intros Hperm. unfold AuditRouter.verify_audit_integrity. split.
  - rewrite (List.filter_ext
      (λ e, bool_decide (AuditRouter.request_id e ∈ request_ids))
      (λ e, bool_decide (AuditRouter.request_id e ∈ request_ids'))).
    + by rewrite (Permutation_length Hperm).
    + intros e. apply bool_decide_ext. by rewrite Hperm.
  - intros report.
    destruct (bool_decide (length _ = length request_ids)) eqn:Hcount;
      simpl; [|done].
    apply bool_decide_eq_true in Hcount. intros [= <-]. simpl.
    by rewrite Hcount.
Qed.

(** Two stored entries, requested in the opposite order. *)
Lemma X24_audit_verification_follows_store_order_witness :
  AuditRouter.verify_audit_integrity sample_sha256
    [sample_entry "r1" "h1"; sample_entry "r2" "h2"] ["r2"; "r1"]
    (HashService.generate_chain_hash sample_sha256 ["h1"; "h2"]) "key"
  = AuditRouter.verify_audit_integrity sample_sha256
      [sample_entry "r1" "h1"; sample_entry "r2" "h2"] ["r1"; "r2"]
      (HashService.generate_chain_hash sample_sha256 ["h1"; "h2"]) "key".
Proof.
  apply (X24_audit_verification_follows_store_order sample_sha256
           [sample_entry "r1" "h1"; sample_entry "r2" "h2"]
           ["r2"; "r1"] ["r1"; "r2"]).
  apply Permutation_swap.
Defined.

(** ** Loading the policy *)

(** X25: when reading the policy file raises [FileNotFoundError] or
    [JSONDecodeError], [__init__] does not fail: it builds exactly the engine
    of the built-in default policy, with fail-closed mode on, as it does when
    the file holds the default policy itself.  Every other exception raised
    while reading the file ([UnicodeDecodeError] on a file that is not UTF-8,
    [PermissionError], ...) leaves [__init__] unlogged and uncaught, and a
    file whose JSON value, or whose [thresholds] or [patterns] section, is
    not an object makes [__init__] raise an [AttributeError]: in these cases
    no engine is built. *)
Theorem X25_policy_falls_back_to_defaults (policy_path : string)
    (file : SPIELEnginePolicy.policy_file) (w : world) :
  ((∃ e, file = SPIELEnginePolicy.Raised e ∧
         (exn_type e = "FileNotFoundError" ∨
          exn_type e = "JSONDecodeError")) ∨
   file = SPIELEnginePolicy.Loaded
            (SPIELEnginePolicy.JObject SPIELEnginePolicy._default_policy) →
   ∃ engine w',
     SPIELEnginePolicy.__init__ policy_path file w = (Ok engine, w') ∧
     SPIELEnginePolicy.attributes engine = SPIELEngine._default_policy ∧
     SPIELEngine.fail_closed (SPIELEnginePolicy.attributes engine) = true) ∧
  (∀ e, file = SPIELEnginePolicy.Raised e →
        exn_type e ≠ "FileNotFoundError" →
        exn_type e ≠ "JSONDecodeError" →
        SPIELEnginePolicy.__init__ policy_path file w = (Raise e, w)) ∧
  (∀ type_name,
     file = SPIELEnginePolicy.Loaded (SPIELEnginePolicy.JOther type_name) ∨
     (∃ document,
        file = SPIELEnginePolicy.Loaded (SPIELEnginePolicy.JObject document) ∧
        (SPIELEnginePolicy.thresholds document
         = Some (SPIELEnginePolicy.JOther type_name) ∨
         ((SPIELEnginePolicy.thresholds document = None ∨
           ∃ th, SPIELEnginePolicy.thresholds document
                 = Some (SPIELEnginePolicy.JObject th)) ∧
          SPIELEnginePolicy.patterns document
          = Some (SPIELEnginePolicy.JOther type_name)))) →
     SPIELEnginePolicy.__init__ policy_path file w
     = (Raise (Exn "AttributeError"
                 ("'" +:+ type_name +:+ "' object has no attribute 'get'")),
        w)).
Proof.
  unfold SPIELEnginePolicy.__init__, SPIELEnginePolicy._load_policy,
    SPIELEnginePolicy.is_FileNotFoundError,
    SPIELEnginePolicy.is_JSONDecodeError.
  split; [|split].
  - intros [(e & -> & [He | He]) | ->].
    + rewrite (bool_decide_eq_true_2 _ He).
      unfold SPIELEnginePolicy.py_get, mbind, M_bind, Py.bind, emit, mret,
        M_ret, Py.ret.
      by do 2 eexists.
    + destruct (bool_decide (exn_type e = "FileNotFoundError"));
        rewrite ?(bool_decide_eq_true_2 _ He);
        unfold SPIELEnginePolicy.py_get, mbind, M_bind, Py.bind, emit, mret,
          M_ret, Py.ret;
        by do 2 eexists.
    + unfold SPIELEnginePolicy.py_get, mbind, M_bind, Py.bind, emit, mret,
        M_ret, Py.ret.
      by do 2 eexists.
  - intros e -> Hfile Hjson.
    by rewrite (bool_decide_eq_false_2 _ Hfile),
      (bool_decide_eq_false_2 _ Hjson).
  - intros type_name
      [-> | (document & -> & [Hth | [[Hth | [th Hth]] Hpt]])];
      unfold mbind, M_bind, Py.bind, mret, M_ret, Py.ret; simpl;
      rewrite ?Hth, ?Hpt; reflexivity.
Qed.

(** A missing file, a file that is not UTF-8, and a file holding a list. *)
Lemma X25_policy_falls_back_to_defaults_witness :
  (∃ engine w',
     SPIELEnginePolicy.__init__ "policy_store.json"
       (SPIELEnginePolicy.Raised
          (Exn "FileNotFoundError"
             "[Errno 2] No such file or directory: 'policy_store.json'"))
       sample_world = (Ok engine, w') ∧
     SPIELEnginePolicy.attributes engine = SPIELEngine._default_policy) ∧
  SPIELEnginePolicy.__init__ "policy_store.json"
    (SPIELEnginePolicy.Raised
       (Exn "UnicodeDecodeError"
          "'utf-8' codec can't decode byte 0xff in position 0"))
    sample_world
  = (Raise (Exn "UnicodeDecodeError"
              "'utf-8' codec can't decode byte 0xff in position 0"),
     sample_world) ∧
  SPIELEnginePolicy.__init__ "policy_store.json"
    (SPIELEnginePolicy.Loaded (SPIELEnginePolicy.JOther "list")) sample_world
  = (Raise (Exn "AttributeError" "'list' object has no attribute 'get'"),
     sample_world).
Proof.
  split; [|split].
  - destruct (X25_policy_falls_back_to_defaults "policy_store.json"
                (SPIELEnginePolicy.Raised
                   (Exn "FileNotFoundError"
                      "[Errno 2] No such file or directory: 'policy_store.json'"))
                sample_world) as (H & _ & _).
    destruct H as (engine & w' & Hrun & Hattr & _).
    { left. eexists. split; [reflexivity|]. by left. }
    by exists engine, w'.
  - destruct (X25_policy_falls_back_to_defaults "policy_store.json"
                (SPIELEnginePolicy.Raised
                   (Exn "UnicodeDecodeError"
                      "'utf-8' codec can't decode byte 0xff in position 0"))
                sample_world) as (_ & H & _).
    by apply H.
  - destruct (X25_policy_falls_back_to_defaults "policy_store.json"
                (SPIELEnginePolicy.Loaded (SPIELEnginePolicy.JOther "list"))
                sample_world) as (_ & _ & H).
    apply (H "list"). by left.
Defined.

(** X26: a policy document without a [patterns] and without a [thresholds]
    section gives an engine that keeps the default thresholds but knows no
    phrase at all: on every text Safety is 100, Ethics is 100, Integrity is
    95 and no violation is recorded, so the engine never answers BLOCK or
    REVIEW, whatever the text says. *)
Theorem X26_policy_without_patterns_never_blocks (str_float : Q → string)
    (policy_path : string) (document : SPIELEnginePolicy.policy)
    (text : string) (context : option (gmap string pyval)) (w w0 : world) :
  SPIELEnginePolicy.patterns document = None →
  SPIELEnginePolicy.thresholds document = None →
  ∃ engine w1 r w',
    SPIELEnginePolicy.__init__ policy_path
      (SPIELEnginePolicy.Loaded (SPIELEnginePolicy.JObject document)) w0
    = (Ok engine, w1) ∧
    SPIELEngine.enforce str_float (SPIELEnginePolicy.attributes engine)
      (Some text) context w = (Ok r, w') ∧
    SPIELEngine.safety_score r = 100 ∧
    SPIELEngine.ethics_score r = 100 ∧
    SPIELEngine.integrity_score r = 95 ∧
    SPIELEngine.violations r = [] ∧
    SPIELEngine.action r ≠ SPIELEngine.BLOCK ∧
    SPIELEngine.action r ≠ SPIELEngine.REVIEW.
Proof.
  intros Hpat Hthr.
  unfold SPIELEnginePolicy.__init__, SPIELEnginePolicy._load_policy,
    SPIELEnginePolicy.py_get, mbind, M_bind, Py.bind, emit, mret, M_ret,
    Py.ret.
  rewrite Hpat, Hthr. simpl.
  do 2 eexists.
  set (engine := {| SPIELEngine.safety_threshold := 85 |}).
  rewrite enforce_some.
  destruct (enforce_try_some str_float engine text context
              (clock w (reads w)) (tick w))
    as (r & Hr & Hs & _ & Hi & He & _ & _ & Hact).
  destruct (enforce_try_detail str_float engine text context
              (clock w (reads w)) (tick w)) as (r' & Hr' & _ & Hlen).
  rewrite Hr in Hr'. injection Hr' as <-.
  exists r, (tick (tick (tick w))). split; [reflexivity|]. split; [done|].
  simpl in Hs, Hi, He, Hlen. rewrite !hits_nil in *.
  assert (SPIELEngine.violations r = []) as Hv.
  { apply length_zero_iff_nil. lia. }
  split; [lia|]. split; [lia|]. split; [lia|]. split; [done|].
  rewrite Hv, Hs, He in Hact.
  unfold SPIELEngine._determine_action in Hact. simpl in Hact.
  destruct (Qlt_bool (inject_Z (SPIELEngine.integrity_score r)) _);
    [injection Hact as -> _; done|].
  destruct (Qlt_bool (inject_Z (SPIELEngine.logic_score r)) _);
    injection Hact as -> _; done.
Qed.

(** The empty policy document and a text full of catalogue words. *)
Lemma X26_policy_without_patterns_never_blocks_witness :
  ∃ engine w1 r w',
    SPIELEnginePolicy.__init__ "policy_store.json"
      (SPIELEnginePolicy.Loaded
         (SPIELEnginePolicy.JObject
            {| SPIELEnginePolicy.version := None;
               SPIELEnginePolicy.p_fail_closed := None;
               SPIELEnginePolicy.thresholds := None;
               SPIELEnginePolicy.patterns := None |})) sample_world
    = (Ok engine, w1) ∧
    SPIELEngine.enforce sample_str_float (SPIELEnginePolicy.attributes engine)
      (Some "kill, attack, cheat and steal") None sample_world = (Ok r, w') ∧
    SPIELEngine.safety_score r = 100 ∧
    SPIELEngine.action r ≠ SPIELEngine.BLOCK.
Proof.
  destruct (X26_policy_without_patterns_never_blocks sample_str_float
              "policy_store.json"
              {| SPIELEnginePolicy.version := None;
                 SPIELEnginePolicy.p_fail_closed := None;
                 SPIELEnginePolicy.thresholds := None;
                 SPIELEnginePolicy.patterns := None |}
              "kill, attack, cheat and steal" None sample_world sample_world
              eq_refl eq_refl)
    as (engine & w1 & r & w' & H1 & H2 & Hs & _ & _ & _ & Hb & _).
  by exists engine, w1, r, w'.
Defined.

(** X27: [reload_policy] replaces the stored policy document and nothing
    else: the thresholds, the pattern lists and the fail-closed flag the
    engine enforces with stay those read at construction, so [enforce]
    answers after a reload exactly as before it, whether the file is now
    missing, invalid or holds another JSON value.  When reading the file
    raises an exception other than the two [_load_policy] handles, the
    reload raises it and replaces nothing at all. *)
Theorem X27_reload_leaves_enforcement_unchanged (str_float : Q → string)
    (self : SPIELEnginePolicy.engine) (file : SPIELEnginePolicy.policy_file)
    (w0 : world) :
  let reloads (document : SPIELEnginePolicy.json_object
                            SPIELEnginePolicy.policy) :=
    ∃ self' w1,
      SPIELEnginePolicy.reload_policy self file w0 = (Ok self', w1) ∧
      SPIELEnginePolicy.loaded_policy self' = document ∧
      ∀ text context w,
        SPIELEngine.enforce str_float (SPIELEnginePolicy.attributes self')
          text context w
        = SPIELEngine.enforce str_float (SPIELEnginePolicy.attributes self)
            text context w in
  match file with
  | SPIELEnginePolicy.Loaded document => reloads document
  | SPIELEnginePolicy.Raised e =>
      if SPIELEnginePolicy.is_FileNotFoundError e
         || SPIELEnginePolicy.is_JSONDecodeError e
      then reloads (SPIELEnginePolicy.JObject SPIELEnginePolicy._default_policy)
      else SPIELEnginePolicy.reload_policy self file w0 = (Raise e, w0)
  end.
Proof.
  unfold SPIELEnginePolicy.reload_policy, SPIELEnginePolicy._load_policy,
    mbind, M_bind, Py.bind, emit, mret, M_ret, Py.ret.
  destruct file as [e|document]; [|by do 2 eexists].
  destruct (SPIELEnginePolicy.is_FileNotFoundError e);
    [by do 2 eexists|].
  destruct (SPIELEnginePolicy.is_JSONDecodeError e); [by do 2 eexists|].
  done.
Qed.

(** ** The validation endpoint *)

Section validation_endpoint.

Import ValidationRouter.

Variable sha256 : string → string.
Variable timestamp_str : Q → string.
Variable isoformat : Q → string.
Variable validation_error : string → exn.

Lemma in_range_inject_Z (lo hi x : Z) :
  lo ≤ x ≤ hi → in_range (inject_Z lo) (inject_Z hi) (inject_Z x) = true.
Proof.
  intros [Hlo Hhi]. unfold in_range.
  by rewrite andb_true_iff, !Qle_bool_inject_Z.
Qed.

(** The scores of the scoring service always fit the response schema. *)
Lemma scores_fit_schema (self : SPIELService.SPIELService) (text : string)
    (context : option (gmap string pyval)) :
  ∃ r,
    (∀ w, ∃ w', SPIELService.analyze self text context w = (Ok r, w')) ∧
    in_range 0 100 (inject_Z (SPIELService.safety r)) = true ∧
    in_range 0 100 (inject_Z (SPIELService.personalization r)) = true ∧
    in_range 0 100 (inject_Z (SPIELService.integrity r)) = true ∧
    in_range 0 100 (inject_Z (SPIELService.ethics r)) = true ∧
    in_range 0 100 (inject_Z (SPIELService.logic r)) = true ∧
    in_range 0 100 (SPIELService.composite r) = true ∧
    in_range 0 1 (SPIELService.composite r / 100) = true.
Proof.
  destruct (analyze_run self text context)
    as (r & Hr & Hs & Hp & Hi & He & Hl & Hc).
  exists r. split; [done|].
  pose proof (hits_nonneg (lower text) (SPIELService.dishonest_patterns self)).
  pose proof (hits_nonneg (lower text) (SPIELService.unethical_patterns self)).
  pose proof (service_personalization_bounds self text context).
  pose proof (service_logic_bounds self text).
  assert (0 ≤ SPIELService.safety r ≤ 100) by lia.
  assert (0 ≤ SPIELService.personalization r ≤ 100) by lia.
  assert (0 ≤ SPIELService.integrity r ≤ 100) by lia.
  assert (0 ≤ SPIELService.ethics r ≤ 100) by lia.
  assert (0 ≤ SPIELService.logic r ≤ 100) by lia.
  repeat split; try (by apply (in_range_inject_Z 0 100)).
  - rewrite Hc. unfold in_range. rewrite andb_true_iff, !Qle_bool_iff.
    unfold Qle, Qdiv, Qmult, Qinv, inject_Z. simpl. lia.
  - rewrite Hc. unfold in_range. rewrite andb_true_iff, !Qle_bool_iff.
    unfold Qle, Qdiv, Qmult, Qinv, inject_Z. simpl. lia.
Qed.

(** The confidence of the validator always fits the response schema. *)
Lemma confidence_fits_schema (self : THTService.THTService) (text : string)
    (context : option (gmap string pyval)) :
  ∃ r,
    (∀ w, ∃ w', THTService.validate self text context w = (Ok r, w')) ∧
    in_range 0 1 (THTService.confidence_score r) = true.
Proof.
  destruct (validate_detail self text context)
    as (r & Hr & _ & _ & _ & Hc & _).
  exists r. split; [done|]. rewrite Hc.
  unfold in_range. rewrite andb_true_iff, !Qle_bool_iff.
  destruct (negb (existsb _ (THTService.false_patterns self)));
  destruct (negb (existsb _ (THTService.dishonest_patterns self)));
  destruct (negb (existsb _ (THTService.claim_patterns self)) || _ || _);
    by vm_compute.
Qed.

(** The [try] block of [validate_interaction] completes, and its response
    is decided by the pass flag of the scoring service and the compliance
    flag of the validator. *)
Lemma validate_interaction_try_run (request : ValidationRequest)
    (uuid4 : string) (start_time : Q) (w : world) :
  let text := HashServiceOps.or_str (output request) (input request) in
  let context := fmap (M := option) (fmap PyStr) (context request) in
  ∃ scores checks response w',
    (∀ w0, ∃ w1,
       SPIELService.analyze spiel_service text context w0 = (Ok scores, w1)) ∧
    (∀ w0, ∃ w1,
       THTService.validate tht_service text context w0 = (Ok checks, w1)) ∧
    validate_interaction_try sha256 timestamp_str isoformat validation_error
      request uuid4 start_time w = (Ok response, w') ∧
    is_safe response = SPIELService.is_passing scores ∧
    status response
    = (if SPIELService.is_passing scores
       then if THTService.is_compliant checks then SAFE else WARNING
       else BLOCKED) ∧
    message response
    = (if SPIELService.is_passing scores then text else rephrase_message) ∧
    original_input response = input request ∧
    original_output response = text ∧
    confidence response = (SPIELService.composite scores / 100)%Q ∧
    (SPIELService.is_passing scores = true → violations response = []) ∧
    request_id response = uuid4.
Proof.
  intros text context.
  destruct (scores_fit_schema spiel_service text context)
    as (scores & Hscores & Hs & Hp & Hi & He & Hl & Hc & Hconf).
  destruct (confidence_fits_schema tht_service text context)
    as (checks & Hchecks & Htc).
  exists scores, checks.
  unfold validate_interaction_try. fold text. fold context.
  destruct (Hscores w) as [w1 Hrun1]. destruct (Hchecks w1) as [w2 Hrun2].
  unfold mbind at 1, M_bind at 1, Py.bind at 1. rewrite Hrun1.
  unfold mbind at 1, M_bind at 1, Py.bind at 1. rewrite Hrun2.
  destruct (SPIELService.is_passing scores);
    destruct (THTService.is_compliant checks); cbn [negb];
    unfold HashServiceOps.generate_integrity_hash, new_SPIELScoreSchema,
      new_THTValidationSchema, new_ValidationResponse;
    rewrite Hs, Hp, Hi, He, Hl, Hc, Htc; cbn [andb];
    unfold mbind, M_bind, Py.bind, time_time, emit, mret, M_ret, Py.ret;
    cbn [confidence]; rewrite Hconf;
    do 2 eexists; (split; [done|]); (split; [done|]);
    (split; [reflexivity|]); simpl; done.
Qed.

End validation_endpoint.

(** The endpoint returns what its [try] block returns. *)
Lemma validate_interaction_run (sha256 : string → string)
    (timestamp_str isoformat : Q → string) (validation_error : string → exn)
    (request : ValidationRouter.ValidationRequest)
    (license_key uuid4 : string) (w : world) :
  ∃ w0,
    ∀ response w',
      ValidationRouter.validate_interaction_try sha256 timestamp_str
        isoformat validation_error request uuid4 (clock w (reads w)) w0
      = (Ok response, w') →
      ValidationRouter.validate_interaction sha256 timestamp_str isoformat
        validation_error request license_key uuid4 w
      = (Ok (inr response), w').
Proof.
  unfold ValidationRouter.validate_interaction, try_except.
  unfold mbind, M_bind, Py.bind, time_time, emit, mret, M_ret, Py.ret.
  eexists. intros response w' ->. reflexivity.
Qed.


(** X29: [validate_interaction] marks the response unsafe, with the status
    BLOCKED, exactly when the scoring service does not pass the text; only
    then is the message replaced by the fixed rephrasing notice, and
    otherwise the message is the validated text itself. *)
Theorem X29_validation_endpoint_blocks_on_scores (sha256 : string → string)
    (timestamp_str isoformat : Q → string) (validation_error : string → exn)
    (request : ValidationRouter.ValidationRequest)
    (license_key uuid4 : string) (w : world) :
  let text :=
    HashServiceOps.or_str (ValidationRouter.output request)
      (ValidationRouter.input request) in
  let context :=
    fmap (M := option) (fmap PyStr) (ValidationRouter.context request) in
  ∃ scores response w',
    (∀ w0, ∃ w1,
       SPIELService.analyze ValidationRouter.spiel_service text context w0
       = (Ok scores, w1)) ∧
    ValidationRouter.validate_interaction sha256 timestamp_str isoformat
      validation_error request license_key uuid4 w
    = (Ok (inr response), w') ∧
    ValidationRouter.is_safe response = SPIELService.is_passing scores ∧
    (ValidationRouter.status response = ValidationRouter.BLOCKED ↔
     SPIELService.is_passing scores = false) ∧
    (ValidationRouter.message response = ValidationRouter.rephrase_message ↔
     SPIELService.is_passing scores = false ∨
     text = ValidationRouter.rephrase_message) ∧
    (SPIELService.is_passing scores = true →
     ValidationRouter.message response = text).
Proof.
  intros text context.
  destruct (validate_interaction_run sha256 timestamp_str isoformat
              validation_error request license_key uuid4 w) as [w0 Hend].
  destruct (validate_interaction_try_run sha256 timestamp_str isoformat
              validation_error request uuid4 (clock w (reads w)) w0)
    as (scores & checks & response & w' & Hscores & _ & Htry & Hsafe &
        Hstatus & Hmsg & _).
  rewrite (Hend _ _ Htry).
  exists scores, response, w'. split; [done|]. split; [done|].
  split; [done|]. rewrite Hstatus, Hmsg. fold text.
  destruct (SPIELService.is_passing scores);
    destruct (THTService.is_compliant checks); intuition congruence.
Qed.

(** X30: a text that the scoring service passes but the validator finds not
    compliant is not blocked by [validate_interaction]: the response has the
    status WARNING, is marked safe, lists no violation and carries the
    validated text itself as its message. *)
Theorem X30_validation_endpoint_only_warns_on_checks
    (sha256 : string → string) (timestamp_str isoformat : Q → string)
    (validation_error : string → exn)
    (request : ValidationRouter.ValidationRequest)
    (license_key uuid4 : string) (w : world) :
  let text :=
    HashServiceOps.or_str (ValidationRouter.output request)
      (ValidationRouter.input request) in
  let context :=
    fmap (M := option) (fmap PyStr) (ValidationRouter.context request) in
  ∃ scores checks response w',
    (∀ w0, ∃ w1,
       SPIELService.analyze ValidationRouter.spiel_service text context w0
       = (Ok scores, w1)) ∧
    (∀ w0, ∃ w1,
       THTService.validate ValidationRouter.tht_service text context w0
       = (Ok checks, w1)) ∧
    ValidationRouter.validate_interaction sha256 timestamp_str isoformat
      validation_error request license_key uuid4 w
    = (Ok (inr response), w') ∧
    (SPIELService.is_passing scores = true →
     THTService.is_compliant checks = false →
     ValidationRouter.status response = ValidationRouter.WARNING ∧
     ValidationRouter.is_safe response = true ∧
     ValidationRouter.violations response = [] ∧
     ValidationRouter.message response = text).
Proof.
  intros text context.
  destruct (validate_interaction_run sha256 timestamp_str isoformat
              validation_error request license_key uuid4 w) as [w0 Hend].
  destruct (validate_interaction_try_run sha256 timestamp_str isoformat
              validation_error request uuid4 (clock w (reads w)) w0)
    as (scores & checks & response & w' & Hscores & Hchecks & Htry & Hsafe &
        Hstatus & Hmsg & _ & _ & _ & Hviol & _).
  rewrite (Hend _ _ Htry).
  exists scores, checks, response, w'. split; [done|]. split; [done|].
  split; [done|]. intros Hpass Hfail.
  rewrite Hstatus, Hsafe, Hmsg, Hpass, Hfail. auto.
Qed.

(** An overconfident but harmless answer. *)
Lemma X30_validation_endpoint_only_warns_on_checks_witness :
  ∃ response w',
    ValidationRouter.validate_interaction sample_sha256 sample_str_float
      sample_str_float (λ model, Exn "ValidationError" model)
      {| ValidationRouter.input := "Will it rain?";
         ValidationRouter.output := Some "It will definitely rain.";
         ValidationRouter.context := None;
         ValidationRouter.user_id := None |}
      "key" "id-1" sample_world
    = (Ok (inr response), w') ∧
    ValidationRouter.status response = ValidationRouter.WARNING ∧
    ValidationRouter.is_safe response = true ∧
    ValidationRouter.message response = "It will definitely rain.".
Proof.
  destruct (X30_validation_endpoint_only_warns_on_checks sample_sha256
              sample_str_float sample_str_float
              (λ model, Exn "ValidationError" model)
              {| ValidationRouter.input := "Will it rain?";
                 ValidationRouter.output := Some "It will definitely rain.";
                 ValidationRouter.context := None;
                 ValidationRouter.user_id := None |}
              "key" "id-1" sample_world)
    as (scores & checks & response & w' & Hscores & Hchecks & Hrun & Hwarn).
  exists response, w'. split; [done|].
  destruct (Hscores sample_world) as [w1 H1].
  destruct (Hchecks sample_world) as [w2 H2].
  vm_compute in H1. vm_compute in H2.
  injection H1 as <- _. injection H2 as <- _.
  destruct Hwarn as (Hstatus & Hsafe & _ & Hmsg); [reflexivity..|].
  done.
Defined.
